(** * SALLY-E mini-app front end: a shallow embedding of its ad-reward flows

    The development follows the JavaScript modules one by one:
    - [ShrinkEarn]        static/js/shrinkearn.js  (cooldown label, mission trigger)
    - [AdsgramBoost]      adsgram_boost.js         (consent modal, boost activation)
    - [OnClickA]          static/js/onclicka_pts.js (SDK loader, user id)
    - [VpnDetector]       static/js/vpn_detector.js (cached and retried VPN check)
    - [DeviceFingerprint] static/js/device_fingerprint.js (24h cached hash)
    - [DbLoader]          db_loader.js             (request counter of the overlay)

    JavaScript values are modelled as follows.  Integral [Number]s are [Z] or
    [N] (exact below 2^53, which covers every second count and timestamp the
    pages handle); strings are [string], compared bytewise, which agrees with
    JavaScript on the ASCII needles the code searches for; [null]/[undefined]
    is [None]; the truthiness tests of the source are written out.  The DOM is
    a record of the attributes the code reads and writes; effects on the
    outside world (toasts, requests, redirects, timers) are appended to a log. *)

From stdpp Require Import gmap strings list pretty.
From Stdlib Require Import ZArith Lia Ascii.

Open Scope string_scope.

(** ** JavaScript library functions used by the modules *)

Module Js.

(** [String.prototype.includes]: does [needle] occur in [s]? *)
Fixpoint includes (needle s : string) : bool :=
  String.prefix needle s ||
  match s with
  | EmptyString => false
  | String _ rest => includes needle rest
  end.

(** Truthiness of a string value: only the empty string is falsy. *)
Definition truthy_str (s : string) : bool :=
  negb (String.eqb s "").

(** Truthiness of a possibly missing string ([null], [undefined] or [string]). *)
Definition truthy_ostr (o : option string) : bool :=
  match o with
  | Some s => truthy_str s
  | None => false
  end.

(** Truthiness of an integral number: only zero is falsy. *)
Definition truthy_num (z : Z) : bool := negb (z =? 0)%Z.

(** [pad.repeat] cut to [n] characters, as [padStart] builds its filler. *)
Fixpoint filler (pad cur : string) (n : nat) : string :=
  match n with
  | O => ""
  | S k =>
      match cur with
      | EmptyString =>
          match pad with
          | EmptyString => ""
          | String c rest => String c (filler pad rest k)
          end
      | String c rest => String c (filler pad rest k)
      end
  end.

(** [String.prototype.padStart(targetLength, padString)]. *)
Definition padStart (s : string) (target : nat) (pad : string) : string :=
  if (target <=? String.length s)%nat then s
  else if String.eqb pad "" then s
  else filler pad pad (target - String.length s) ++ s.

(** Template-literal rendering of a non-negative integral number. *)
Definition num_to_string (n : N) : string := pretty n.

(** Template-literal rendering of an integral number. *)
Definition int_to_string (z : Z) : string := pretty z.


(** The double quote character. *)
Definition double_quote : string := String (Ascii.ascii_of_nat 34) "".

(** The line feed character. *)
Definition line_feed : string := String (Ascii.ascii_of_nat 10) "".


End Js.

(** ** Values shared by the page modules *)

Module Ui.

(** The [type] argument of the toast helpers. *)
Inductive toast_type := success | error | warning | info.

(** An error object whose [message] and [description] are strings or
    missing: an [Error] of the platform with its [message], or an SDK error
    object with a [description]. *)
Record js_error := {
  message : option string;
  description : option string
}.

(** A property of a thrown value, as far as a handler can tell: nothing
    ([undefined] or [null]), a string, or another value, of which only the
    call of [includes] on it matters: [includes s] is the truthiness of
    what the call returns, or [None] when the call throws (the value has no
    callable [includes], as a number or a plain object). *)
Inductive property :=
| no_value
| string_value (s : string)
| other_value (includes : string -> option bool).

(** A thrown value: [undefined] or [null], or any other value, with what
    its properties [message] and [description] hold (nothing, for a
    primitive). Promises of third-party code reject with any of these. *)
Inductive thrown :=
| nullish
| thrown_value (message_of description_of : property).

Definition property_of (o : option string) : property :=
  match o with
  | Some s => string_value s
  | None => no_value
  end.

(** An error object as a thrown value. *)
Definition error_object (e : js_error) : thrown :=
  thrown_value (property_of (message e)) (property_of (description e)).
Coercion error_object : js_error >-> thrown.

(** The [TypeError] of the engine for reading a property of [undefined] or
    [null] or calling what is not a function. Its message is the engine's
    own text; the code modelled here never reads it. *)
Definition TypeError : js_error :=
  {| message := Some "TypeError"; description := None |}.

(** Completion of a block of statements: normal, or abrupt by [throw]. *)
Inductive result (A : Type) :=
| ok (a : A)
| throw (e : thrown).
Arguments ok {A} a.
Arguments throw {A} e.

(** What [getUserId] reads from [window]: the [user_id] parameter of
    [location.search] and [Telegram.WebApp.initDataUnsafe.user.id]. *)
Record window := {
  url_user_id : option string;
  telegram_user_id : option Z;
  haptic_feedback : bool
}.

(** The value [getUserId] returns: [null], the query string's text or the
    Telegram number. *)
Inductive user_id :=
| uid_null
| uid_str (s : string)
| uid_num (z : Z).

Definition uid_truthy (u : user_id) : bool :=
  match u with
  | uid_null => false
  | uid_str s => Js.truthy_str s
  | uid_num z => Js.truthy_num z
  end.

(** Rendering inside a template literal. *)
Definition uid_to_string (u : user_id) : string :=
  match u with
  | uid_null => "null"
  | uid_str s => s
  | uid_num z => Js.int_to_string z
  end.

End Ui.

(** ** static/js/shrinkearn.js *)

Module ShrinkEarn.
Import Ui.

(** [formatCooldown(seconds)]. *)
Definition formatCooldown (seconds : N) : string :=
  if (seconds <? 60)%N then
    Js.num_to_string seconds ++ "s"
  else
    let mins := (seconds / 60)%N in
    let secs := (seconds mod 60)%N in
    Js.num_to_string mins ++ ":" ++ Js.padStart (Js.num_to_string secs) 2 "0".

(** [window.ShrinkEarnState], restricted to the fields the mission trigger
    reads and writes. *)
Record ShrinkEarnState := {
  userId : option string;
  activeMission : option string
}.

(** The JSON body answered by [POST /shrinkearn/start]; [has_mission]
    tells whether [data.mission] is there for [showMissionStartModal] to
    read. *)
Record start_response := {
  resp_success : bool;
  has_mission : bool;
  shortened_url : string;
  error_es : option string;
  resp_error : option string;
  cooldown_remaining : N
}.

(** How the awaited [fetch] / [response.json()] pair of a flow ends. *)
Inductive fetch_outcome :=
| responded (data : start_response)
| fetch_failed.

(** What a mission flow does to the page, in order. [button_loading] and
    [button_restored] are the writes to the start button of the mission,
    made when the mission element and its button are found. *)
Inductive effect :=
| show_toast (message : string) (type : toast_type)
| button_loading (missionId : string)
| post_start (user : string) (missionId : string)
| haptic_medium  (* sent when the Telegram haptic API is there *)
| mission_modal (url : string)
| open_later (url : string)
| button_restored (missionId : string)
| refresh_later.

(** The page as the controller sees it: the global state object, the flows
    suspended at their [await] (by mission id, oldest first) and the log of
    effects so far. *)
Record page := {
  st : ShrinkEarnState;
  in_flight : list string;
  log : list effect
}.

Definition emit (e : list effect) (p : page) : page :=
  {| st := st p; in_flight := in_flight p; log := log p ++ e |}.

Definition set_activeMission (m : option string) (p : page) : page :=
  {| st := {| userId := userId (st p); activeMission := m |};
     in_flight := in_flight p; log := log p |}.

(** [a || b] on possibly missing strings. *)
Definition or_else (a : option string) (b : option string) : option string :=
  if Js.truthy_ostr a then a else b.

(** The body of [try] after the response arrived, or the [catch] block.
    With a success answer that holds no [mission], [showMissionStartModal]
    throws on [mission.icon] and the [catch] block takes over. *)
Definition settle_effects (o : fetch_outcome) : list effect :=
  match o with
  | responded data =>
      if resp_success data then
        haptic_medium ::
        (if has_mission data then
           [mission_modal (shortened_url data); open_later (shortened_url data)]
         else [show_toast "Error de conexión" error])
      else
        let errorMsg :=
          default "Error al iniciar misión"
            (or_else (or_else (error_es data) (resp_error data))
                     (Some "Error al iniciar misión")) in
        show_toast errorMsg error ::
        (if (cooldown_remaining data =? 0)%N then []
         else [show_toast ("Espera " ++ formatCooldown (cooldown_remaining data))
                          warning])
  | fetch_failed => [show_toast "Error de conexión" error]
  end.

(** The rest of [startShrinkEarnMission] for the [i]-th suspended flow: the
    [try] body or the [catch] block, then the [finally] block. *)
Definition settle (i : nat) (o : fetch_outcome) (p : page) : page :=
  match in_flight p !! i with
  | None => p
  | Some missionId =>
      let p := emit (settle_effects o) p in
      let p := set_activeMission None p in
      let p := emit [button_restored missionId; refresh_later] p in
      {| st := st p; in_flight := delete i (in_flight p); log := log p |}
  end.

(** What can happen on the page: a click on a mission, or the answer to a
    pending request. *)
Inductive event :=
| trigger (missionId : string)
| settled (i : nat) (o : fetch_outcome).

(** The selector [startShrinkEarnMission] looks the mission element up
    with: [`[data-mission-id="${missionId}"]`]. *)
Definition mission_selector (missionId : string) : string :=
  "[data-mission-id=" ++ Js.double_quote ++ missionId ++ Js.double_quote ++ "]".

Section WithSelectors.

(** Whether [document.querySelector] accepts a selector text; on every other
    text it throws a [SyntaxError]. *)
Variable valid_selector : string -> bool.

(** [startShrinkEarnMission(missionId)] up to its first [await]. The lookup
    of the mission element comes after the flag is set and before the
    [try] block: when [querySelector] throws, the function ends there, with
    the flag set and nothing sent. *)
Definition startShrinkEarnMission (missionId : string) (p : page) : page :=
  if negb (Js.truthy_ostr (userId (st p))) then
    emit [show_toast "Error: Usuario no identificado" error] p
  else if Js.truthy_ostr (activeMission (st p)) then
    p
  else
    let p := set_activeMission (Some missionId) p in
    if negb (valid_selector (mission_selector missionId)) then
      p
    else
      let p := emit [button_loading missionId;
                     post_start (default "" (userId (st p))) missionId] p in
      {| st := st p; in_flight := in_flight p ++ [missionId]; log := log p |}.

Definition step (p : page) (e : event) : page :=
  match e with
  | trigger missionId => startShrinkEarnMission missionId p
  | settled i o => settle i o p
  end.

Definition run (es : list event) (p : page) : page :=
  fold_left step es p.

(** The clicks among the events have a selector that [querySelector]
    accepts. *)
Definition finds_element (e : event) : bool :=
  match e with
  | trigger missionId => valid_selector (mission_selector missionId)
  | settled _ _ => true
  end.

End WithSelectors.

(** Mission ids that set the busy flag: [activeMission = missionId] is
    truthy exactly for a non-empty id. *)
Definition sets_flag (e : event) : bool :=
  match e with
  | trigger missionId => Js.truthy_str missionId
  | settled _ _ => true
  end.

(** No flow is suspended and the flag is clear; or exactly one flow is
    suspended and the flag is set; or the flag is set and no flow is
    suspended, as after a lookup that threw. *)
Inductive guarded (p : page) : Prop :=
| guarded_idle :
    in_flight p = [] ->
    Js.truthy_ostr (activeMission (st p)) = false ->
    guarded p
| guarded_busy (m : string) :
    in_flight p = [m] ->
    Js.truthy_ostr (activeMission (st p)) = true ->
    Js.truthy_ostr (userId (st p)) = true ->
    guarded p
| guarded_stuck :
    in_flight p = [] ->
    Js.truthy_ostr (activeMission (st p)) = true ->
    Js.truthy_ostr (userId (st p)) = true ->
    guarded p.

(** The flag is set exactly while a flow is suspended. *)
Definition exact (p : page) : Prop :=
  Js.truthy_ostr (activeMission (st p)) = true <-> length (in_flight p) = 1%nat.

(** The [POST /shrinkearn/start] requests among the effects: user and
    mission. *)
Definition posts (l : list effect) : list (string * string) :=
  omap (fun e => match e with
                 | post_start user missionId => Some (user, missionId)
                 | _ => None
                 end) l.

Definition is_refresh (e : effect) : bool :=
  match e with
  | refresh_later => true
  | _ => false
  end.

(** How often an effect of a kind is in the log. *)
Definition count (f : effect -> bool) (l : list effect) : nat :=
  length (List.filter f l).

(** Every request sent is either still awaited or was followed by the
    [finally] block. *)
Definition balanced (p : page) : Prop :=
  length (posts (log p)) = (count is_refresh (log p) + length (in_flight p))%nat.

End ShrinkEarn.

(** ** adsgram_boost.js *)

Module AdsgramBoost.
Import Ui.

Definition ADSGRAM_SDK_URL : string := "https://sad.adsgram.ai/js/sad.min.js".

(** [getUserId()]. *)
Definition getUserId (w : window) : user_id :=
  let userId :=
    match url_user_id w with
    | Some s => uid_str s
    | None => uid_null
    end in
  match telegram_user_id w with
  | Some id =>
      if negb (uid_truthy userId) && Js.truthy_num id then uid_num id
      else userId
  | None => userId
  end.

(** Module-level SDK state and the script elements of [document.head]. *)
Record sdk_state := {
  Adsgram : bool;
  isAdsgramReady : bool;
  adsgramController : bool;
  head_scripts : list string
}.

(** The consent modal: [None] stands for an element that is not in the
    document. *)
Record modal_state := {
  modal_styles : bool;
  modal_display : option string;
  loading_display : option string;
  accept_disabled : option bool;
  cancel_disabled : option bool
}.

Inductive effect :=
| toast (message : string) (type : toast_type)
| get_can_activate (user : string)
| post_activate (user : string)
| ad_shown
| haptic_impact (style : string)
| haptic_notification (kind : string)
| update_ui_later.

Record page := {
  win : window;
  sdk : sdk_state;
  modal : modal_state;
  pending_checks : nat;
  log : list effect
}.

Definition with_sdk (f : sdk_state -> sdk_state) (p : page) : page :=
  {| win := win p; sdk := f (sdk p); modal := modal p;
     pending_checks := pending_checks p; log := log p |}.

Definition with_modal (f : modal_state -> modal_state) (p : page) : page :=
  {| win := win p; sdk := sdk p; modal := f (modal p);
     pending_checks := pending_checks p; log := log p |}.

Definition with_pending (f : nat -> nat) (p : page) : page :=
  {| win := win p; sdk := sdk p; modal := modal p;
     pending_checks := f (pending_checks p); log := log p |}.

Definition emit (e : list effect) (p : page) : page :=
  {| win := win p; sdk := sdk p; modal := modal p;
     pending_checks := pending_checks p; log := log p ++ e |}.

(** [showBoostToast(message, type)]. *)
Definition showBoostToast (message : string) (type : toast_type) (p : page) : page :=
  emit [toast message type] p.

(** [if (window.Telegram?.WebApp?.HapticFeedback) ...]. *)
Definition haptic (e : effect) (p : page) : page :=
  if haptic_feedback (win p) then emit [e] p else p.

(** [if (el) el.attr = v]. *)
Definition set_if_present {A : Type} (v : A) (el : option A) : option A :=
  match el with
  | Some _ => Some v
  | None => None
  end.

(** Insertion of a missing element with its initial attribute. *)
Definition inserted {A : Type} (v : A) (el : option A) : option A :=
  match el with
  | Some a => Some a
  | None => Some v
  end.

(** [createBoostModalStyles()]. *)
Definition createBoostModalStyles (p : page) : page :=
  with_modal (fun m =>
    {| modal_styles := true; modal_display := modal_display m;
       loading_display := loading_display m;
       accept_disabled := accept_disabled m;
       cancel_disabled := cancel_disabled m |}) p.

(** [createBoostConsentModal()]. *)
Definition createBoostConsentModal (p : page) : page :=
  match modal_display (modal p) with
  | Some _ => p
  | None =>
      with_modal (fun m =>
        {| modal_styles := modal_styles m;
           modal_display := Some "none";
           loading_display := inserted "none" (loading_display m);
           accept_disabled := inserted false (accept_disabled m);
           cancel_disabled := inserted false (cancel_disabled m) |}) p
  end.

(** [closeBoostModal()]. *)
Definition closeBoostModal (p : page) : page :=
  let p := with_modal (fun m =>
    {| modal_styles := modal_styles m;
       modal_display := set_if_present "none" (modal_display m);
       loading_display := set_if_present "none" (loading_display m);
       accept_disabled := set_if_present false (accept_disabled m);
       cancel_disabled := set_if_present false (cancel_disabled m) |}) p in
  haptic (haptic_impact "light") p.

(** [openBoostModal()] up to its first [await]. *)
Definition openBoostModal (p : page) : page :=
  let p := createBoostModalStyles p in
  let p := createBoostConsentModal p in
  let userId := getUserId (win p) in
  if negb (uid_truthy userId) then
    showBoostToast "Error: Usuario no identificado" error p
  else
    with_pending S (emit [get_can_activate (uid_to_string userId)] p).

(** The answer of [GET /api/boost/can-activate], or a failed request. *)
Inductive eligibility :=
| can_activate_response (can_activate : bool) (reason : option string)
| check_failed.

(** [openBoostModal()] after its [await]s, for one suspended invocation. *)
Definition openBoostModal_resume (o : eligibility) (p : page) : page :=
  match pending_checks p with
  | O => p
  | S n =>
      let p := with_pending (fun _ => n) p in
      match o with
      | check_failed => showBoostToast "Error de conexión" error p
      | can_activate_response can_activate reason =>
          if negb can_activate then
            showBoostToast
              (if Js.truthy_ostr reason then default "" reason
               else "No puedes activar boost ahora") warning p
          else
            match modal_display (modal p) with
            | None => showBoostToast "Error de conexión" error p
            | Some _ =>
                let p := with_modal (fun m =>
                  {| modal_styles := modal_styles m;
                     modal_display := Some "flex";
                     loading_display := loading_display m;
                     accept_disabled := accept_disabled m;
                     cancel_disabled := cancel_disabled m |}) p in
                haptic (haptic_impact "light") p
            end
      end
  end.

(** Events on the boost trigger. *)
Inductive trigger_event :=
| trigger_click
| eligibility_answer (o : eligibility).

Definition trigger_step (p : page) (e : trigger_event) : page :=
  match e with
  | trigger_click => openBoostModal p
  | eligibility_answer o => openBoostModal_resume o p
  end.

Definition trigger_run (es : list trigger_event) (p : page) : page :=
  fold_left trigger_step es p.

(** *** A state monad with exceptions for the [async] consent flow *)

Definition M (A : Type) : Type := page -> result A * page.

Definition ret {A : Type} (a : A) : M A := fun p => (ok a, p).

Definition bind {A B : Type} (m : M A) (k : A -> M B) : M B :=
  fun p =>
    match m p with
    | (ok a, p') => k a p'
    | (throw e, p') => (throw e, p')
    end.

Definition raise {A : Type} (e : thrown) : M A := fun p => (throw e, p).

(** A statement that only updates the page. *)
Definition exec (f : page -> page) : M unit := fun p => (ok tt, f p).

(** [try { m } catch (e) { h e }]. *)
Definition try_catch {A : Type} (m : M A) (h : thrown -> M A) : M A :=
  fun p =>
    match m p with
    | (ok a, p') => (ok a, p')
    | (throw e, p') => h e p'
    end.

(** [try { m } finally { f }]: [f] runs on every completion of [m]; an
    exception of [f] replaces the completion of [m]. *)
Definition try_finally {A : Type} (m : M A) (f : M unit) : M A :=
  fun p =>
    match m p with
    | (r, p') =>
        match f p' with
        | (ok _, p'') => (r, p'')
        | (throw e, p'') => (throw e, p'')
        end
    end.

Notation "'let*' x := m 'in' k" := (bind m (fun x => k))
  (at level 10, x name, m at level 100, k at level 200).
Notation "'run*' m 'in' k" := (bind m (fun _ => k))
  (at level 10, m at level 100, k at level 200).

(** *** SDK initialisation *)

(** The [try { adsgramController = window.Adsgram.init(...); ... }] block of
    [initAdsgram]; [init_error] is what [Adsgram.init] throws, if anything. *)
Definition Adsgram_init (init_error : option thrown) : M unit :=
  match init_error with
  | None =>
      exec (with_sdk (fun s =>
        {| Adsgram := Adsgram s; isAdsgramReady := true;
           adsgramController := true; head_scripts := head_scripts s |}))
  | Some e => raise e
  end.

(** [initAdsgram()] up to the point where its promise is settled or waits
    for the injected script: [None] is the waiting promise. *)
Definition initAdsgram (init_error : option thrown) (p : page)
  : option (result unit) * page :=
  if Adsgram (sdk p) && isAdsgramReady (sdk p) then
    (Some (ok tt), p)
  else if negb (Adsgram (sdk p)) then
    (None, with_sdk (fun s =>
       {| Adsgram := Adsgram s; isAdsgramReady := isAdsgramReady s;
          adsgramController := adsgramController s;
          head_scripts := head_scripts s ++ [ADSGRAM_SDK_URL] |}) p)
  else
    let '(r, p') := Adsgram_init init_error p in (Some r, p').

(** [script.onload]: the loaded script has defined [window.Adsgram]. *)
Definition script_onload (init_error : option thrown) : M unit :=
  run* exec (with_sdk (fun s =>
    {| Adsgram := true; isAdsgramReady := isAdsgramReady s;
       adsgramController := adsgramController s;
       head_scripts := head_scripts s |})) in
  Adsgram_init init_error.

(** [script.onerror]. *)
Definition script_onerror : M unit :=
  raise {| message := Some "Failed to load AdsGram SDK"; description := None |}.

(** Events on the SDK loader. *)
Inductive sdk_event :=
| sdk_call (init_error : option thrown)
| sdk_script_loaded (init_error : option thrown)
| sdk_script_failed.

Definition sdk_step (p : page) (e : sdk_event) : page :=
  match e with
  | sdk_call init_error => snd (initAdsgram init_error p)
  | sdk_script_loaded init_error => snd (script_onload init_error p)
  | sdk_script_failed => snd (script_onerror p)
  end.

Definition sdk_run (es : list sdk_event) (p : page) : page :=
  fold_left sdk_step es p.

(** The SDK script elements in [document.head]. *)
Definition sdk_scripts (p : page) : list string :=
  filter (fun src => src = ADSGRAM_SDK_URL) (head_scripts (sdk p)).

(** *** The consent flow *)

(** The object [controller.show()] resolves to. *)
Record show_result := { done : bool }.

(** The JSON body answered by [POST /api/boost/activate], as the backend
    writes it: [success] a boolean, [boost?.pts_earned] an integer or
    missing, [error] a text or missing. *)
Record activate_data := {
  resp_success : bool;
  pts_earned : option Z;
  activate_error : option string
}.

(** How the awaited calls of one run of [acceptAndShowAd] end. *)
Record ad_run := {
  script_loads : bool;
  init_error : option thrown;
  shown : result show_result;
  activation : result activate_data
}.

(** [await initAdsgram()]. *)
Definition await_initAdsgram (r : ad_run) : M unit :=
  fun p =>
    match initAdsgram (init_error r) p with
    | (Some res, p') => (res, p')
    | (None, p') =>
        if script_loads r then script_onload (init_error r) p'
        else script_onerror p'
    end.

(** [await controller.show()]. *)
Definition await_show (r : ad_run) : M show_result :=
  fun p => (shown r, emit [ad_shown] p).

(** [await fetch(`/api/boost/activate?user_id=${userId}`, ...)] followed by
    [await activateResponse.json()]. *)
Definition await_activate (r : ad_run) : M activate_data :=
  fun p =>
    (activation r,
     emit [post_activate (uid_to_string (getUserId (win p)))] p).

Definition BOOST_ACTIVATED : string := "🚀 ¡Boost x2 activado por 30 minutos!".

(** [v?.includes('user')] on a property [v] of the caught value: [None]
    when the call throws. *)
Definition includes_user (v : property) : option bool :=
  match v with
  | no_value => Some false
  | string_value s => Some (Js.includes "user" s)
  | other_value includes => includes "user"
  end.

(** [error.message?.includes('user') || error.description?.includes('user')]:
    [None] when evaluating the test throws a [TypeError], which it does on
    [undefined] and [null] and on a property without a callable
    [includes]. *)
Definition cancelled_by_user (e : thrown) : option bool :=
  match e with
  | nullish => None
  | thrown_value message_of description_of =>
      match includes_user message_of with
      | Some true => Some true
      | Some false => includes_user description_of
      | None => None
      end
  end.

(** [activateData.error && activateData.error.includes('activo')]. *)
Definition already_active (d : activate_data) : bool :=
  Js.truthy_ostr (activate_error d) &&
  match activate_error d with
  | Some e => Js.includes "activo" e
  | None => false
  end.

(** [acceptAndShowAd()]. *)
Definition acceptAndShowAd (r : ad_run) : M unit :=
  run* exec (with_modal (fun m =>
    {| modal_styles := modal_styles m;
       modal_display := modal_display m;
       loading_display := set_if_present "flex" (loading_display m);
       accept_disabled := set_if_present true (accept_disabled m);
       cancel_disabled := set_if_present true (cancel_disabled m) |})) in
  try_finally
    (try_catch
       (run* await_initAdsgram r in
        let* result := await_show r in
        if done result then
          run* try_catch
            (let* activateData := await_activate r in
             run* exec closeBoostModal in
             if resp_success activateData then
               let ptsMsg :=
                 match pts_earned activateData with
                 | Some n =>
                     if Js.truthy_num n then " +" ++ Js.int_to_string n ++ " PTS"
                     else " +15 PTS"
                 | None => " +15 PTS"
                 end in
               exec (showBoostToast (BOOST_ACTIVATED ++ ptsMsg) success)
             else if already_active activateData then
               exec (showBoostToast (BOOST_ACTIVATED ++ " +15 PTS") success)
             else
               exec (showBoostToast
                       (if Js.truthy_ostr (activate_error activateData)
                        then default "" (activate_error activateData)
                        else "Boost activado") info))
            (fun activateError =>
               run* exec closeBoostModal in
               exec (showBoostToast (BOOST_ACTIVATED ++ " +15 PTS") success)) in
          run* exec (emit [update_ui_later]) in
          exec (haptic (haptic_notification "success"))
        else
          ret tt)
       (fun error_ =>
          match cancelled_by_user error_ with
          | Some cancelled =>
              run* exec
                (if cancelled then
                   showBoostToast "Anuncio cancelado" info
                 else
                   showBoostToast "Error al cargar anuncio. Intenta de nuevo."
                     error) in
              exec (haptic (haptic_notification "error"))
          | None => raise TypeError
          end))
    (run* exec (with_modal (fun m =>
       {| modal_styles := modal_styles m;
          modal_display := modal_display m;
          loading_display := set_if_present "none" (loading_display m);
          accept_disabled := set_if_present false (accept_disabled m);
          cancel_disabled := set_if_present false (cancel_disabled m) |})) in
     exec closeBoostModal).

(** The same run with another answer to the activation request. *)
Definition with_activation (a : result activate_data) (r : ad_run) : ad_run :=
  {| script_loads := script_loads r; init_error := init_error r;
     shown := shown r; activation := a |}.

(** An answer with [success: true] and no [boost.pts_earned]. *)
Definition plain_success : activate_data :=
  {| resp_success := true; pts_earned := None; activate_error := None |}.

(** The toasts among the effects. *)
Definition toasts (l : list effect) : list (string * toast_type) :=
  omap (fun e => match e with
                 | toast m t => Some (m, t)
                 | _ => None
                 end) l.

(** *** The boost button *)

(** The fields of [GET /api/boost/status] that decide the button. *)
Record boost_status := {
  status_success : bool;
  has_active_boost : bool;
  can_activate : bool;
  cooldown_remaining_seconds : N;
  daily_boosts_used : N;
  daily_boosts_limit : N
}.

Inductive icon := bolt | clock.

(** The button as rendered: [disabled], the SVG icon and the text of the
    [<span>] written to [innerHTML]. *)
Record button_view := {
  btn_disabled : bool;
  btn_icon : icon;
  btn_text : string
}.

(** [updateBoostUI()], the part that writes [boost-trigger-button]. *)
Definition updateBoostUI (status : option boost_status)
    (boostButton : option button_view) : option button_view :=
  match status with
  | None => boostButton
  | Some status =>
      if negb (status_success status) then boostButton
      else
        match boostButton with
        | None => None
        | Some _ =>
            if has_active_boost status then
              Some {| btn_disabled := true; btn_icon := bolt;
                      btn_text := "Boost Activo" |}
            else
              let disabled := negb (can_activate status) in
              if (0 <? cooldown_remaining_seconds status)%N then
                let mins := (cooldown_remaining_seconds status / 60)%N in
                let secs := (cooldown_remaining_seconds status mod 60)%N in
                Some {| btn_disabled := disabled; btn_icon := clock;
                        btn_text := "Espera " ++ Js.num_to_string mins ++ ":" ++
                                    Js.padStart (Js.num_to_string secs) 2 "0" |}
              else if (daily_boosts_limit status <=? daily_boosts_used status)%N then
                Some {| btn_disabled := disabled; btn_icon := bolt;
                        btn_text := "Límite diario (" ++
                                    Js.num_to_string (daily_boosts_used status) ++ "/" ++
                                    Js.num_to_string (daily_boosts_limit status) ++ ")" |}
              else
                Some {| btn_disabled := disabled; btn_icon := bolt;
                        btn_text := "Activar Boost x2" |}
        end
  end.


(** The eligibility requests among the effects, by user. *)
Definition eligibility_requests (l : list effect) : list string :=
  omap (fun e => match e with
                 | get_can_activate user => Some user
                 | _ => None
                 end) l.

(** An eligibility answer that lets the user activate a boost. *)
Definition grants (e : trigger_event) : bool :=
  match e with
  | eligibility_answer (can_activate_response can_activate _) => can_activate
  | _ => false
  end.

Definition is_click (e : trigger_event) : bool :=
  match e with
  | trigger_click => true
  | _ => false
  end.

(** The value that reaches the outer [catch] of [acceptAndShowAd], if any:
    what [initAdsgram] or [controller.show()] rejected with. *)
Definition caught (r : ad_run) (p : page) : option thrown :=
  match fst (await_initAdsgram r p) with
  | throw e => Some e
  | ok _ =>
      match shown r with
      | throw e => Some e
      | ok _ => None
      end
  end.

(** The activation requests among the effects, by user. *)
Definition activations (l : list effect) : list string :=
  omap (fun e => match e with
                 | post_activate user => Some user
                 | _ => None
                 end) l.

(** What [haptic] adds to the log on page [p]. *)
Definition haptic_log (p : page) (e : effect) : list effect :=
  if haptic_feedback (win p) then [e] else [].

(** The two buttons are the same elements on both pages: present or absent
    alike. *)
Definition same_buttons (p p' : page) : Prop :=
  (fun _ : bool => tt) <$> accept_disabled (modal p')
  = (fun _ : bool => tt) <$> accept_disabled (modal p)
  /\ (fun _ : bool => tt) <$> cancel_disabled (modal p')
     = (fun _ : bool => tt) <$> cancel_disabled (modal p).

(** A computation that neither inserts nor removes a button. *)
Definition keeps_buttons {A : Type} (m : M A) : Prop :=
  forall p, same_buttons p (snd (m p)).

End AdsgramBoost.

(** ** static/js/onclicka_pts.js *)

Module OnClickA.
Import Ui.

Definition scriptUrl : string :=
  "https://js.onclckvd.com/in-stream-ad-admanager/tma.js".

(** The module flag and the [src] of every script element of the document. *)
Record page := {
  onclickaReady : bool;
  scripts : list string
}.

(** [document.querySelector(`script[src="${url}"]`)] finds an element. *)
Definition has_script (url : string) (p : page) : bool :=
  existsb (String.eqb url) (scripts p).

(** State of the promise [loadOnClickaSDK] returns. *)
Inductive promise := resolved_true | waiting_for_script.

(** [loadOnClickaSDK()]. *)
Definition loadOnClickaSDK (p : page) : promise * page :=
  if onclickaReady p then
    (resolved_true, p)
  else if has_script scriptUrl p then
    (resolved_true, {| onclickaReady := true; scripts := scripts p |})
  else
    (waiting_for_script,
     {| onclickaReady := onclickaReady p;
        scripts := scripts p ++ [scriptUrl] |}).

(** [script.onload]. *)
Definition script_onload (p : page) : page :=
  {| onclickaReady := true; scripts := scripts p |}.

(** [script.onerror] rejects the promise and leaves the page as it is. *)
Definition script_onerror (p : page) : page := p.

Inductive event := call | script_loaded | script_failed.

Definition step (p : page) (e : event) : page :=
  match e with
  | call => snd (loadOnClickaSDK p)
  | script_loaded => script_onload p
  | script_failed => script_onerror p
  end.

Definition run (es : list event) (p : page) : page :=
  fold_left step es p.

(** The SDK script elements of the document. *)
Definition sdk_scripts (p : page) : list string :=
  filter (fun src => src = scriptUrl) (scripts p).

(** [getUserId()]. *)
Definition getUserId (w : window) : user_id :=
  let userId :=
    match url_user_id w with
    | Some s => uid_str s
    | None => uid_null
    end in
  match telegram_user_id w with
  | Some id =>
      if negb (uid_truthy userId) && Js.truthy_num id then uid_num id
      else userId
  | None => userId
  end.

End OnClickA.

(** ** static/js/vpn_detector.js *)

Module VpnDetector.

Record config := {
  enabled : bool;
  apiEndpoint : string;
  blockOnError : bool;
  cacheTimeout : Z;
  maxRetries : nat;
  debug : bool
}.

Definition VPN_CHECK_CONFIG : config := {|
  enabled := true;
  apiEndpoint := "/api/vpn-check";
  blockOnError := false;
  cacheTimeout := 60000;
  maxRetries := 2;
  debug := false
|}.

(** The answer of the endpoint, read through the truthiness of the two
    fields the script tests. *)
Record vpn_result := {
  vpn_detected : bool;
  error : bool
}.

(** One request to the endpoint: a body that parsed, or a network error, a
    non-2xx status or an unreadable body. *)
Inductive fetch_outcome :=
| fetched (data : vpn_result)
| fetch_failed.

(** What the page load reads from the browser: the location, the clock at
    the cache test and when the result is stored, and the outcome of the
    n-th request. *)
Record browser := {
  pathname : string;
  search_user_id : option string;
  now : Z;
  now_at_store : Z;
  responses : nat -> fetch_outcome
}.

Inductive effect :=
| create_overlay
| request (endpoint : string)
| wait (ms : Z)
| redirect (href : string)
| hide_overlay.

Inductive completion := returned | rejected.

Record outcome := {
  storage : gmap string string;
  effects : list effect;
  ended : completion
}.

(** *** [parseInt] *)

Definition char_code (c : Ascii.ascii) : Z := Z.of_N (Ascii.N_of_ascii c).

(** The white space and line terminators of one byte: U+0009 to U+000D and
    the space. *)
Definition is_space (c : Ascii.ascii) : bool :=
  let n := char_code c in
  ((9 <=? n) && (n <=? 13) || (n =? 32))%Z.

(** The first byte of the UTF-8 form of the other white space and line
    terminators that [parseInt] strips. *)
Definition space_lead (c : Ascii.ascii) : bool :=
  let n := char_code c in
  ((n =? 194) || (n =? 225) || (n =? 226) || (n =? 227) || (n =? 239))%Z.

(** U+00A0. *)
Definition space_of_two (c1 c2 : Ascii.ascii) : bool :=
  ((char_code c1 =? 194) && (char_code c2 =? 160))%Z.

(** U+1680, U+2000 to U+200A, U+2028, U+2029, U+202F, U+205F, U+3000 and
    U+FEFF. *)
Definition space_of_three (c1 c2 c3 : Ascii.ascii) : bool :=
  let n1 := char_code c1 in
  let n2 := char_code c2 in
  let n3 := char_code c3 in
  ((n1 =? 225) && (n2 =? 154) && (n3 =? 128)
   || (n1 =? 226) && (n2 =? 128)
      && ((128 <=? n3) && (n3 <=? 138) || (n3 =? 168) || (n3 =? 169)
          || (n3 =? 175))
   || (n1 =? 226) && (n2 =? 129) && (n3 =? 159)
   || (n1 =? 227) && (n2 =? 128) && (n3 =? 128)
   || (n1 =? 239) && (n2 =? 187) && (n3 =? 191))%Z.

(** The text without its leading white space and line terminators; texts
    are held as UTF-8. *)
Fixpoint skip_spaces (s : string) : string :=
  match s with
  | String c1 rest1 =>
      if is_space c1 then skip_spaces rest1
      else if negb (space_lead c1) then s
      else
        match rest1 with
        | String c2 rest2 =>
            if space_of_two c1 c2 then skip_spaces rest2
            else
              match rest2 with
              | String c3 rest3 =>
                  if space_of_three c1 c2 c3 then skip_spaces rest3 else s
              | EmptyString => s
              end
        | EmptyString => s
        end
  | EmptyString => s
  end.

Definition digit_value (radix : Z) (c : Ascii.ascii) : option Z :=
  let n := char_code c in
  let d :=
    if ((48 <=? n) && (n <=? 57))%Z then (n - 48)%Z
    else if ((97 <=? n) && (n <=? 122))%Z then (n - 87)%Z
    else if ((65 <=? n) && (n <=? 90))%Z then (n - 55)%Z
    else radix in
  if (d <? radix)%Z then Some d else None.

Fixpoint parse_digits (radix : Z) (s : string) (acc : option Z) : option Z :=
  match s with
  | String c rest =>
      match digit_value radix c with
      | Some d => parse_digits radix rest (Some (default 0 acc * radix + d)%Z)
      | None => acc
      end
  | EmptyString => acc
  end.

(** [parseInt(s)]: [None] is [NaN]. The result is the exact integer; the
    code's number is the nearest double, which is the same below 2^53. *)
Definition parseInt (s : string) : option Z :=
  let s := skip_spaces s in
  let '(sign, s) :=
    match s with
    | String "-"%char rest => ((-1)%Z, rest)
    | String "+"%char rest => (1%Z, rest)
    | _ => (1%Z, s)
    end in
  let '(radix, s) :=
    match s with
    | String "0"%char (String "x"%char rest) => (16%Z, rest)
    | String "0"%char (String "X"%char rest) => (16%Z, rest)
    | _ => (10%Z, s)
    end in
  Z.mul sign <$> parse_digits radix s None.

(** *** The check *)

Section WithJSON.

(** [JSON.parse] of a cached result ([None]: it throws, or yields a value
    without properties) and [JSON.stringify] of a result. *)
Variable JSON_parse : string -> option vpn_result.
Variable JSON_stringify : vpn_result -> string.

(** [checkVPNStatus()]. *)
Definition checkVPNStatus (o : fetch_outcome) : vpn_result :=
  match o with
  | fetched data => data
  | fetch_failed =>
      {| vpn_detected := blockOnError VPN_CHECK_CONFIG; error := true |}
  end.

(** [redirectToBlockedPage()]. *)
Definition redirectToBlockedPage (b : browser) : effect :=
  let userId := if Js.truthy_ostr (search_user_id b)
                then default "" (search_user_id b) else "" in
  redirect ("/vpn-blocked" ++
            (if Js.truthy_str userId then "?user_id=" ++ userId else "")).

(** The [while (retries < maxRetries)] loop, by recursion on
    [maxRetries - retries]; [retries] also numbers the request. *)
Fixpoint retry_loop (b : browser) (remaining retries : nat)
    (result : option vpn_result) : option vpn_result * list effect :=
  match remaining with
  | O => (result, [])
  | S remaining' =>
      let result := checkVPNStatus (responses b retries) in
      if negb (error result) then
        (Some result, [request (apiEndpoint VPN_CHECK_CONFIG)])
      else
        let '(final, rest) :=
          retry_loop b remaining' (S retries) (Some result) in
        (final, request (apiEndpoint VPN_CHECK_CONFIG) :: wait 500 :: rest)
  end.

(** The cached result that is still valid, if there is one. *)
Definition valid_cache (b : browser) (ss : gmap string string) : option string :=
  match ss !! "vpn_check_result", ss !! "vpn_check_time" with
  | Some cachedResult, Some cachedTime =>
      if Js.truthy_str cachedResult && Js.truthy_str cachedTime then
        match parseInt cachedTime with
        | Some t =>
            let elapsed := (now b - t)%Z in
            if (elapsed <? cacheTimeout VPN_CHECK_CONFIG)%Z
            then Some cachedResult else None
        | None => None
        end
      else None
  | _, _ => None
  end.

(** [initVPNCheck()]. *)
Definition initVPNCheck (b : browser) (ss : gmap string string) : outcome :=
  if negb (enabled VPN_CHECK_CONFIG) then
    {| storage := ss; effects := []; ended := returned |}
  else if String.eqb (pathname b) "/vpn-blocked" then
    {| storage := ss; effects := []; ended := returned |}
  else if String.prefix "/admin" (pathname b) then
    {| storage := ss; effects := []; ended := returned |}
  else
    match valid_cache b ss with
    | Some cachedResult =>
        match JSON_parse cachedResult with
        | None =>
            {| storage := ss; effects := [create_overlay]; ended := rejected |}
        | Some result =>
            if vpn_detected result then
              {| storage := ss;
                 effects := [create_overlay; redirectToBlockedPage b];
                 ended := returned |}
            else
              {| storage := ss;
                 effects := [create_overlay; hide_overlay];
                 ended := returned |}
        end
    | None =>
        let '(result, requests) :=
          retry_loop b (maxRetries VPN_CHECK_CONFIG) 0 None in
        let ss' :=
          match result with
          | Some r =>
              if negb (error r) then
                <["vpn_check_time" := Js.int_to_string (now_at_store b)]>
                  (<["vpn_check_result" := JSON_stringify r]> ss)
              else ss
          | None => ss
          end in
        let last :=
          match result with
          | Some r => if vpn_detected r then redirectToBlockedPage b
                      else hide_overlay
          | None => hide_overlay
          end in
        {| storage := ss';
           effects := create_overlay :: requests ++ [last];
           ended := returned |}
    end.

End WithJSON.

(** The requests among the effects. *)
Definition requests_in (l : list effect) : list string :=
  omap (fun e => match e with
                 | request endpoint => Some endpoint
                 | _ => None
                 end) l.

(** [window.VPNCheck.clearCache()]. *)
Definition clearCache (ss : gmap string string) : gmap string string :=
  delete "vpn_check_time" (delete "vpn_check_result" ss).

(** [window.VPNCheck.recheck()]. *)
Definition recheck (JSON_parse : string -> option vpn_result)
    (JSON_stringify : vpn_result -> string)
    (b : browser) (ss : gmap string string) : outcome :=
  initVPNCheck JSON_parse JSON_stringify b (clearCache ss).

(** A decimal digit, and a text made of decimal digits only. *)
Definition is_decimal (c : Ascii.ascii) : bool :=
  let n := char_code c in ((48 <=? n) && (n <=? 57))%Z.

Fixpoint all_decimal (s : string) : bool :=
  match s with
  | String c rest => is_decimal c && all_decimal rest
  | EmptyString => true
  end.

(** The page is one that [initVPNCheck] checks: neither the blocked page
    nor an admin page. *)
Definition checked_page (b : browser) : bool :=
  negb (String.eqb (pathname b) "/vpn-blocked")
  && negb (String.prefix "/admin" (pathname b)).

End VpnDetector.

(** ** static/js/device_fingerprint.js *)

Module DeviceFingerprint.

(** What the collectors of the module read from the browser: the values
    returned by [getCanvasFingerprint], [getWebGLFingerprint],
    [getAudioFingerprint], [getScreenInfo], [getBrowserInfo] and
    [getStorageFingerprint], numbers that need not be integral as rendered
    by string concatenation. *)
Record device := {
  canvas : string;
  webgl : string;
  audio : string;
  screen_width : N;
  screen_height : N;
  colorDepth : N;
  pixelRatio : string;
  platform : string;
  timezone : string;
  hardwareConcurrency : string;
  maxTouchPoints : N;
  plugins : string;
  storage_info : string
}.

(** [ToInt32]: the value of the bitwise operators. *)
Definition to_int32 (z : Z) : Z :=
  ((z + 2147483648) mod 4294967296 - 2147483648)%Z.

Definition charCodeAt (c : Ascii.ascii) : Z := Z.of_N (Ascii.N_of_ascii c).

(** The [for] loop of [hashCode]: [hash = ((hash << 5) - hash) + char;
    hash = hash & hash]. *)
Fixpoint hash_loop (str : string) (hash : Z) : Z :=
  match str with
  | String c rest =>
      hash_loop rest (to_int32 (to_int32 (hash * 32) - hash + charCodeAt c))
  | EmptyString => hash
  end.

Definition base36_digit (d : Z) : Ascii.ascii :=
  Ascii.ascii_of_N (Z.to_N (if (d <? 10)%Z then 48 + d else 87 + d)).

(** [toString(36)] of a non-negative integer of at most [digits] digits;
    seven digits cover every absolute value of a 32-bit integer. *)
Fixpoint to_base36 (digits : nat) (z : Z) (acc : string) : string :=
  match digits with
  | O => acc
  | S digits' =>
      let acc := String (base36_digit (z mod 36)) acc in
      if (z / 36 =? 0)%Z then acc else to_base36 digits' (z / 36) acc
  end.

(** [hashCode(str)]. *)
Definition hashCode (str : string) : string :=
  if String.eqb str "" then "0"
  else to_base36 7 (Z.abs (hash_loop str 0)) "".

(** [generate().hash]. *)
Definition generate (d : device) : string :=
  let components := [
    canvas d;
    webgl d;
    audio d;
    Js.num_to_string (screen_width d) ++ "x" ++ Js.num_to_string (screen_height d);
    Js.num_to_string (colorDepth d);
    pixelRatio d;
    platform d;
    timezone d;
    hardwareConcurrency d;
    Js.num_to_string (maxTouchPoints d);
    plugins d;
    storage_info d
  ] in
  let fullHash := hashCode (String.concat "|" components) in
  let shortHash :=
    hashCode (canvas d ++ webgl d ++ Js.num_to_string (screen_width d) ++ platform d) in
  "df_" ++ shortHash ++ "_" ++ fullHash.

(** The object kept under [_se_device_fp]. *)
Record stored_fingerprint := {
  hash : option string;
  timestamp : option Z
}.

Inductive effect :=
| generated
| set_item (key value : string).

Record outcome := {
  returned : option string;
  storage : gmap string string;
  effects : list effect
}.

Section WithJSON.

(** [JSON.parse] of the stored text ([None]: it throws, or yields a value
    without properties, which the [try] block swallows alike) and
    [JSON.stringify] of the object that is stored. *)
Variable JSON_parse : string -> option stored_fingerprint.
Variable JSON_stringify : stored_fingerprint -> string.

(** The cached object when it is less than 24 hours old. *)
Definition fresh_cache (now : Z) (ls : gmap string string)
  : option stored_fingerprint :=
  match ls !! "_se_device_fp" with
  | Some stored =>
      if Js.truthy_str stored then
        match JSON_parse stored with
        | Some data =>
            match timestamp data with
            | Some ts =>
                if Js.truthy_num ts && (now - ts <? 86400000)%Z
                then Some data else None
            | None => None
            end
        | None => None
        end
      else None
  | None => None
  end.

(** [getStoredFingerprint()] on device [d]; [now] is [Date.now()] at the
    test of the cache and [stored_at] is [Date.now()] when the fingerprint
    is stored. *)
Definition getStoredFingerprint (d : device) (now stored_at : Z)
    (ls : gmap string string) : outcome :=
  match fresh_cache now ls with
  | Some data =>
      {| returned := hash data; storage := ls; effects := [] |}
  | None =>
      let fingerprint := generate d in
      let text := JSON_stringify {| hash := Some fingerprint;
                                    timestamp := Some stored_at |} in
      {| returned := Some fingerprint;
         storage := <["_se_device_fp" := text]> ls;
         effects := [generated; set_item "_se_device_fp" text] |}
  end.

End WithJSON.

(** The hash of [hashCode] without the 32-bit wrap-around: the polynomial
    [hash * 31 + char] over the characters. *)
Fixpoint exact_hash (str : string) (hash : Z) : Z :=
  match str with
  | String c rest => exact_hash rest (hash * 31 + charCodeAt c)
  | EmptyString => hash
  end.



End DeviceFingerprint.

(** ** db_loader.js *)

Module DbLoader.

Record config := {
  pollInterval : Z;
  pollTimeout : Z;
  statusEndpoint : string;
  fadeOutDelay : Z
}.

Definition DbLoader_config : config := {|
  pollInterval := 500;
  pollTimeout := 10000;
  statusEndpoint := "/api/db-status";
  fadeOutDelay := 300
|}.

(** The element [#db-loader-overlay]: its three state classes and the text
    of [#db-loader-message]. *)
Record overlay := {
  db_loader_hidden : bool;
  db_loader_success : bool;
  db_loader_error : bool;
  message : string
}.

(** [DbLoader.state] with the overlay of the document and the number of
    [setTimeout] callbacks of [hide] that have not run yet.
    [loaderElement] tells whether the state refers to the overlay. *)
Record loader := {
  isPolling : bool;
  pollTimer : bool;
  loaderElement : bool;
  activeRequests : Z;
  overlay_element : option overlay;
  fade_timers : nat
}.

(** [DbLoader.state] as the script declares it, on a page without overlay. *)
Definition state : loader := {|
  isPolling := false;
  pollTimer := false;
  loaderElement := false;
  activeRequests := 0;
  overlay_element := None;
  fade_timers := 0
|}.

Definition with_overlay (f : overlay -> overlay) (s : loader) : loader :=
  {| isPolling := isPolling s; pollTimer := pollTimer s;
     loaderElement := loaderElement s; activeRequests := activeRequests s;
     overlay_element := f <$> overlay_element s;
     fade_timers := fade_timers s |}.

(** The text of [#db-loader-message] in the markup of a new overlay, with
    the line breaks and the indentation of the template literal. *)
Definition initial_message : string :=
  Js.line_feed ++ "                    ⏳ Connecting to database..." ++
  Js.line_feed ++ "                ".

(** [createLoaderElement()]. *)
Definition createLoaderElement (s : loader) : loader :=
  {| isPolling := isPolling s; pollTimer := pollTimer s;
     loaderElement := true; activeRequests := activeRequests s;
     overlay_element :=
       match overlay_element s with
       | Some o => Some o
       | None => Some {| db_loader_hidden := true; db_loader_success := false;
                         db_loader_error := false;
                         message := initial_message |}
       end;
     fade_timers := fade_timers s |}.

(** [updateMessage(message)]. *)
Definition updateMessage (m : string) (s : loader) : loader :=
  with_overlay (fun o =>
    {| db_loader_hidden := db_loader_hidden o;
       db_loader_success := db_loader_success o;
       db_loader_error := db_loader_error o; message := m |}) s.

(** [startPolling()]: the first round of [poll] is on its way. *)
Definition startPolling (s : loader) : loader :=
  if isPolling s then s
  else
    {| isPolling := true; pollTimer := pollTimer s;
       loaderElement := loaderElement s; activeRequests := activeRequests s;
       overlay_element := overlay_element s; fade_timers := fade_timers s |}.

(** [stopPolling()]. *)
Definition stopPolling (s : loader) : loader :=
  {| isPolling := false; pollTimer := false;
     loaderElement := loaderElement s; activeRequests := activeRequests s;
     overlay_element := overlay_element s; fade_timers := fade_timers s |}.

(** One round of the [poll] closure: [timed_out] is the test against
    [pollTimeout], [status_message] the message of a status answer that
    says [is_connecting]. *)
Definition poll (timed_out : bool) (status_message : option string)
    (s : loader) : loader :=
  if timed_out then stopPolling s
  else
    let s := match status_message with
             | Some m => if Js.truthy_str m then updateMessage m s else s
             | None => s
             end in
    if isPolling s then
      {| isPolling := isPolling s; pollTimer := true;
         loaderElement := loaderElement s; activeRequests := activeRequests s;
         overlay_element := overlay_element s; fade_timers := fade_timers s |}
    else s.

(** [show(message)]. *)
Definition show (m : string) (s : loader) : loader :=
  let s :=
    {| isPolling := isPolling s; pollTimer := pollTimer s;
       loaderElement := loaderElement s;
       activeRequests := (activeRequests s + 1)%Z;
       overlay_element := overlay_element s; fade_timers := fade_timers s |} in
  let s := if negb (loaderElement s) then createLoaderElement s else s in
  let s := updateMessage m s in
  let s := with_overlay (fun o =>
    {| db_loader_hidden := false; db_loader_success := false;
       db_loader_error := false; message := message o |}) s in
  startPolling s.

(** [hide(status)]. *)
Definition hide (status : string) (s : loader) : loader :=
  let s :=
    {| isPolling := isPolling s; pollTimer := pollTimer s;
       loaderElement := loaderElement s;
       activeRequests := Z.max 0 (activeRequests s - 1);
       overlay_element := overlay_element s; fade_timers := fade_timers s |} in
  if (0 <? activeRequests s)%Z then s
  else
    let s := stopPolling s in
    if loaderElement s then
      let s :=
        if String.eqb status "success" then
          updateMessage "✅ Connected"
            (with_overlay (fun o =>
               {| db_loader_hidden := db_loader_hidden o;
                  db_loader_success := true;
                  db_loader_error := db_loader_error o;
                  message := message o |}) s)
        else if String.eqb status "error" then
          with_overlay (fun o =>
            {| db_loader_hidden := db_loader_hidden o;
               db_loader_success := db_loader_success o;
               db_loader_error := true; message := message o |}) s
        else s in
      {| isPolling := isPolling s; pollTimer := pollTimer s;
         loaderElement := loaderElement s; activeRequests := activeRequests s;
         overlay_element := overlay_element s;
         fade_timers := S (fade_timers s) |}
    else s.

(** The callback [hide] hands to [setTimeout]. *)
Definition fade_out (s : loader) : loader :=
  match fade_timers s with
  | O => s
  | S n =>
      let s := with_overlay (fun o =>
        {| db_loader_hidden := true;
           db_loader_success := db_loader_success o;
           db_loader_error := db_loader_error o; message := message o |}) s in
      {| isPolling := isPolling s; pollTimer := pollTimer s;
         loaderElement := loaderElement s; activeRequests := activeRequests s;
         overlay_element := overlay_element s; fade_timers := n |}
  end.

(** Calls and callbacks in the order the event loop runs them. *)
Inductive event :=
| call_show (m : string)
| call_hide (status : string)
| timer_fade_out
| poll_round (timed_out : bool) (status_message : option string).

Definition step (s : loader) (e : event) : loader :=
  match e with
  | call_show m => show m s
  | call_hide status => hide status s
  | timer_fade_out => fade_out s
  | poll_round timed_out status_message => poll timed_out status_message s
  end.

Definition run (es : list event) (s : loader) : loader :=
  fold_left step es s.

(** The overlay is on screen: it exists without the class
    [db-loader-hidden]. *)
Definition visible (s : loader) : bool :=
  match overlay_element s with
  | Some o => negb (db_loader_hidden o)
  | None => false
  end.

(** [wrap(promise, message)]: [show] at once, and [hide] with the status of
    the promise when it settles; [between] is what the event loop runs in
    the meantime. *)
Definition wrap (m : string) (between : list event) (fulfilled : bool)
    (s : loader) : loader :=
  hide (if fulfilled then "success" else "error") (run between (show m s)).

(** Every [hide] of the sequence answers an earlier [show], [pending] shows
    being still unanswered at its start. *)
Fixpoint matched (es : list event) (pending : nat) : bool :=
  match es with
  | [] => true
  | call_show _ :: rest => matched rest (S pending)
  | call_hide _ :: rest =>
      match pending with
      | O => false
      | S n => matched rest n
      end
  | _ :: rest => matched rest pending
  end.

(** The number of shows left unanswered at the end of the sequence. *)
Fixpoint outstanding (es : list event) (pending : nat) : nat :=
  match es with
  | [] => pending
  | call_show _ :: rest => outstanding rest (S pending)
  | call_hide _ :: rest => outstanding rest (Nat.pred pending)
  | _ :: rest => outstanding rest pending
  end.

(** What the methods keep true of the loader. *)
Record consistent (s : loader) : Prop := {
  element_exists : loaderElement s = true -> overlay_element s <> None;
  counted_after_show : loaderElement s = false -> activeRequests s = 0%Z;
  timer_while_polling : pollTimer s = true -> isPolling s = true;
  fades_after_show : loaderElement s = false -> fade_timers s = 0
}.

End DbLoader.

(** ** Showing an OnClickA ad (static/js/onclicka_pts.js) *)

Module OnClickaAd.
Import Ui OnClickA.

(** An awaited request: the parsed body, or the error thrown by [fetch] or
    by reading the body. *)
Inductive answer (A : Type) :=
| answered (a : A)
| failed (e : js_error).
Arguments answered {A} a.
Arguments failed {A} e.

(** The body of [GET /api/ad/can-watch]. *)
Record check_data := {
  can_watch : bool;
  reason : option string
}.

(** The body of [POST /api/ad/watch]. *)
Record watch_data := {
  watch_success : bool;
  watch_message : option string;
  pts_earned : N
}.

(** What the SDK does with the callbacks given to [window.show_ad]: it
    reports the end of the ad, reports an error, or never calls back. It is
    taken to call at most one of them, once. *)
Inductive sdk_outcome :=
| ad_result (completed : bool)
| ad_error (message : option string)
| ad_silent.

(** The page and the network as one call of [showOnClickaAd] meets them:
    what becomes of a script element the call inserts ([None]: neither
    [load] nor [error] fires), the two answers, [window.show_ad] when it is
    defined, and whether [document.querySelector('[data-ad-code]')] finds an
    element. *)
Record ad_env := {
  script : option bool;
  check : answer check_data;
  show_ad : option sdk_outcome;
  ad_trigger : bool;
  watch : answer watch_data
}.

(** The argument of [onComplete]: the backend's body, or the literal
    [{ pts_earned: 0, message: 'Anuncio mostrado' }] of the fallback. *)
Inductive completion :=
| registered (data : watch_data)
| shown_only.

(** Requests, SDK calls and the caller's callbacks, in order. *)
Inductive effect :=
| get_can_watch (user : string)
| sdk_show_ad
| trigger_clicked
| post_watch (user : string)
| onComplete (data : completion)
| onError (message : string)
| onSkip.

(** [error.message || fallback]. *)
Definition message_or (m : option string) (fallback : string) : string :=
  if Js.truthy_ostr m then default fallback m else fallback.

(** [await loadOnClickaSDK()]: [None] when the promise stays pending. *)
Definition await_loadOnClickaSDK (env : ad_env) (p : page)
    : option (answer unit) * page :=
  match loadOnClickaSDK p with
  | (resolved_true, p) => (Some (answered tt), p)
  | (waiting_for_script, p) =>
      match script env with
      | Some true => (Some (answered tt), script_onload p)
      | Some false =>
          (Some (failed {| message := Some "Failed to load OnClickA SDK";
                           description := None |}),
           script_onerror p)
      | None => (None, p)
      end
  end.

(** The promise built after the eligibility check: [window.show_ad] with
    [window.onclickaAdComplete], or the click on the ad trigger.
    [window.show_ad] is taken to return normally, and the 30 s timer of the
    fallback to fire. *)
Definition show (env : ad_env) (user : string) : option bool * list effect :=
  match show_ad env with
  | Some o =>
      match o with
      | ad_result true =>
          match watch env with
          | answered data =>
              (Some true,
               [sdk_show_ad; post_watch user;
                if watch_success data then onComplete (registered data)
                else onError (message_or (watch_message data)
                                "Error al registrar anuncio")])
          | failed _ => (None, [sdk_show_ad; post_watch user])
          end
      | ad_result false => (Some false, [sdk_show_ad; onSkip])
      | ad_error m =>
          (Some false,
           [sdk_show_ad; onError (message_or m "Error mostrando anuncio")])
      | ad_silent => (None, [sdk_show_ad])
      end
  | None =>
      if ad_trigger env then
        (Some true, [trigger_clicked; onComplete shown_only])
      else (Some false, [onError "No se pudo iniciar el anuncio"])
  end.

(** [showOnClickaAd(options)]: the value the returned promise resolves to
    ([None]: it never settles), the page, and what was done. *)
Definition showOnClickaAd (w : window) (env : ad_env) (p : page)
    : option bool * page * list effect :=
  match await_loadOnClickaSDK env p with
  | (None, p) => (None, p, [])
  | (Some (failed e), p) =>
      (Some false, p, [onError (message_or (message e) "Error al cargar anuncio")])
  | (Some (answered _), p) =>
      let user := uid_to_string (getUserId w) in
      match check env with
      | failed e =>
          (Some false, p,
           [get_can_watch user;
            onError (message_or (message e) "Error al cargar anuncio")])
      | answered checkData =>
          if negb (can_watch checkData) then
            (Some false, p,
             [get_can_watch user;
              onError (message_or (reason checkData)
                         "No puedes ver anuncios ahora")])
          else
            let '(r, l) := show env user in
            (r, p, get_can_watch user :: l)
      end
  end.

Definition is_callback (e : effect) : bool :=
  match e with
  | onComplete _ | onError _ | onSkip => true
  | _ => false
  end.

(** The caller's callbacks among the effects. *)
Definition callbacks (l : list effect) : list effect :=
  List.filter is_callback l.

(** The users for whom a watched ad was registered. *)
Definition registrations (l : list effect) : list string :=
  omap (fun e => match e with
                 | post_watch user => Some user
                 | _ => None
                 end) l.

End OnClickaAd.

(** ** The daily check-in (static/js/onclicka_pts.js) *)

Module Checkin.
Import Ui.

(** What the check-in button shows: one of the three markups this file
    writes to its [innerHTML], or whatever the page came with. *)
Inductive markup :=
| page_markup (html : string)
| processing
| checkin_done
| checkin_available (base_reward : Z).

(** [#checkin-btn]. *)
Record button := {
  disabled : bool;
  innerHTML : markup;
  completed : bool
}.

(** [status.checkin] of [GET /api/pts/status]. *)
Record checkin_status := {
  done_today : bool;
  can_double : bool;
  base_reward : Z
}.

(** The body of [POST /api/checkin]; [doubled] is the truthiness of
    [data.status.doubled] when [data.status] is there. *)
Record checkin_data := {
  checkin_success : bool;
  checkin_message : option string;
  pts_earned : option Z;
  doubled : option bool
}.

Inductive answer (A : Type) :=
| answered (a : A)
| failed.
Arguments answered {A} a.
Arguments failed {A}.

Inductive effect :=
| toast (message : string) (type : toast_type)
| post_checkin (user : string)
| haptic_notification (type : string)
| haptic_impact (style : string)
| update_pts_ui
| show_double_option.

(** The page: [window], the two buttons when they exist ([style.display]
    for the second) and what was done so far. *)
Record page := {
  win : window;
  checkin_btn : option button;
  double_btn_display : option string;
  log : list effect
}.

Definition emit (e : list effect) (p : page) : page :=
  {| win := win p; checkin_btn := checkin_btn p;
     double_btn_display := double_btn_display p; log := app (log p) e |}.

Definition with_btn (f : button -> button) (p : page) : page :=
  {| win := win p; checkin_btn := f <$> checkin_btn p;
     double_btn_display := double_btn_display p; log := log p |}.

(** [hapticFeedback(type)]. *)
Definition hapticFeedback (type : string) (p : page) : page :=
  if haptic_feedback (win p) then
    if String.eqb type "success" || String.eqb type "error"
       || String.eqb type "warning"
    then emit [haptic_notification type] p
    else emit [haptic_impact type] p
  else p.

(** [updateCheckinButton(checkinStatus)]; [None] is a call without an
    argument, or with [undefined] or [null]. *)
Definition updateCheckinButton (checkinStatus : option checkin_status)
    (p : page) : page :=
  match checkin_btn p with
  | None => p
  | Some btn =>
      match checkinStatus with
      | None => p
      | Some status =>
          if done_today status then
            {| win := win p;
               checkin_btn := Some {| disabled := true;
                                      innerHTML := checkin_done;
                                      completed := true |};
               double_btn_display :=
                 (fun _ => if can_double status then "flex" else "none")
                 <$> double_btn_display p;
               log := log p |}
          else
            {| win := win p;
               checkin_btn := Some {| disabled := false;
                                      innerHTML :=
                                        checkin_available (base_reward status);
                                      completed := false |};
               double_btn_display := (fun _ => "none") <$> double_btn_display p;
               log := log p |}
      end
  end.

(** The part of [updatePtsUI()] that reaches the check-in button: [None]
    is a failed status request or a run that ends before the button's turn,
    otherwise [status.success] and [status.checkin]. *)
Definition updatePtsUI (status : option (bool * option checkin_status))
    (p : page) : page :=
  match status with
  | Some (true, checkin) => updateCheckinButton checkin p
  | _ => p
  end.

(** A value inside a template literal. *)
Definition render (m : option string) : string := default "undefined" m.

(** [doCheckin()] up to its first [await]; the flag tells whether the
    request was sent and the function waits for the answer. *)
Definition doCheckin_start (p : page) : bool * page :=
  let userId := OnClickA.getUserId (win p) in
  if negb (uid_truthy userId) then
    (false, emit [toast "Error: Usuario no identificado" error] p)
  else
    let p := with_btn (fun btn => {| disabled := true; innerHTML := processing;
                                     completed := completed btn |}) p in
    (true, emit [post_checkin (uid_to_string userId)] p).

(** The [try] block of [doCheckin()] from the answer on, with its [catch].
    [double_option] is how the call of [showDoubleOption], which this file
    does not define, ends. *)
Definition doCheckin_try (o : answer checkin_data)
    (double_option : result unit) (p : page) : page :=
  match o with
  | answered data =>
      if checkin_success data then
        let p :=
          emit [toast ("✅ " ++ render (checkin_message data) ++ " +" ++
                       render (Js.int_to_string <$> pts_earned data) ++
                       " PTS") success] p in
        let p := hapticFeedback "success" p in
        let p := emit [update_pts_ui] p in
        match doubled data with
        | Some false =>
            match double_option with
            | ok _ => emit [show_double_option] p
            | throw _ => emit [toast "Error de conexión" error] p
            end
        | _ => p
        end
      else
        let p :=
          emit [toast (if Js.truthy_ostr (checkin_message data)
                       then render (checkin_message data) else "Error")
                      error] p in
        hapticFeedback "error" p
  | failed => emit [toast "Error de conexión" error] p
  end.

(** The [finally] block of [doCheckin()]. The button is the element found
    at the start; nothing in this file removes it from the page. *)
Definition doCheckin_finally (p : page) : page :=
  match checkin_btn p with
  | Some _ =>
      let p := with_btn (fun btn => {| disabled := false;
                                       innerHTML := innerHTML btn;
                                       completed := completed btn |}) p in
      updateCheckinButton None p
  | None => p
  end.

(** The status refreshes of [updatePtsUI] (the 30 s interval, or an earlier
    call) that resolve while [doCheckin] waits for its answer. *)
Definition refreshed (between : list (option (bool * option checkin_status)))
    (p : page) : page :=
  fold_left (fun q status => updatePtsUI status q) between p.

(** A refresh that writes the button: its request succeeded and the status
    holds a [checkin] object. *)
Definition renders (status : option (bool * option checkin_status)) : bool :=
  match status with
  | Some (true, Some _) => true
  | _ => false
  end.

(** One run of [doCheckin()], with the refreshes that resolve during its
    [await]. *)
Definition doCheckin (between : list (option (bool * option checkin_status)))
    (o : answer checkin_data) (double_option : result unit) (p : page)
    : page :=
  match doCheckin_start p with
  | (true, p) =>
      doCheckin_finally (doCheckin_try o double_option (refreshed between p))
  | (false, p) => p
  end.

(** The toasts among the effects. *)
Definition toasts (l : list effect) : list (string * toast_type) :=
  omap (fun e => match e with
                 | toast m t => Some (m, t)
                 | _ => None
                 end) l.

End Checkin.

(** ** The TON wallet front end (static/js/ton_wallet.js) *)

Module TonWallet.
Import Ui.

(** [formatAddress(address)]. *)
Definition formatAddress (address : option string) : option string :=
  match address with
  | None => None
  | Some a =>
      if negb (Js.truthy_str a) || (String.length a <? 12)%nat then Some a
      else
        Some (String.substring 0 6 a ++ "..." ++
              String.substring (String.length a - 4) 4 a)
  end.

(** [getUserId()], with [window.currentUserId] as the last source. *)
Definition getUserId (w : window) (currentUserId : user_id) : user_id :=
  let userId :=
    match url_user_id w with
    | Some s => uid_str s
    | None => uid_null
    end in
  let userId :=
    match telegram_user_id w with
    | Some id =>
        if negb (uid_truthy userId) && Js.truthy_num id then uid_num id
        else userId
    | None => userId
    end in
  if negb (uid_truthy userId) && uid_truthy currentUserId then currentUserId
  else userId.

(** An awaited request: the parsed body, or a failure of [fetch] or of
    reading the body. *)
Inductive answer (A : Type) :=
| answered (a : A)
| failed.
Arguments answered {A} a.
Arguments failed {A}.

(** The body of [POST /api/ton/link-wallet]. *)
Record link_data := {
  link_success : bool;
  link_error : option string
}.

(** The body of [POST /api/ton/withdraw]. *)
Record withdraw_data := {
  withdraw_success : bool;
  withdraw_message : option string;
  withdraw_error : option string
}.

(** Requests, notifications and changes of the wallet widgets, in order.
    The [amount] field of the withdrawal request is left out. *)
Inductive effect :=
| notify (message : string) (type : toast_type)
| post_validate (address : string)
| post_link (user : user_id) (address : string)
| get_user (user : string)
| post_withdraw (user : user_id) (address : string)
| wallet_ui (address : string)
| close_modal.

(** The module variable [tonWalletAddress] and what was done so far. *)
Record wallet := {
  tonWalletAddress : option string;
  log : list effect
}.

Definition emit (e : list effect) (s : wallet) : wallet :=
  {| tonWalletAddress := tonWalletAddress s; log := app (log s) e |}.

(** [m || fallback] on a possibly missing string. *)
Definition or_text (m : option string) (fallback : string) : string :=
  if Js.truthy_ostr m then default fallback m else fallback.

Definition prefixes : list string :=
  ["EQ"; "UQ"; "Ef"; "Uf"; "kQ"; "kf"; "0Q"; "0f"].

(** [validateTonAddress(address)] after its request: the truthiness of
    [data.valid], or the check of the [catch] block. *)
Definition validateTonAddress (address : string) (o : answer bool) : bool :=
  match o with
  | answered valid => valid
  | failed =>
      existsb (fun p => String.prefix p address) prefixes
      && (String.length address =? 48)%nat
  end.

(** [linkTonWallet(address)]. *)
Definition linkTonWallet (w : window) (currentUserId : user_id)
    (address : string) (o : answer link_data) (s : wallet) : bool * wallet :=
  let userId := getUserId w currentUserId in
  if negb (uid_truthy userId) then
    (false, emit [notify "User not found" error] s)
  else
    let s := emit [post_link userId address] s in
    match o with
    | answered data =>
        if link_success data then (true, s)
        else
          (false,
           emit [notify (or_text (link_error data) "Failed to link wallet")
                        error] s)
    | failed => (false, emit [notify "Connection error" error] s)
    end.

(** [requestTonWithdrawal(amount)]: whether the returned object has
    [success: true]. [lookup] is [userData.user?.ton_wallet_address] of
    [GET /api/user]. *)
Definition requestTonWithdrawal (w : window) (currentUserId : user_id)
    (lookup : answer (option string)) (o : answer withdraw_data) (s : wallet)
    : bool * wallet :=
  let userId := getUserId w currentUserId in
  if negb (uid_truthy userId) then
    (false, emit [notify "User not found" error] s)
  else
    let known : option (option string) * wallet :=
      if Js.truthy_ostr (tonWalletAddress s) then
        (Some (tonWalletAddress s), s)
      else
        let s := emit [get_user (uid_to_string userId)] s in
        match lookup with
        | answered address => (Some address, s)
        | failed => (None, s)
        end in
    match known with
    | (None, s) => (false, emit [notify "Connection error" error] s)
    | (Some address, s) =>
        if negb (Js.truthy_ostr address) then
          (false, emit [notify "Please link your TON wallet first" error] s)
        else
          let s := emit [post_withdraw userId (default "" address)] s in
          match o with
          | answered data =>
              if withdraw_success data then
                (true,
                 emit [notify (or_text (withdraw_message data)
                                 "Withdrawal request submitted!") success] s)
              else
                (false,
                 emit [notify (or_text (withdraw_error data)
                                 "Withdrawal failed") error] s)
          | failed => (false, emit [notify "Connection error" error] s)
          end
    end.

Section WithTrim.

(** [String.prototype.trim]. *)
Variable trim : string -> string.

(** [submitTonWallet()]: [input] is the value of [#ton-address-input] when
    the element is there. *)
Definition submitTonWallet (w : window) (currentUserId : user_id)
    (input : option string) (v : answer bool) (l : answer link_data)
    (s : wallet) : wallet :=
  match input with
  | None => s
  | Some value =>
      let address := trim value in
      if negb (Js.truthy_str address) then
        emit [notify "Please enter a wallet address" error] s
      else
        let s := emit [post_validate address] s in
        if negb (validateTonAddress address v) then
          emit [notify "Invalid TON address format" error] s
        else
          let '(linked, s) := linkTonWallet w currentUserId address l s in
          if linked then
            let s := {| tonWalletAddress := Some address; log := log s |} in
            emit [wallet_ui address; close_modal;
                  notify "TON wallet linked successfully!" success] s
          else s
  end.

End WithTrim.

Definition notifications (l : list effect) : list (string * toast_type) :=
  omap (fun e => match e with
                 | notify m t => Some (m, t)
                 | _ => None
                 end) l.

Definition links (l : list effect) : list (user_id * string) :=
  omap (fun e => match e with
                 | post_link u a => Some (u, a)
                 | _ => None
                 end) l.

Definition withdrawals (l : list effect) : list (user_id * string) :=
  omap (fun e => match e with
                 | post_withdraw u a => Some (u, a)
                 | _ => None
                 end) l.

Definition lookups (l : list effect) : list string :=
  omap (fun e => match e with
                 | get_user u => Some u
                 | _ => None
                 end) l.

End TonWallet.

(** ** The cooldown timers of the mission list (static/js/shrinkearn.js) *)

Module CooldownTimer.

(** One [.cooldown-timer] element and the interval [startCooldownTimers]
    sets for it: the [seconds] of the closure ([None] is [NaN]), whether the
    interval is still set, the text of the [.cooldown-time] span when the
    element has one, and the calls of [refreshShrinkEarnMissions] so far. *)
Record timer := {
  seconds : option Z;
  running : bool;
  cooldown_time : option string;
  refreshes : nat
}.

(** [formatCooldown(seconds)] as the interval calls it: on a positive
    integral number, or on [NaN], for which both comparisons fail and both
    parts print as [NaN]. *)
Definition formatCooldown (seconds : option Z) : string :=
  match seconds with
  | Some z => ShrinkEarn.formatCooldown (Z.to_N z)
  | None => "NaN:NaN"
  end.

(** The body of [timers.forEach] in [startCooldownTimers()]:
    [dataset.seconds] is the attribute's text, or [undefined]. *)
Definition startCooldownTimer (data_seconds : option string)
    (span : option string) : timer :=
  {| seconds := VpnDetector.parseInt (default "undefined" data_seconds);
     running := true;
     cooldown_time := span;
     refreshes := 0 |}.

(** One run of the interval's callback; a cleared interval does not run. *)
Definition tick (t : timer) : timer :=
  if negb (running t) then t
  else
    let seconds := (fun z => z - 1)%Z <$> seconds t in
    if match seconds with Some z => (z <=? 0)%Z | None => false end then
      {| seconds := seconds; running := false;
         cooldown_time := cooldown_time t; refreshes := S (refreshes t) |}
    else
      {| seconds := seconds; running := true;
         cooldown_time := (fun _ => formatCooldown seconds) <$> cooldown_time t;
         refreshes := refreshes t |}.

Definition ticks (k : nat) (t : timer) : timer := Nat.iter k tick t.

End CooldownTimer.

(** ** Concrete pages and inputs for the examples *)

Module Scenario.
Import Ui.

(** A page opened with [?user_id=111] inside Telegram as user 222. *)
Definition both_sources : window :=
  {| url_user_id := Some "111"; telegram_user_id := Some 222%Z;
     haptic_feedback := false |}.


Definition blank_button : AdsgramBoost.button_view :=
  {| AdsgramBoost.btn_disabled := false;
     AdsgramBoost.btn_icon := AdsgramBoost.bolt;
     AdsgramBoost.btn_text := "" |}.

(** A page on which nothing of the boost module has run yet. *)
Definition fresh_page : AdsgramBoost.page := {|
  AdsgramBoost.win := both_sources;
  AdsgramBoost.sdk := {| AdsgramBoost.Adsgram := false;
                         AdsgramBoost.isAdsgramReady := false;
                         AdsgramBoost.adsgramController := false;
                         AdsgramBoost.head_scripts := [] |};
  AdsgramBoost.modal := {| AdsgramBoost.modal_styles := false;
                           AdsgramBoost.modal_display := None;
                           AdsgramBoost.loading_display := None;
                           AdsgramBoost.accept_disabled := None;
                           AdsgramBoost.cancel_disabled := None |};
  AdsgramBoost.pending_checks := 0;
  AdsgramBoost.log := []
|}.

(** The ad is watched to its end and the backend answers that a boost is
    already active. *)
Definition already_active_run : AdsgramBoost.ad_run := {|
  AdsgramBoost.script_loads := true;
  AdsgramBoost.init_error := None;
  AdsgramBoost.shown := ok {| AdsgramBoost.done := true |};
  AdsgramBoost.activation :=
    ok {| AdsgramBoost.resp_success := false;
          AdsgramBoost.pts_earned := None;
          AdsgramBoost.activate_error := Some "Ya tienes un boost activo" |}
|}.

(** The missions page of user 111 with no mission started. *)
Definition idle_missions : ShrinkEarn.page := {|
  ShrinkEarn.st := {| ShrinkEarn.userId := Some "111";
                      ShrinkEarn.activeMission := None |};
  ShrinkEarn.in_flight := [];
  ShrinkEarn.log := []
|}.

(** A stand-in for the selector parser of the browser: it accepts a text
    with exactly the two quotes of one attribute value, no backslash and no
    line break. *)
Definition plain_selector (s : string) : bool :=
  let codes := (fun c => Ascii.nat_of_ascii c) <$> String.list_ascii_of_string s in
  Nat.eqb (length (List.filter (Nat.eqb 34) codes)) 2
  && forallb (fun n => negb (Nat.eqb n 92 || Nat.eqb n 10 || Nat.eqb n 13)) codes.

(** Two clicks on a mission, then the answer to the only request. *)
Definition double_click : list ShrinkEarn.event :=
  [ShrinkEarn.trigger "quick_task"; ShrinkEarn.trigger "quick_task";
   ShrinkEarn.settled 0 ShrinkEarn.fetch_failed].

(** A page without any script of the OnClickA SDK. *)
Definition no_sdk_page : OnClickA.page :=
  {| OnClickA.onclickaReady := false; OnClickA.scripts := [] |}.

(** The double quote character. *)
Definition dq : string := String (Ascii.ascii_of_nat 34) "".

(** The JSON texts of the two answers of the VPN endpoint used below. *)
Definition vpn_detected_json : string :=
  "{" ++ dq ++ "vpn_detected" ++ dq ++ ":true}".

Definition vpn_clear_json : string :=
  "{" ++ dq ++ "vpn_detected" ++ dq ++ ":false}".

(** [JSON.parse] and [JSON.stringify] on those two texts. *)
Definition vpn_parse (text : string) : option VpnDetector.vpn_result :=
  if String.eqb text vpn_detected_json then
    Some {| VpnDetector.vpn_detected := true; VpnDetector.error := false |}
  else if String.eqb text vpn_clear_json then
    Some {| VpnDetector.vpn_detected := false; VpnDetector.error := false |}
  else None.

Definition vpn_stringify (r : VpnDetector.vpn_result) : string :=
  if VpnDetector.vpn_detected r then vpn_detected_json else vpn_clear_json.


(** A load of the page at [path], 30 seconds later, with the server down. *)
Definition page_load (path : string) : VpnDetector.browser := {|
  VpnDetector.pathname := path;
  VpnDetector.search_user_id := Some "111";
  VpnDetector.now := 1700000030000;
  VpnDetector.now_at_store := 1700000031000;
  VpnDetector.responses := fun _ => VpnDetector.fetch_failed
|}.

(** A desktop browser. *)
Definition desktop : DeviceFingerprint.device := {|
  DeviceFingerprint.canvas := "1x2y3z";
  DeviceFingerprint.webgl := "no_debug_info";
  DeviceFingerprint.audio := "audio_error";
  DeviceFingerprint.screen_width := 1920;
  DeviceFingerprint.screen_height := 1080;
  DeviceFingerprint.colorDepth := 24;
  DeviceFingerprint.pixelRatio := "1";
  DeviceFingerprint.platform := "Linux x86_64";
  DeviceFingerprint.timezone := "Europe/Madrid";
  DeviceFingerprint.hardwareConcurrency := "8";
  DeviceFingerprint.maxTouchPoints := 0;
  DeviceFingerprint.plugins := "0";
  DeviceFingerprint.storage_info := "ls:true|ss:true|idb:true"
|}.

(** A fingerprint stored at time 1700000000000, its text, and [JSON.parse]
    and [JSON.stringify] on that text. *)
Definition stored_sample : DeviceFingerprint.stored_fingerprint := {|
  DeviceFingerprint.hash := Some "df_abc_def";
  DeviceFingerprint.timestamp := Some 1700000000000%Z
|}.

Definition stored_sample_json : string :=
  "{" ++ dq ++ "hash" ++ dq ++ ":" ++ dq ++ "df_abc_def" ++ dq ++ "," ++
  dq ++ "timestamp" ++ dq ++ ":1700000000000}".

Definition fp_parse (text : string) : option DeviceFingerprint.stored_fingerprint :=
  if String.eqb text stored_sample_json then Some stored_sample else None.

Definition fp_stringify (f : DeviceFingerprint.stored_fingerprint) : string :=
  "{" ++ dq ++ "hash" ++ dq ++ ":" ++ dq ++
  default "" (DeviceFingerprint.hash f) ++ dq ++ "," ++
  dq ++ "timestamp" ++ dq ++ ":" ++
  Js.int_to_string (default 0%Z (DeviceFingerprint.timestamp f)) ++ "}".

Definition fp_storage : gmap string string :=
  <["_se_device_fp" := stored_sample_json]> ∅.

(** A load of the page at [path] with the server saying that a VPN is used. *)
Definition detected_load (path : string) : VpnDetector.browser := {|
  VpnDetector.pathname := path;
  VpnDetector.search_user_id := None;
  VpnDetector.now := 1700000030000;
  VpnDetector.now_at_store := 1700000031000;
  VpnDetector.responses := fun _ =>
    VpnDetector.fetched {| VpnDetector.vpn_detected := true;
                           VpnDetector.error := false |}
|}.

(** A load of the page at [path] 20 seconds after [detected_load]. *)
Definition reload (path : string) : VpnDetector.browser := {|
  VpnDetector.pathname := path;
  VpnDetector.search_user_id := None;
  VpnDetector.now := 1700000051000;
  VpnDetector.now_at_store := 1700000052000;
  VpnDetector.responses := fun _ => VpnDetector.fetch_failed
|}.

(** A session whose cached verdict is several months old. *)
Definition stale_session : gmap string string :=
  <["vpn_check_time" := "1600000000000"]>
    (<["vpn_check_result" := vpn_clear_json]> ∅).

(** The ad is closed by the user: the SDK rejects with a description. *)
Definition cancelled_run : AdsgramBoost.ad_run := {|
  AdsgramBoost.script_loads := true;
  AdsgramBoost.init_error := None;
  AdsgramBoost.shown :=
    throw {| message := None; description := Some "Closed by user" |};
  AdsgramBoost.activation := ok AdsgramBoost.plain_success
|}.

(** The SDK rejects the ad with [undefined]. *)
Definition undefined_run : AdsgramBoost.ad_run := {|
  AdsgramBoost.script_loads := true;
  AdsgramBoost.init_error := None;
  AdsgramBoost.shown := throw nullish;
  AdsgramBoost.activation := ok AdsgramBoost.plain_success
|}.

(** The ad resolves without having been watched to its end. *)
Definition unfinished_run : AdsgramBoost.ad_run := {|
  AdsgramBoost.script_loads := true;
  AdsgramBoost.init_error := None;
  AdsgramBoost.shown := ok {| AdsgramBoost.done := false |};
  AdsgramBoost.activation := ok AdsgramBoost.plain_success
|}.

(** The ad is watched to its end and the activation request fails. *)
Definition offline_run : AdsgramBoost.ad_run := {|
  AdsgramBoost.script_loads := true;
  AdsgramBoost.init_error := None;
  AdsgramBoost.shown := ok {| AdsgramBoost.done := true |};
  AdsgramBoost.activation :=
    throw {| message := Some "Failed to fetch"; description := None |}
|}.


(** An ad watched to its end while the network drops. *)
Definition unregistered_ad : OnClickaAd.ad_env := {|
  OnClickaAd.script := None;
  OnClickaAd.check :=
    OnClickaAd.answered
      {| OnClickaAd.can_watch := true; OnClickaAd.reason := None |};
  OnClickaAd.show_ad := Some (OnClickaAd.ad_result true);
  OnClickaAd.ad_trigger := false;
  OnClickaAd.watch :=
    OnClickaAd.failed {| Ui.message := Some "Failed to fetch";
                         Ui.description := None |}
|}.

(** A user-friendly TON address: 48 characters. *)
Definition ton_address : string :=
  "EQDtFpEwcFAEcRe5mLVh2N6C0x-_hJEM7W61_JLnSF74p4q2".

(** The rewards page of an identified user before the daily check-in. *)
Definition checkin_page : Checkin.page := {|
  Checkin.win := both_sources;
  Checkin.checkin_btn :=
    Some {| Checkin.disabled := false;
            Checkin.innerHTML := Checkin.page_markup "Check-in";
            Checkin.completed := false |};
  Checkin.double_btn_display := Some "none";
  Checkin.log := []
|}.

End Scenario.

(** ** Facts about the library functions *)

Section JsFacts.

(** All numbers below a bound satisfy a decidable property when the bounded
    check computes to [true]. *)
Lemma N_forall_below (P : N -> bool) (bound : nat) :
  forallb P (map N.of_nat (seq 0 bound)) = true ->
  forall n : N, (n < N.of_nat bound)%N -> P n = true.
Proof.
  intros Hall n Hn.
  rewrite forallb_forall in Hall.
  apply Hall.
  apply in_map_iff. exists (N.to_nat n). split; [lia|].
  apply in_seq. lia.
Qed.


End JsFacts.

Example formatCooldown_5 : ShrinkEarn.formatCooldown 5 = "5s".
Proof. vm_compute. reflexivity. Qed.

Example formatCooldown_65 : ShrinkEarn.formatCooldown 65 = "1:05".
Proof. vm_compute. reflexivity. Qed.

Example includes_activo :
  Js.includes "activo" "Ya tienes un boost activo" = true
  /\ Js.includes "activo" "Boost already active" = false.
Proof. split; vm_compute; reflexivity. Qed.

(** ** Cooldown labels *)

Section CooldownLabels.
Import AdsgramBoost Scenario.





End CooldownLabels.

(** ** The user id *)

Section UserId.
Import Ui Scenario.

(** C4, as stated, fails: with both sources non-empty [getUserId] returns
    the value of the query string, not the Telegram id. *)
Lemma getUserId_counterexample :
  AdsgramBoost.getUserId both_sources = uid_str "111"
  /\ OnClickA.getUserId both_sources = uid_str "111"
  /\ AdsgramBoost.getUserId both_sources <> uid_num 222
  /\ OnClickA.getUserId both_sources <> uid_num 222.
Proof. repeat split; try reflexivity; vm_compute; discriminate. Qed.

Lemma getUserId_same (w : window) :
  OnClickA.getUserId w = AdsgramBoost.getUserId w.
Proof. reflexivity. Qed.

(** C4 (amended): the priority order of [getUserId] is the [user_id]
    parameter of the query string first, then the Telegram WebApp user id,
    then none: a non-empty query parameter is returned whatever the
    Telegram context holds; the Telegram id is returned only when the
    query parameter is missing or empty; without either the result is
    falsy. *)
Theorem getUserId_priority (w : window) :
  (forall s, url_user_id w = Some s -> s <> "" ->
     AdsgramBoost.getUserId w = uid_str s /\ OnClickA.getUserId w = uid_str s)
  /\ (forall id, Js.truthy_ostr (url_user_id w) = false ->
        telegram_user_id w = Some id -> id <> 0%Z ->
        AdsgramBoost.getUserId w = uid_num id /\ OnClickA.getUserId w = uid_num id)
  /\ (Js.truthy_ostr (url_user_id w) = false ->
      (telegram_user_id w = None \/ telegram_user_id w = Some 0%Z) ->
      uid_truthy (AdsgramBoost.getUserId w) = false
      /\ uid_truthy (OnClickA.getUserId w) = false).
Proof.
  split; [|split].
  - intros s Hurl Hs.
    cut (AdsgramBoost.getUserId w = uid_str s); [intros H; split; exact H|].
    unfold AdsgramBoost.getUserId. rewrite Hurl.
    assert (Ht : Js.truthy_str s = true).
    { unfold Js.truthy_str. destruct (String.eqb_spec s ""); [contradiction|done]. }
    destruct (telegram_user_id w); cbn; rewrite ?Ht; reflexivity.
  - intros id Hurl Htg Hid.
    cut (AdsgramBoost.getUserId w = uid_num id); [intros H; split; exact H|].
    unfold AdsgramBoost.getUserId. rewrite Htg.
    assert (Ht : Js.truthy_num id = true).
    { unfold Js.truthy_num. destruct (Z.eqb_spec id 0); [contradiction|done]. }
    rewrite Ht.
    destruct (url_user_id w) as [s|]; cbn in *; [rewrite Hurl|]; reflexivity.
  - intros Hurl Htg.
    cut (uid_truthy (AdsgramBoost.getUserId w) = false);
      [intros H; split; exact H|].
    unfold AdsgramBoost.getUserId.
    destruct Htg as [-> | ->]; destruct (url_user_id w) as [s|];
      cbn in *; rewrite ?Hurl; cbn; rewrite ?Hurl; reflexivity.
Qed.

Lemma getUserId_priority_witness :
  AdsgramBoost.getUserId both_sources = uid_str "111"
  /\ OnClickA.getUserId both_sources = uid_str "111".
Proof.
  apply (proj1 (getUserId_priority both_sources) "111"); [reflexivity|discriminate].
Defined.

End UserId.

(** ** The consent flow of the boost *)

Section ConsentFlow.
Import Ui AdsgramBoost Scenario.

Lemma same_buttons_refl p : same_buttons p p.
Proof. split; reflexivity. Qed.

Lemma same_buttons_trans p1 p2 p3 :
  same_buttons p1 p2 -> same_buttons p2 p3 -> same_buttons p1 p3.
Proof. intros [H1 H2] [H3 H4]. split; congruence. Qed.

Lemma keeps_ret {A : Type} (a : A) : keeps_buttons (ret a).
Proof. intros p. apply same_buttons_refl. Qed.

Lemma keeps_raise {A : Type} (e : thrown) : keeps_buttons (@raise A e).
Proof. intros p. apply same_buttons_refl. Qed.

Lemma keeps_exec (f : page -> page) :
  (forall p, same_buttons p (f p)) -> keeps_buttons (exec f).
Proof. intros Hf p. apply Hf. Qed.

Lemma keeps_bind {A B : Type} (m : M A) (k : A -> M B) :
  keeps_buttons m -> (forall a, keeps_buttons (k a)) -> keeps_buttons (bind m k).
Proof.
  intros Hm Hk p. unfold bind. specialize (Hm p).
  destruct (m p) as [[a|e] p1]; cbn in *; [|exact Hm].
  eapply same_buttons_trans; [exact Hm | apply Hk].
Qed.

Lemma keeps_try_catch {A : Type} (m : M A) (h : thrown -> M A) :
  keeps_buttons m -> (forall e, keeps_buttons (h e)) ->
  keeps_buttons (try_catch m h).
Proof.
  intros Hm Hh p. unfold try_catch. specialize (Hm p).
  destruct (m p) as [[a|e] p1]; cbn in *; [exact Hm|].
  eapply same_buttons_trans; [exact Hm | apply Hh].
Qed.

Lemma same_buttons_emit l p : same_buttons p (emit l p).
Proof. split; reflexivity. Qed.

Lemma same_buttons_toast m t p : same_buttons p (showBoostToast m t p).
Proof. split; reflexivity. Qed.

Lemma same_buttons_haptic e p : same_buttons p (haptic e p).
Proof. unfold haptic. destruct (haptic_feedback (win p)); split; reflexivity. Qed.

Lemma same_buttons_with_sdk f p : same_buttons p (with_sdk f p).
Proof. split; reflexivity. Qed.

Lemma same_buttons_close p : same_buttons p (closeBoostModal p).
Proof.
  unfold closeBoostModal.
  eapply same_buttons_trans; [|apply same_buttons_haptic].
  split; cbn; destruct (accept_disabled (modal p)), (cancel_disabled (modal p));
    reflexivity.
Qed.

Lemma keeps_Adsgram_init o : keeps_buttons (Adsgram_init o).
Proof.
  destruct o; cbn; [apply keeps_raise|].
  apply keeps_exec. intros p. apply same_buttons_with_sdk.
Qed.

Lemma keeps_await_initAdsgram r : keeps_buttons (await_initAdsgram r).
Proof.
  intros p. unfold await_initAdsgram, initAdsgram.
  destruct (Adsgram (sdk p) && isAdsgramReady (sdk p)); [apply same_buttons_refl|].
  destruct (negb (Adsgram (sdk p))).
  - destruct (script_loads r).
    + eapply same_buttons_trans; [apply same_buttons_with_sdk|].
      unfold script_onload.
      apply keeps_bind; [apply keeps_exec; intros; apply same_buttons_with_sdk|].
      intros _. apply keeps_Adsgram_init.
    + split; reflexivity.
  - pose proof (keeps_Adsgram_init (init_error r) p) as H.
    destruct (Adsgram_init (init_error r) p). exact H.
Qed.

Lemma keeps_await_show r : keeps_buttons (await_show r).
Proof. intros p. split; reflexivity. Qed.

Lemma keeps_await_activate r : keeps_buttons (await_activate r).
Proof. intros p. split; reflexivity. Qed.

Ltac keeps :=
  repeat
    match goal with
    | |- keeps_buttons (ret _) => apply keeps_ret
    | |- keeps_buttons (raise _) => apply keeps_raise
    | |- keeps_buttons (await_initAdsgram _) => apply keeps_await_initAdsgram
    | |- keeps_buttons (await_show _) => apply keeps_await_show
    | |- keeps_buttons (await_activate _) => apply keeps_await_activate
    | |- keeps_buttons (bind _ _) => apply keeps_bind; [|intros ?]
    | |- keeps_buttons (try_catch _ _) => apply keeps_try_catch; [|intros ?]
    | |- keeps_buttons (exec _) => apply keeps_exec; intros ?
    | |- keeps_buttons (if ?c then _ else _) => destruct c
    | |- keeps_buttons (match cancelled_by_user ?e with _ => _ end) =>
        destruct (cancelled_by_user e)
    | |- keeps_buttons (let _ := _ in _) => cbv zeta
    | |- same_buttons _ (closeBoostModal _) => apply same_buttons_close
    | |- same_buttons _ (showBoostToast _ _ _) => apply same_buttons_toast
    | |- same_buttons _ (haptic _ _) => apply same_buttons_haptic
    | |- same_buttons _ (emit _ _) => apply same_buttons_emit
    | |- same_buttons _ ((if ?c then _ else _) _) => destruct c
    end.

Lemma set_if_present_idem {A : Type} (v w : A) (el : option A) :
  set_if_present v (set_if_present w el) = set_if_present v el.
Proof. destruct el; reflexivity. Qed.

Lemma closeBoostModal_buttons p :
  accept_disabled (modal (closeBoostModal p))
  = (fun _ => false) <$> accept_disabled (modal p)
  /\ cancel_disabled (modal (closeBoostModal p))
     = (fun _ => false) <$> cancel_disabled (modal p).
Proof.
  unfold closeBoostModal, haptic.
  destruct (haptic_feedback _); cbn;
    destruct (accept_disabled (modal p)), (cancel_disabled (modal p));
    split; reflexivity.
Qed.

(** C3: on every termination of [acceptAndShowAd], whatever the SDK load, the
    ad and the activation request did (success, load error, cancellation,
    failed activation, also when the [catch] block itself throws and the
    promise rejects), each button of the consent modal that exists ends with
    [disabled = false], whatever it was before; a missing button stays
    missing. The cancel path through [closeBoostModal] does the same. No
    exit leaves a button disabled. *)
Theorem consent_buttons_reenabled (r : ad_run) (p : page) :
  let p' := snd (acceptAndShowAd r p) in
  (forall b : bool,
     accept_disabled (modal p) = Some b ->
     accept_disabled (modal p') = Some false
     /\ accept_disabled (modal (closeBoostModal p)) = Some false)
  /\ (forall b : bool,
        cancel_disabled (modal p) = Some b ->
        cancel_disabled (modal p') = Some false
        /\ cancel_disabled (modal (closeBoostModal p)) = Some false)
  /\ (accept_disabled (modal p) = None ->
      accept_disabled (modal p') = None
      /\ accept_disabled (modal (closeBoostModal p)) = None)
  /\ (cancel_disabled (modal p) = None ->
      cancel_disabled (modal p') = None
      /\ cancel_disabled (modal (closeBoostModal p)) = None)
  /\ accept_disabled (modal p') <> Some true
  /\ cancel_disabled (modal p') <> Some true
  /\ accept_disabled (modal (closeBoostModal p)) <> Some true
  /\ cancel_disabled (modal (closeBoostModal p)) <> Some true.
Proof.
  cbv zeta.
  assert (Hmain :
    accept_disabled (modal (snd (acceptAndShowAd r p)))
    = (fun _ => false) <$> accept_disabled (modal p)
    /\ cancel_disabled (modal (snd (acceptAndShowAd r p)))
       = (fun _ => false) <$> cancel_disabled (modal p)).
  { unfold acceptAndShowAd.
    match goal with
    | |- context [try_finally ?b _] =>
        assert (Hbody : keeps_buttons b) by keeps; set (body := b) in *
    end.
    unfold bind, exec, try_finally.
    match goal with
    | |- context [body ?q] =>
        specialize (Hbody q); destruct (body q) as [res p1]
    end.
    destruct Hbody as [Ha Hc]. cbn in Ha, Hc.
    cbn [snd fst].
    destruct (closeBoostModal_buttons
      (with_modal (fun m =>
         {| modal_styles := modal_styles m;
            modal_display := modal_display m;
            loading_display := set_if_present "none" (loading_display m);
            accept_disabled := set_if_present false (accept_disabled m);
            cancel_disabled := set_if_present false (cancel_disabled m) |}) p1))
      as [Ha' Hc'].
    cbn in Ha', Hc'. rewrite Ha', Hc'.
    destruct (accept_disabled (modal p)) as [a|],
             (cancel_disabled (modal p)) as [c|],
             (accept_disabled (modal p1)) as [a1|],
             (cancel_disabled (modal p1)) as [c1|];
      cbn in Ha, Hc |- *; try discriminate; split; reflexivity. }
  destruct Hmain as [Ha Hc].
  destruct (closeBoostModal_buttons p) as [Ha' Hc'].
  rewrite Ha, Hc, Ha', Hc'.
  destruct (accept_disabled (modal p)) as [a|],
           (cancel_disabled (modal p)) as [c|]; cbn;
    repeat split; intros; try discriminate; try reflexivity.
Qed.

Lemma consent_buttons_reenabled_witness :
  accept_disabled
    (modal (snd (acceptAndShowAd cancelled_run (openBoostModal fresh_page))))
  = Some false.
Proof.
  refine (proj1 (proj1 (consent_buttons_reenabled cancelled_run
                          (openBoostModal fresh_page)) false _)).
  reflexivity.
Defined.

Lemma await_initAdsgram_with_modal r f p :
  await_initAdsgram r (with_modal f p)
  = (fst (await_initAdsgram r p), with_modal f (snd (await_initAdsgram r p))).
Proof.
  unfold await_initAdsgram, initAdsgram. cbn [sdk with_modal].
  destruct (Adsgram (sdk p)), (isAdsgramReady (sdk p)); cbn;
    destruct (script_loads r), (init_error r); reflexivity.
Qed.

Lemma await_initAdsgram_log r p :
  log (snd (await_initAdsgram r p)) = log p
  /\ win (snd (await_initAdsgram r p)) = win p.
Proof.
  unfold await_initAdsgram, initAdsgram.
  destruct (Adsgram (sdk p)), (isAdsgramReady (sdk p)); cbn;
    destruct (script_loads r), (init_error r); split; reflexivity.
Qed.

Lemma log_emit l p : log (emit l p) = app (log p) l.
Proof. reflexivity. Qed.

Lemma log_with_modal f p : log (with_modal f p) = log p.
Proof. reflexivity. Qed.

Lemma toasts_app l1 l2 : toasts (app l1 l2) = app (toasts l1) (toasts l2).
Proof. apply omap_app. Qed.

Lemma toasts_haptic e p :
  match e with toast _ _ => False | _ => True end ->
  toasts (log (haptic e p)) = toasts (log p).
Proof.
  intros He. unfold haptic. destruct (haptic_feedback (win p)); [|reflexivity].
  cbn. rewrite toasts_app. destruct e; try contradiction; cbn; apply app_nil_r.
Qed.

Lemma toasts_close p : toasts (log (closeBoostModal p)) = toasts (log p).
Proof. unfold closeBoostModal. rewrite toasts_haptic; [reflexivity|exact I]. Qed.

(** The toast of a run in which the SDK is ready, the ad is watched to its
    end and the activation request is answered with [d]. *)
Lemma completed_ad_toast (r : ad_run) (p : page) (sr : show_result)
    (d : activate_data) :
  fst (await_initAdsgram r p) = ok tt ->
  shown r = ok sr ->
  done sr = true ->
  activation r = ok d ->
  toasts (log (snd (acceptAndShowAd r p)))
  = app (toasts (log p))
    [if resp_success d then
       (BOOST_ACTIVATED ++
        match pts_earned d with
        | Some n => if Js.truthy_num n then " +" ++ Js.int_to_string n ++ " PTS"
                    else " +15 PTS"
        | None => " +15 PTS"
        end, success)
     else if already_active d then (BOOST_ACTIVATED ++ " +15 PTS", success)
     else (if Js.truthy_ostr (activate_error d)
           then default "" (activate_error d) else "Boost activado", info)].
Proof.
  intros Hinit Hshown Hdone Hact.
  destruct (await_initAdsgram_log r p) as [Hlog Hwin].
  unfold acceptAndShowAd, bind, try_finally, try_catch, exec.
  rewrite await_initAdsgram_with_modal.
  destruct (await_initAdsgram r p) as [res p1]. cbn in Hinit, Hlog, Hwin.
  subst res. unfold await_show, await_activate. rewrite Hshown, Hdone, Hact.
  cbn [snd fst].
  destruct (resp_success d); [|destruct (already_active d)];
    cbv beta iota; cbn [fst snd];
    unfold showBoostToast;
    repeat first
      [ rewrite toasts_close
      | rewrite toasts_haptic by exact I
      | rewrite log_emit
      | rewrite log_with_modal
      | rewrite toasts_app ];
    rewrite Hlog; cbn [toasts omap];
    rewrite !app_nil_r; reflexivity.
Qed.

(** C1, as stated, fails: the answer [Boost already active] says that a
    boost is already active, yet it is shown as it is in a toast of type
    info, not as the success toast. The code recognises the case by the
    substring [activo] only. *)
Lemma already_active_counterexample :
  toasts (log (snd (acceptAndShowAd
                      (with_activation
                         (ok {| resp_success := false; pts_earned := None;
                                activate_error := Some "Boost already active" |})
                         already_active_run)
                      (openBoostModal fresh_page))))
  = app (toasts (log (openBoostModal fresh_page)))
        [("Boost already active", info)]
  /\ toasts (log (snd (acceptAndShowAd
                         (with_activation
                            (ok {| resp_success := false; pts_earned := None;
                                   activate_error := Some "Boost already active" |})
                            already_active_run)
                         (openBoostModal fresh_page))))
     <> toasts (log (snd (acceptAndShowAd
                            (with_activation (ok plain_success)
                               already_active_run)
                            (openBoostModal fresh_page)))).
Proof. split; vm_compute; [reflexivity | discriminate]. Qed.

(** C1 (amended): when the ad was watched to its end and the activation
    answer is not a success, the error text decides. If it contains
    [activo] (the test the code makes, case-sensitive), the user is shown
    the toast of a success, of type [success]: the very toast of a success
    answer without points, and a toast of the same type as that of any
    success answer. Every other error text is shown as it is in a toast of
    type [info] ([Boost activado] for the empty text). No other toast is
    shown. *)
Theorem already_active_reported_as_success (r : ad_run) (p : page)
    (sr : show_result) (d : activate_data) (e : string) :
  fst (await_initAdsgram r p) = ok tt ->
  shown r = ok sr ->
  done sr = true ->
  activation r = ok d ->
  resp_success d = false ->
  activate_error d = Some e ->
  (Js.includes "activo" e = true ->
   toasts (log (snd (acceptAndShowAd r p)))
   = app (toasts (log p)) [(BOOST_ACTIVATED ++ " +15 PTS", success)]
   /\ toasts (log (snd (acceptAndShowAd r p)))
      = toasts (log (snd (acceptAndShowAd
                            (with_activation (ok plain_success) r) p))))
  /\ (Js.includes "activo" e = false ->
      toasts (log (snd (acceptAndShowAd r p)))
      = app (toasts (log p))
            [(if Js.truthy_str e then e else "Boost activado", info)])
  /\ (forall d' : activate_data, resp_success d' = true ->
        exists msg : string,
          toasts (log (snd (acceptAndShowAd (with_activation (ok d') r) p)))
          = app (toasts (log p)) [(msg, success)]).
Proof.
  intros Hinit Hshown Hdone Hact Hfail Herr.
  pose proof (completed_ad_toast r p sr d Hinit Hshown Hdone Hact) as Hmine.
  rewrite Hfail in Hmine. unfold already_active in Hmine.
  rewrite Herr in Hmine. cbn [Js.truthy_ostr default from_option id] in Hmine.
  split; [|split].
  - intros Hactive. rewrite Hactive in Hmine.
    assert (Hne : Js.truthy_str e = true)
      by (destruct e; [discriminate Hactive | reflexivity]).
    rewrite Hne in Hmine. cbn [andb] in Hmine.
    split; [exact Hmine|]. rewrite Hmine.
    rewrite (completed_ad_toast (with_activation (ok plain_success) r) p sr
               plain_success); try assumption; reflexivity.
  - intros Hother. rewrite Hother, andb_false_r in Hmine. exact Hmine.
  - intros d' Hsucc.
    rewrite (completed_ad_toast (with_activation (ok d') r) p sr d');
      try assumption; try reflexivity.
    rewrite Hsucc. eexists. reflexivity.
Qed.

Lemma already_active_reported_as_success_witness :
  toasts (log (snd (acceptAndShowAd already_active_run (openBoostModal fresh_page))))
  = app (toasts (log (openBoostModal fresh_page)))
        [(BOOST_ACTIVATED ++ " +15 PTS", success)].
Proof.
  apply (proj1 (already_active_reported_as_success
                  already_active_run (openBoostModal fresh_page)
                  {| done := true |}
                  {| resp_success := false; pts_earned := None;
                     activate_error := Some "Ya tienes un boost activo" |}
                  "Ya tienes un boost activo"
                  eq_refl eq_refl eq_refl eq_refl eq_refl eq_refl)
           eq_refl).
Defined.

End ConsentFlow.

(** ** One flow at a time *)

Section SingleFlight.
Import Ui ShrinkEarn Scenario.

Lemma guarded_step (valid_selector : string -> bool) (p : page) (e : event) :
  sets_flag e = true -> guarded p -> guarded (step valid_selector p e).
Proof.
  intros He Hp. destruct e as [m | i o]; cbn [step sets_flag] in *.
  - unfold startShrinkEarnMission.
    destruct (Js.truthy_ostr (userId (st p))) eqn:Hu; cbn [negb].
    + destruct (Js.truthy_ostr (activeMission (st p))) eqn:Ha; [exact Hp|].
      inversion Hp as [Hin _ | m' Hin Hbusy _ | Hin Hbusy _]; [|congruence..].
      destruct (valid_selector (mission_selector m)); cbn [negb].
      * apply (guarded_busy _ m); cbn;
          [rewrite Hin; reflexivity | exact He | exact Hu].
      * apply guarded_stuck; cbn; assumption.
    + inversion Hp as [Hin Ha | m' Hin Ha Hu' | Hin Ha Hu']; [|congruence..].
      apply guarded_idle; assumption.
  - unfold settle. destruct (in_flight p !! i) as [m|] eqn:Hi; [|exact Hp].
    inversion Hp as [Hin _ | m' Hin _ _ | Hin _ _]; rewrite Hin in Hi.
    + destruct i; discriminate Hi.
    + destruct i as [|[|i]]; [|discriminate Hi..].
      apply guarded_idle; cbn; [rewrite Hin|]; reflexivity.
    + destruct i; discriminate Hi.
Qed.

Lemma guarded_run (valid_selector : string -> bool) (es : list event)
    (p : page) :
  forallb sets_flag es = true -> guarded p ->
  guarded (run valid_selector es p).
Proof.
  revert p. induction es as [|e es IH]; intros p Hes Hp; [exact Hp|].
  cbn in Hes. apply andb_true_iff in Hes as [He Hes].
  cbn. apply IH; [exact Hes|]. apply guarded_step; assumption.
Qed.

Lemma exact_step (valid_selector : string -> bool) (p : page) (e : event) :
  sets_flag e = true -> finds_element valid_selector e = true ->
  guarded p -> exact p -> exact (step valid_selector p e).
Proof.
  unfold exact. intros He Hv Hp Hx.
  destruct e as [m | i o]; cbn [step sets_flag finds_element] in *.
  - unfold startShrinkEarnMission.
    destruct (Js.truthy_ostr (userId (st p))) eqn:Hu; cbn [negb].
    + destruct (Js.truthy_ostr (activeMission (st p))) eqn:Ha; [rewrite Ha; exact Hx|].
      rewrite Hv. cbn [negb]. cbn.
      inversion Hp as [Hin _ | m' Hin Hbusy _ | Hin Hbusy _]; [|congruence..].
      rewrite He, Hin. cbn. split; reflexivity.
    + cbn. exact Hx.
  - unfold settle. destruct (in_flight p !! i) as [m|] eqn:Hi; [|exact Hx].
    cbn. inversion Hp as [Hin _ | m' Hin _ _ | Hin _ _]; rewrite Hin in *.
    + destruct i; discriminate Hi.
    + destruct i as [|[|i]]; [|discriminate Hi..].
      cbn. split; intros H; discriminate H.
    + destruct i; discriminate Hi.
Qed.

Lemma exact_run (valid_selector : string -> bool) (es : list event)
    (p : page) :
  forallb sets_flag es = true ->
  forallb (finds_element valid_selector) es = true ->
  guarded p -> exact p -> exact (run valid_selector es p).
Proof.
  revert p. induction es as [|e es IH]; intros p Hes Hvs Hp Hx; [exact Hx|].
  cbn in Hes, Hvs. apply andb_true_iff in Hes as [He Hes].
  apply andb_true_iff in Hvs as [Hv Hvs].
  cbn. apply IH; [exact Hes | exact Hvs | |].
  - apply guarded_step; assumption.
  - apply exact_step; assumption.
Qed.

(** C2, as stated, fails on the boost trigger: [openBoostModal] has no busy
    flag, and two clicks leave two eligibility checks in flight. *)
Lemma boost_trigger_counterexample :
  AdsgramBoost.pending_checks
    (AdsgramBoost.trigger_run
       [AdsgramBoost.trigger_click; AdsgramBoost.trigger_click] fresh_page) = 2
  /\ AdsgramBoost.log
       (AdsgramBoost.trigger_run
          [AdsgramBoost.trigger_click; AdsgramBoost.trigger_click] fresh_page)
     = [AdsgramBoost.get_can_activate "111"; AdsgramBoost.get_can_activate "111"].
Proof. split; vm_compute; reflexivity. Qed.

(** The flag of the mission controller is the mission id itself: a click
    with an empty id leaves it falsy. *)
Example empty_mission_id_sets_no_flag :
  in_flight (run plain_selector [trigger ""; trigger ""] idle_missions)
  = [""; ""].
Proof. vm_compute. reflexivity. Qed.

(** The mission element is looked up between the assignment of the flag and
    the [try] block: a mission id that breaks the selector leaves the flag
    set and sends nothing, and every later click is dropped. *)
Example broken_selector_keeps_flag :
  let p := run plain_selector
             [trigger ("a" ++ Js.double_quote ++ "b"); trigger "quick_task"]
             idle_missions in
  activeMission (st p) = Some ("a" ++ Js.double_quote ++ "b")
  /\ in_flight p = []
  /\ log p = [].
Proof. vm_compute. repeat split; reflexivity. Qed.

(** C2 (amended): on the ShrinkEarn mission controller, for every sequence of
    clicks on missions with a non-empty id and of answers to pending
    requests, at most one flow is in flight at any time, and whenever one
    is, the flag [activeMission] is set; a click on an idle page sets the
    flag, and starts a flow with one request when the mission element can
    be looked up; a click while the flag is set changes nothing (it is
    dropped, not queued); and the flag is cleared when the request of the
    flow settles. As long as every lookup succeeds, the flag is set exactly
    while a flow is in flight. The boost trigger [openBoostModal] has no
    such flag: every click of an identified user starts one more
    eligibility check. *)
Theorem shrinkearn_single_flight (valid_selector : string -> bool)
    (es : list event) (p0 : page) :
  in_flight p0 = [] ->
  Js.truthy_ostr (activeMission (st p0)) = false ->
  forallb sets_flag es = true ->
  let p := run valid_selector es p0 in
  length (in_flight p) <= 1
  /\ (length (in_flight p) = 1 ->
      Js.truthy_ostr (activeMission (st p)) = true)
  /\ (forallb (finds_element valid_selector) es = true ->
      (Js.truthy_ostr (activeMission (st p)) = true
       <-> length (in_flight p) = 1))
  /\ (forall m, Js.truthy_ostr (activeMission (st p)) = true ->
        startShrinkEarnMission valid_selector m p = p)
  /\ (forall m, Js.truthy_str m = true ->
        Js.truthy_ostr (userId (st p)) = true ->
        Js.truthy_ostr (activeMission (st p)) = false ->
        activeMission (st (startShrinkEarnMission valid_selector m p)) = Some m
        /\ (valid_selector (mission_selector m) = true ->
            in_flight (startShrinkEarnMission valid_selector m p) = [m]
            /\ log (startShrinkEarnMission valid_selector m p)
               = app (log p)
                     [button_loading m;
                      post_start (default "" (userId (st p))) m]))
  /\ (forall i o m, in_flight p !! i = Some m ->
        in_flight (settle i o p) = []
        /\ activeMission (st (settle i o p)) = None)
  /\ (forall q : AdsgramBoost.page,
        uid_truthy (AdsgramBoost.getUserId (AdsgramBoost.win q)) = true ->
        AdsgramBoost.pending_checks (AdsgramBoost.openBoostModal q)
        = S (AdsgramBoost.pending_checks q)).
Proof.
  intros Hin Hflag Hes p.
  assert (Hp : guarded p).
  { apply guarded_run; [exact Hes|]. apply guarded_idle; assumption. }
  assert (Hx : forallb (finds_element valid_selector) es = true -> exact p).
  { intros Hvs. apply exact_run; [exact Hes | exact Hvs | |].
    - apply guarded_idle; assumption.
    - unfold exact. rewrite Hin, Hflag. cbn. split; intros H; discriminate H. }
  clearbody p. clear Hin Hflag Hes p0.
  split; [|split; [|split; [|split; [|split; [|split]]]]].
  - destruct Hp as [Hin _ | m Hin _ _ | Hin _ _]; rewrite Hin; cbn; lia.
  - destruct Hp as [Hin Ha | m Hin Ha _ | Hin Ha _]; rewrite Hin; cbn;
      [discriminate | intros _; exact Ha | discriminate].
  - exact Hx.
  - intros m Hbusy. unfold startShrinkEarnMission.
    destruct Hp as [_ Ha | m' _ _ Hu | _ _ Hu]; [congruence|..];
      rewrite Hu, Hbusy; reflexivity.
  - intros m Hm Hu Hidle. unfold startShrinkEarnMission.
    rewrite Hu, Hidle. cbn [negb].
    destruct Hp as [Hin _ | m' _ Ha _ | _ Ha _]; [|congruence..].
    split.
    + destruct (valid_selector (mission_selector m)); reflexivity.
    + intros ->. cbn. rewrite Hin. split; reflexivity.
  - intros i o m Hi. unfold settle. rewrite Hi. cbn.
    destruct Hp as [Hin _ | m' Hin _ _ | Hin _ _]; rewrite Hin in *.
    + destruct i; discriminate Hi.
    + destruct i as [|[|i]]; [split; reflexivity|discriminate Hi..].
    + destruct i; discriminate Hi.
  - intros q Hq. unfold AdsgramBoost.openBoostModal.
    assert (Hwin : AdsgramBoost.win
                     (AdsgramBoost.createBoostConsentModal
                        (AdsgramBoost.createBoostModalStyles q))
                   = AdsgramBoost.win q).
    { unfold AdsgramBoost.createBoostConsentModal.
      destruct (AdsgramBoost.modal_display _); reflexivity. }
    rewrite Hwin, Hq. cbn.
    unfold AdsgramBoost.createBoostConsentModal.
    destruct (AdsgramBoost.modal_display _); reflexivity.
Qed.

Lemma shrinkearn_single_flight_witness :
  length (in_flight (run plain_selector double_click idle_missions)) <= 1.
Proof.
  apply (shrinkearn_single_flight plain_selector double_click idle_missions
           eq_refl eq_refl eq_refl).
Defined.

End SingleFlight.

(** ** Loading the ad SDKs *)

Section SdkLoaders.
Import Ui Scenario.

(** Once the flag is set or the tag is in the document, no event adds a
    script element. *)
Lemma onclicka_settled (es : list OnClickA.event) (p : OnClickA.page) :
  OnClickA.onclickaReady p || OnClickA.has_script OnClickA.scriptUrl p = true ->
  OnClickA.scripts (OnClickA.run es p) = OnClickA.scripts p.
Proof.
  revert p. induction es as [|e es IH]; intros p Hp; [reflexivity|].
  cbn [OnClickA.run fold_left].
  change (fold_left OnClickA.step es (OnClickA.step p e))
    with (OnClickA.run es (OnClickA.step p e)).
  assert (Hstep : OnClickA.scripts (OnClickA.step p e) = OnClickA.scripts p
                  /\ OnClickA.onclickaReady (OnClickA.step p e)
                     || OnClickA.has_script OnClickA.scriptUrl (OnClickA.step p e)
                     = true).
  { destruct e; cbn [OnClickA.step].
    - unfold OnClickA.loadOnClickaSDK.
      destruct (OnClickA.onclickaReady p) eqn:Hr; [split; [reflexivity|]|].
      + cbn. rewrite Hr. reflexivity.
      + cbn in Hp. rewrite Hp. split; reflexivity.
    - split; reflexivity.
    - split; [reflexivity | exact Hp]. }
  destruct Hstep as [Hs Hinv]. rewrite IH; assumption.
Qed.

Lemma onclicka_at_most_once (es : list OnClickA.event) (p : OnClickA.page) :
  exists n : nat,
    n <= 1
    /\ OnClickA.scripts (OnClickA.run es p)
       = app (OnClickA.scripts p) (replicate n OnClickA.scriptUrl).
Proof.
  revert p. induction es as [|e es IH]; intros p.
  { exists 0. split; [lia|]. cbn. rewrite app_nil_r. reflexivity. }
  cbn [OnClickA.run fold_left].
  change (fold_left OnClickA.step es (OnClickA.step p e))
    with (OnClickA.run es (OnClickA.step p e)).
  destruct (OnClickA.onclickaReady p || OnClickA.has_script OnClickA.scriptUrl p)
    eqn:Hp.
  { exists 0. split; [lia|].
    change (OnClickA.run es (OnClickA.step p e)) with (OnClickA.run (e :: es) p).
    rewrite onclicka_settled by exact Hp. cbn. rewrite app_nil_r. reflexivity. }
  apply orb_false_iff in Hp as [Hr Hs].
  destruct e; cbn [OnClickA.step].
  - unfold OnClickA.loadOnClickaSDK. rewrite Hr, Hs. cbn [snd].
    exists 1. split; [lia|].
    rewrite onclicka_settled; [reflexivity|].
    unfold OnClickA.has_script.
    cbn [OnClickA.scripts OnClickA.onclickaReady].
    rewrite existsb_app. cbn [existsb]. rewrite String.eqb_refl.
    rewrite !orb_true_r. reflexivity.
  - exists 0. split; [lia|].
    rewrite onclicka_settled by reflexivity. cbn. rewrite app_nil_r. reflexivity.
  - apply IH.
Qed.

Lemma adsgram_global_kept (es : list AdsgramBoost.sdk_event) (p : AdsgramBoost.page) :
  AdsgramBoost.Adsgram (AdsgramBoost.sdk p) = true ->
  AdsgramBoost.head_scripts (AdsgramBoost.sdk (AdsgramBoost.sdk_run es p))
  = AdsgramBoost.head_scripts (AdsgramBoost.sdk p).
Proof.
  revert p. induction es as [|e es IH]; intros p Hp; [reflexivity|].
  cbn [AdsgramBoost.sdk_run fold_left].
  change (fold_left AdsgramBoost.sdk_step es (AdsgramBoost.sdk_step p e))
    with (AdsgramBoost.sdk_run es (AdsgramBoost.sdk_step p e)).
  assert (Hstep :
    AdsgramBoost.head_scripts (AdsgramBoost.sdk (AdsgramBoost.sdk_step p e))
    = AdsgramBoost.head_scripts (AdsgramBoost.sdk p)
    /\ AdsgramBoost.Adsgram (AdsgramBoost.sdk (AdsgramBoost.sdk_step p e)) = true).
  { destruct e as [o | o |]; cbn [AdsgramBoost.sdk_step].
    - unfold AdsgramBoost.initAdsgram. rewrite Hp. cbn.
      destruct (AdsgramBoost.isAdsgramReady (AdsgramBoost.sdk p));
        [split; [reflexivity | exact Hp]|].
      destruct o; cbn; split; first [reflexivity | exact Hp].
    - destruct o; cbn; split; reflexivity.
    - cbn. split; [reflexivity | exact Hp]. }
  destruct Hstep as [Hs Hg]. rewrite IH; assumption.
Qed.

(** C9, as stated, fails on [initAdsgram]: it looks for the global
    [window.Adsgram] only, so a call made after a first script tag failed to
    load appends a second tag. *)
Lemma initAdsgram_counterexample :
  AdsgramBoost.sdk_scripts
    (AdsgramBoost.sdk_run
       [AdsgramBoost.sdk_call None; AdsgramBoost.sdk_script_failed] fresh_page)
  = [AdsgramBoost.ADSGRAM_SDK_URL]
  /\ AdsgramBoost.sdk_scripts
       (AdsgramBoost.sdk_run
          [AdsgramBoost.sdk_call None; AdsgramBoost.sdk_script_failed;
           AdsgramBoost.sdk_call None] fresh_page)
     = [AdsgramBoost.ADSGRAM_SDK_URL; AdsgramBoost.ADSGRAM_SDK_URL].
Proof. split; vm_compute; reflexivity. Qed.

(** C9 (amended): for every sequence of calls to [loadOnClickaSDK] and of
    load events, at most one script element is added to the document, and a
    call made once the ready flag is set or the script tag exists resolves
    without adding one; [initAdsgram] adds no script element once the global
    [window.Adsgram] exists, and adds one on every call made while the global
    is missing. *)
Theorem sdk_script_injection :
  (forall (es : list OnClickA.event) (p : OnClickA.page),
     exists n : nat,
       n <= 1
       /\ OnClickA.scripts (OnClickA.run es p)
          = app (OnClickA.scripts p) (replicate n OnClickA.scriptUrl))
  /\ (forall p : OnClickA.page,
        OnClickA.onclickaReady p || OnClickA.has_script OnClickA.scriptUrl p = true ->
        fst (OnClickA.loadOnClickaSDK p) = OnClickA.resolved_true
        /\ OnClickA.scripts (snd (OnClickA.loadOnClickaSDK p)) = OnClickA.scripts p)
  /\ (forall (es : list AdsgramBoost.sdk_event) (p : AdsgramBoost.page),
        AdsgramBoost.Adsgram (AdsgramBoost.sdk p) = true ->
        AdsgramBoost.head_scripts (AdsgramBoost.sdk (AdsgramBoost.sdk_run es p))
        = AdsgramBoost.head_scripts (AdsgramBoost.sdk p))
  /\ (forall (o : option thrown) (p : AdsgramBoost.page),
        AdsgramBoost.Adsgram (AdsgramBoost.sdk p) = false ->
        AdsgramBoost.head_scripts
          (AdsgramBoost.sdk (snd (AdsgramBoost.initAdsgram o p)))
        = app (AdsgramBoost.head_scripts (AdsgramBoost.sdk p))
              [AdsgramBoost.ADSGRAM_SDK_URL]).
Proof.
  split; [exact onclicka_at_most_once|].
  split; [|split; [exact adsgram_global_kept|]].
  - intros p Hp. unfold OnClickA.loadOnClickaSDK.
    destruct (OnClickA.onclickaReady p); [split; reflexivity|].
    cbn in Hp. rewrite Hp. split; reflexivity.
  - intros o p Hp. unfold AdsgramBoost.initAdsgram. rewrite Hp. reflexivity.
Qed.

Lemma sdk_script_injection_witness :
  OnClickA.scripts
    (snd (OnClickA.loadOnClickaSDK (snd (OnClickA.loadOnClickaSDK no_sdk_page))))
  = OnClickA.scripts (snd (OnClickA.loadOnClickaSDK no_sdk_page)).
Proof.
  apply (proj1 (proj2 sdk_script_injection)
           (snd (OnClickA.loadOnClickaSDK no_sdk_page))).
  reflexivity.
Defined.

End SdkLoaders.

(** ** The VPN check *)

Section VpnCheck.
Import VpnDetector Scenario.

Variable JSON_parse : string -> option vpn_result.
Variable JSON_stringify : vpn_result -> string.


(** The loop stops at the first answer that is not an error. *)
Lemma retry_loop_stops (b : browser) (remaining retries : nat)
    (result : option vpn_result) :
  error (checkVPNStatus (responses b retries)) = false ->
  retry_loop b (S remaining) retries result
  = (Some (checkVPNStatus (responses b retries)),
     [request (apiEndpoint VPN_CHECK_CONFIG)]).
Proof. intros H. cbn [retry_loop]. rewrite H. reflexivity. Qed.

(** When every answer is an error the loop uses all its rounds, each followed
    by the 500 ms pause. *)
Lemma retry_loop_exhausted (b : browser) (remaining retries : nat)
    (result : option vpn_result) :
  (forall i, error (checkVPNStatus (responses b i)) = true) ->
  snd (retry_loop b remaining retries result)
  = concat (replicate remaining
              [request (apiEndpoint VPN_CHECK_CONFIG); wait 500]).
Proof.
  intros Hall. revert retries result.
  induction remaining as [|n IH]; intros retries result; [reflexivity|].
  cbn [retry_loop]. rewrite Hall. cbn [negb].
  specialize (IH (S retries) (Some (checkVPNStatus (responses b retries)))).
  destruct (retry_loop b n (S retries) _) as [final rest].
  cbn in *. rewrite IH. reflexivity.
Qed.


Lemma redirect_is_no_request (b : browser) :
  requests_in [redirectToBlockedPage b] = [].
Proof. reflexivity. Qed.




End VpnCheck.




(** ** The cached fingerprint *)

Section FingerprintCache.
Import DeviceFingerprint Scenario.

Variable JSON_parse : string -> option stored_fingerprint.
Variable JSON_stringify : stored_fingerprint -> string.

Lemma fresh_cache_hit (now : Z) (ls : gmap string string) (stored : string)
    (data : stored_fingerprint) (ts : Z) :
  ls !! "_se_device_fp" = Some stored ->
  stored <> "" ->
  JSON_parse stored = Some data ->
  timestamp data = Some ts ->
  ts <> 0%Z ->
  (now - ts < 86400000)%Z ->
  fresh_cache JSON_parse now ls = Some data.
Proof.
  intros Hls Hne Hparse Hts Hnz Hfresh. unfold fresh_cache.
  rewrite Hls.
  assert (Js.truthy_str stored = true) as ->.
  { unfold Js.truthy_str. destruct (String.eqb_spec stored "");
      [contradiction | reflexivity]. }
  rewrite Hparse, Hts.
  assert (Js.truthy_num ts = true) as ->.
  { unfold Js.truthy_num. destruct (Z.eqb_spec ts 0); [contradiction | reflexivity]. }
  apply Z.ltb_lt in Hfresh. rewrite Hfresh. reflexivity.
Qed.

Lemma fresh_cache_stale (now : Z) (ls : gmap string string) (stored : string)
    (data : stored_fingerprint) (ts : Z) :
  ls !! "_se_device_fp" = Some stored ->
  JSON_parse stored = Some data ->
  timestamp data = Some ts ->
  (86400000 <= now - ts)%Z ->
  fresh_cache JSON_parse now ls = None.
Proof.
  intros Hls Hparse Hts Hstale. unfold fresh_cache.
  rewrite Hls. destruct (Js.truthy_str stored); [|reflexivity].
  rewrite Hparse, Hts.
  apply Z.ltb_ge in Hstale. rewrite Hstale, andb_false_r. reflexivity.
Qed.

Lemma getStoredFingerprint_hit (d : device) (now stored_at : Z)
    (ls : gmap string string) (data : stored_fingerprint) :
  fresh_cache JSON_parse now ls = Some data ->
  getStoredFingerprint JSON_parse JSON_stringify d now stored_at ls
  = {| returned := hash data; storage := ls; effects := [] |}.
Proof. intros H. unfold getStoredFingerprint. rewrite H. reflexivity. Qed.

Lemma getStoredFingerprint_miss (d : device) (now stored_at : Z)
    (ls : gmap string string) :
  fresh_cache JSON_parse now ls = None ->
  getStoredFingerprint JSON_parse JSON_stringify d now stored_at ls
  = let text := JSON_stringify {| hash := Some (generate d);
                                  timestamp := Some stored_at |} in
    {| returned := Some (generate d);
       storage := <["_se_device_fp" := text]> ls;
       effects := [generated; set_item "_se_device_fp" text] |}.
Proof. intros H. unfold getStoredFingerprint. rewrite H. reflexivity. Qed.

(** C8: with a fingerprint cached under [_se_device_fp], two calls of
    [getStoredFingerprint] made less than 24 hours after the cached timestamp
    return the cached hash, the same for both, without computing a
    fingerprint and without touching the storage, whatever the device looks
    like by then; a call made 24 hours or more after the cached timestamp
    computes a fresh fingerprint, returns it and stores it with the time of
    the call; and a call that follows such a call by less than 24 hours
    returns the hash that call stored, without computing again. *)
Theorem fingerprint_cached_for_a_day (ls : gmap string string) (stored : string)
    (data : stored_fingerprint) (ts : Z) :
  ls !! "_se_device_fp" = Some stored ->
  stored <> "" ->
  JSON_parse stored = Some data ->
  timestamp data = Some ts ->
  ts <> 0%Z ->
  (forall (d1 d2 : device) (now1 at1 now2 at2 : Z),
     (now1 - ts < 86400000)%Z ->
     (now2 - ts < 86400000)%Z ->
     let first :=
       getStoredFingerprint JSON_parse JSON_stringify d1 now1 at1 ls in
     let second :=
       getStoredFingerprint JSON_parse JSON_stringify d2 now2 at2
         (storage first) in
     returned first = hash data
     /\ returned second = hash data
     /\ returned first = returned second
     /\ effects first = []
     /\ effects second = []
     /\ storage second = ls)
  /\ (forall (d : device) (now stored_at : Z),
        (86400000 <= now - ts)%Z ->
        let fresh := {| hash := Some (generate d);
                        timestamp := Some stored_at |} in
        let call :=
          getStoredFingerprint JSON_parse JSON_stringify d now stored_at ls in
        returned call = Some (generate d)
        /\ effects call
           = [generated; set_item "_se_device_fp" (JSON_stringify fresh)]
        /\ storage call = <["_se_device_fp" := JSON_stringify fresh]> ls
        /\ (forall (d' : device) (later later_at : Z),
              JSON_stringify fresh <> "" ->
              JSON_parse (JSON_stringify fresh) = Some fresh ->
              stored_at <> 0%Z ->
              (later - stored_at < 86400000)%Z ->
              let again :=
                getStoredFingerprint JSON_parse JSON_stringify d' later later_at
                  (storage call) in
              returned again = returned call /\ effects again = [])).
Proof.
  intros Hls Hne Hparse Hts Hnz. split.
  - intros d1 d2 now1 at1 now2 at2 H1 H2. cbv zeta.
    rewrite (getStoredFingerprint_hit d1 now1 at1 ls data)
      by (apply (fresh_cache_hit now1 ls stored data ts); assumption).
    cbn [storage returned effects].
    rewrite (getStoredFingerprint_hit d2 now2 at2 ls data)
      by (apply (fresh_cache_hit now2 ls stored data ts); assumption).
    cbn [storage returned effects]. repeat split; reflexivity.
  - intros d now stored_at Hstale. cbv zeta.
    rewrite (getStoredFingerprint_miss d now stored_at ls)
      by (apply (fresh_cache_stale now ls stored data ts); assumption).
    cbn [storage returned effects].
    split; [reflexivity|]. split; [reflexivity|]. split; [reflexivity|].
    intros d' later later_at Htext Hround Hnow Hlater.
    rewrite (getStoredFingerprint_hit d' later later_at _
               {| hash := Some (generate d); timestamp := Some stored_at |}).
    + split; reflexivity.
    + apply (fresh_cache_hit later _ (JSON_stringify
               {| hash := Some (generate d); timestamp := Some stored_at |})
               _ stored_at);
        try assumption; try reflexivity.
      apply lookup_insert_eq.
Qed.

End FingerprintCache.

Lemma fingerprint_cached_for_a_day_witness :
  DeviceFingerprint.returned
    (DeviceFingerprint.getStoredFingerprint Scenario.fp_parse Scenario.fp_stringify
       Scenario.desktop 1700000060000%Z 1700000060005%Z Scenario.fp_storage)
  = Some "df_abc_def".
Proof.
  apply (proj1 (proj1 (fingerprint_cached_for_a_day
                  Scenario.fp_parse Scenario.fp_stringify
                  Scenario.fp_storage Scenario.stored_sample_json
                  Scenario.stored_sample 1700000000000%Z
                  eq_refl ltac:(discriminate) eq_refl eq_refl ltac:(discriminate))
                Scenario.desktop Scenario.desktop
                1700000060000%Z 1700000060005%Z 1700000090000%Z 1700000090005%Z
                eq_refl eq_refl)).
Defined.

(** ** The request counter of the loader *)

Section LoaderCounter.
Import DbLoader.

Lemma activeRequests_startPolling (s : loader) :
  activeRequests (startPolling s) = activeRequests s.
Proof. unfold startPolling. destruct (isPolling s); reflexivity. Qed.

Lemma activeRequests_show (m : string) (s : loader) :
  activeRequests (show m s) = (activeRequests s + 1)%Z.
Proof.
  unfold show. rewrite activeRequests_startPolling.
  cbn [with_overlay updateMessage activeRequests loaderElement].
  destruct (loaderElement s); reflexivity.
Qed.

Lemma activeRequests_hide (status : string) (s : loader) :
  activeRequests (hide status s) = Z.max 0 (activeRequests s - 1).
Proof.
  unfold hide. cbn [activeRequests].
  destruct (0 <? Z.max 0 (activeRequests s - 1))%Z; [reflexivity|].
  cbn [stopPolling loaderElement].
  destruct (loaderElement s); [|reflexivity].
  destruct (String.eqb status "success"); [reflexivity|].
  destruct (String.eqb status "error"); reflexivity.
Qed.

Lemma activeRequests_fade_out (s : loader) :
  activeRequests (fade_out s) = activeRequests s.
Proof. unfold fade_out. destruct (fade_timers s); reflexivity. Qed.

Lemma activeRequests_poll (timed_out : bool) (status_message : option string)
    (s : loader) :
  activeRequests (poll timed_out status_message s) = activeRequests s.
Proof.
  unfold poll. destruct timed_out; [reflexivity|].
  destruct status_message as [m|]; [destruct (Js.truthy_str m)|];
    cbn [updateMessage with_overlay isPolling];
    destruct (isPolling s); reflexivity.
Qed.

Lemma step_nonnegative (s : loader) (e : event) :
  (0 <= activeRequests s)%Z -> (0 <= activeRequests (step s e))%Z.
Proof.
  intros Hs. destruct e as [m | status | | timed_out status_message];
    cbn [step].
  - rewrite activeRequests_show. lia.
  - rewrite activeRequests_hide. lia.
  - rewrite activeRequests_fade_out. exact Hs.
  - rewrite activeRequests_poll. exact Hs.
Qed.

Lemma run_nonnegative (es : list event) (s : loader) :
  (0 <= activeRequests s)%Z -> (0 <= activeRequests (run es s))%Z.
Proof.
  revert s. induction es as [|e es IH]; intros s Hs; [exact Hs|].
  cbn. apply IH. apply step_nonnegative. exact Hs.
Qed.

(** What [hide] does by itself: for every interleaving of [show] and [hide]
    calls (and of the callbacks they schedule), [activeRequests] never
    becomes negative; a [hide] that leaves [activeRequests] above 0 leaves
    the overlay as it is and schedules no fade-out; a fade-out is scheduled
    only by a [hide] that brings the counter to 0. *)
Lemma loader_counts_requests (es : list event) (status : string) :
  let s := run es state in
  let s' := hide status s in
  (0 <= activeRequests s)%Z
  /\ (0 <= activeRequests s')%Z
  /\ activeRequests s' = Z.max 0 (activeRequests s - 1)
  /\ ((0 < activeRequests s')%Z ->
      overlay_element s' = overlay_element s
      /\ visible s' = visible s
      /\ fade_timers s' = fade_timers s)
  /\ (fade_timers s' <> fade_timers s -> activeRequests s' = 0%Z)
  /\ (overlay_element s' <> overlay_element s -> activeRequests s' = 0%Z).
Proof.
  cbv zeta.
  assert (Hs : (0 <= activeRequests (run es state))%Z).
  { apply run_nonnegative. cbn. lia. }
  set (s := run es state) in *. clearbody s.
  pose proof (activeRequests_hide status s) as Hcount.
  assert (Hkeep : (0 < activeRequests (hide status s))%Z ->
                  overlay_element (hide status s) = overlay_element s
                  /\ fade_timers (hide status s) = fade_timers s).
  { rewrite Hcount. intros Hpos. unfold hide. cbn.
    apply Z.ltb_lt in Hpos. rewrite Hpos. split; reflexivity. }
  split; [exact Hs|]. split; [rewrite Hcount; lia|]. split; [exact Hcount|].
  split; [|split].
  - intros Hpos. destruct (Hkeep Hpos) as [Ho Hf].
    split; [exact Ho|]. split; [|exact Hf].
    unfold visible. rewrite Ho. reflexivity.
  - intros Hchanged.
    destruct (Z.ltb_spec 0 (activeRequests (hide status s))) as [Hpos|Hzero].
    + destruct (Hkeep Hpos) as [_ Hf]. contradiction.
    + rewrite Hcount in *. lia.
  - intros Hchanged.
    destruct (Z.ltb_spec 0 (activeRequests (hide status s))) as [Hpos|Hzero].
    + destruct (Hkeep Hpos) as [Ho _]. contradiction.
    + rewrite Hcount in *. lia.
Qed.

Lemma loader_counts_requests_witness :
  visible (hide "success" (run [call_show "a"; call_show "b"] state))
  = visible (run [call_show "a"; call_show "b"] state).
Proof.
  apply (proj1 (proj2 (proj1 (proj2 (proj2 (proj2
           (loader_counts_requests [call_show "a"; call_show "b"] "success"))))
           ltac:(vm_compute; reflexivity)))).
Defined.

(** The fade-out scheduled by the [hide] of a first request runs 300 ms
    later, whatever was shown in between. *)
Example late_fade_out :
  let s := run [call_show "a"; call_hide "success"; call_show "b";
                timer_fade_out] state in
  activeRequests s = 1%Z /\ visible s = false.
Proof. vm_compute. split; reflexivity. Qed.

(** C10: the code does not keep the overlay on screen while requests are
    outstanding. A first request is shown and hidden, which schedules the
    fade-out 300 ms later; two more requests are shown before the timer
    runs, and [show] does not cancel it. When the timer runs, the overlay is
    hidden with two requests outstanding; the [hide] of one of them then
    leaves [activeRequests] at 1 and the overlay hidden. The counter itself
    is right throughout and never negative. *)
Theorem stale_fade_out_hides_busy_loader :
  let shown := run [call_show "a"; call_hide "success"; call_show "b";
                    call_show "c"] state in
  let faded := step shown timer_fade_out in
  let s' := hide "success" faded in
  (activeRequests shown = 2%Z /\ visible shown = true
   /\ fade_timers shown = 1%nat)
  /\ (activeRequests faded = 2%Z /\ visible faded = false)
  /\ (activeRequests s' = 1%Z /\ visible s' = false).
Proof. vm_compute. repeat split; reflexivity. Qed.

(** An extra [hide] does not drive the counter below zero. *)
Example hide_clamps_at_zero :
  activeRequests (run [call_hide ""; call_show "a"; call_hide ""; call_hide ""] state)
  = 0%Z.
Proof. vm_compute. reflexivity. Qed.

End LoaderCounter.

(** ** The string hash of the fingerprint *)

Section StringHash.
Import DeviceFingerprint.

Lemma to_int32_range (z : Z) :
  (-2147483648 <= to_int32 z < 2147483648)%Z.
Proof.
  unfold to_int32.
  pose proof (Z.mod_pos_bound (z + 2147483648) 4294967296 ltac:(lia)). lia.
Qed.

Lemma to_int32_congr (a b : Z) :
  ((a - b) mod 4294967296 = 0)%Z -> to_int32 a = to_int32 b.
Proof.
  intros H. unfold to_int32. f_equal.
  apply Z.mod_divide in H; [|lia]. destruct H as [k Hk].
  replace (a + 2147483648)%Z with (b + 2147483648 + k * 4294967296)%Z by lia.
  apply Z.mod_add. lia.
Qed.

Lemma to_int32_diff (z : Z) : ((to_int32 z - z) mod 4294967296 = 0)%Z.
Proof.
  unfold to_int32.
  rewrite (Z.mod_eq (z + 2147483648) 4294967296) by lia.
  replace (z + 2147483648
           - 4294967296 * ((z + 2147483648) / 4294967296) - 2147483648 - z)%Z
    with (- ((z + 2147483648) / 4294967296) * 4294967296)%Z by lia.
  apply Z.mod_mul. lia.
Qed.

Lemma to_int32_fixed (z : Z) :
  (-2147483648 <= z < 2147483648)%Z -> to_int32 z = z.
Proof.
  intros Hz. unfold to_int32.
  rewrite Z.mod_small by lia. lia.
Qed.

(** One round of the loop is [hash * 31 + char] up to a multiple of 2^32. *)
Lemma hash_round (h h' c : Z) :
  ((h - h') mod 4294967296 = 0)%Z ->
  ((to_int32 (to_int32 (h * 32) - h + c) - (h' * 31 + c)) mod 4294967296 = 0)%Z.
Proof.
  intros H.
  apply Z.mod_divide in H; [|lia]. destruct H as [k Hk].
  pose proof (to_int32_diff (to_int32 (h * 32) - h + c)) as H1.
  pose proof (to_int32_diff (h * 32)) as H2.
  apply Z.mod_divide in H1; [|lia]. destruct H1 as [k1 Hk1].
  apply Z.mod_divide in H2; [|lia]. destruct H2 as [k2 Hk2].
  apply Z.mod_divide; [lia|].
  exists (k1 + k2 + 31 * k)%Z. lia.
Qed.

Lemma hash_loop_exact (str : string) (h h' : Z) :
  ((h - h') mod 4294967296 = 0)%Z ->
  ((hash_loop str h - exact_hash str h') mod 4294967296 = 0)%Z.
Proof.
  revert h h'. induction str as [|c rest IH]; intros h h' H; cbn [hash_loop exact_hash].
  - exact H.
  - apply IH. apply hash_round. exact H.
Qed.

Lemma hash_loop_range (str : string) (h : Z) :
  (-2147483648 <= h < 2147483648)%Z ->
  (-2147483648 <= hash_loop str h < 2147483648)%Z.
Proof.
  revert h. induction str as [|c rest IH]; intros h Hh; cbn [hash_loop].
  - exact Hh.
  - apply IH. apply to_int32_range.
Qed.

(** X1: the loop of [hashCode], which shifts, subtracts and masks
    ([((hash << 5) - hash) + char], then [hash & hash]), computes the
    polynomial hash with multiplier 31 reduced to a signed 32-bit integer,
    whatever the length of the string: wrapping at every character loses
    nothing. *)
Theorem hashCode_is_polynomial_hash (str : string) :
  hash_loop str 0 = to_int32 (exact_hash str 0)
  /\ (-2147483648 <= hash_loop str 0 < 2147483648)%Z.
Proof.
  assert (Hr : (-2147483648 <= hash_loop str 0 < 2147483648)%Z).
  { apply hash_loop_range. lia. }
  split; [|exact Hr].
  rewrite <- (to_int32_fixed (hash_loop str 0)) by exact Hr.
  apply to_int32_congr. apply hash_loop_exact. reflexivity.
Qed.

Example hashCode_wraps :
  exact_hash "zzzzzzzz" 0 = 3468423552256%Z
  /\ hash_loop "zzzzzzzz" 0 = (-1910022912)%Z
  /\ hashCode "zzzzzzzz" = "vl6f40".
Proof. vm_compute. repeat split; reflexivity. Qed.

End StringHash.

Section Base36.
Import DeviceFingerprint.






End Base36.

Section FingerprintEdges.
Import DeviceFingerprint.

Variable JSON_parse : string -> option stored_fingerprint.
Variable JSON_stringify : stored_fingerprint -> string.

(** X3: an entry [_se_device_fp] that is missing, empty, unreadable as JSON
    or without a usable timestamp (absent or 0) counts as no cache at all:
    [getStoredFingerprint] computes the fingerprint, returns it and stores it
    under the key; and no call, hit or miss, ever touches another key of
    localStorage. *)
Theorem fingerprint_unusable_cache (d : device) (now stored_at : Z)
    (ls : gmap string string) :
  let call :=
    getStoredFingerprint JSON_parse JSON_stringify d now stored_at ls in
  let text := JSON_stringify {| hash := Some (generate d);
                                timestamp := Some stored_at |} in
  (forall key : string, key <> "_se_device_fp" -> storage call !! key = ls !! key)
  /\ ((ls !! "_se_device_fp" = None
       \/ ls !! "_se_device_fp" = Some ""
       \/ (exists stored, ls !! "_se_device_fp" = Some stored
             /\ (JSON_parse stored = None
                 \/ exists data, JSON_parse stored = Some data
                      /\ (timestamp data = None \/ timestamp data = Some 0%Z)))) ->
      returned call = Some (generate d)
      /\ storage call !! "_se_device_fp" = Some text
      /\ effects call = [generated; set_item "_se_device_fp" text]).
Proof.
  cbv zeta. split.
  - intros key Hkey. unfold getStoredFingerprint.
    destruct (fresh_cache JSON_parse now ls); cbn [storage]; [reflexivity|].
    apply lookup_insert_ne. congruence.
  - intros Hbad.
    assert (Hmiss : fresh_cache JSON_parse now ls = None).
    { unfold fresh_cache.
      destruct Hbad as [-> | [-> | (stored & -> & Hstored)]];
        [reflexivity | reflexivity |].
      destruct (Js.truthy_str stored); [|reflexivity].
      destruct Hstored as [-> | (data & -> & [-> | ->])]; reflexivity. }
    unfold getStoredFingerprint. rewrite Hmiss. cbn [returned storage effects].
    split; [reflexivity|]. split; [|reflexivity].
    apply lookup_insert_eq.
Qed.

End FingerprintEdges.

Lemma fingerprint_unusable_cache_witness :
  DeviceFingerprint.returned
    (DeviceFingerprint.getStoredFingerprint Scenario.fp_parse Scenario.fp_stringify
       Scenario.desktop 1700000060000%Z 1700000060005%Z ∅)
  = Some (DeviceFingerprint.generate Scenario.desktop).
Proof.
  apply (proj2 (fingerprint_unusable_cache
                  Scenario.fp_parse Scenario.fp_stringify
                  Scenario.desktop 1700000060000%Z 1700000060005%Z ∅)).
  left. reflexivity.
Defined.

(** ** [parseInt] reads back what [toString] writes *)

Section ParseIntRoundTrip.
Import VpnDetector.

Lemma decimal_cases (c : Ascii.ascii) :
  is_decimal c = true ->
  (c = "0" \/ c = "1" \/ c = "2" \/ c = "3" \/ c = "4"
   \/ c = "5" \/ c = "6" \/ c = "7" \/ c = "8" \/ c = "9")%char.
Proof.
  destruct c as [[] [] [] [] [] [] [] []]; vm_compute; intros H;
    first [discriminate H | auto 10].
Qed.

Lemma pretty_char_decimal (x : N) :
  (x < 10)%N ->
  digit_value 10 (pretty_N_char x) = Some (Z.of_N x)
  /\ is_decimal (pretty_N_char x) = true.
Proof.
  intros Hx.
  pose (P := fun x : N =>
    match digit_value 10 (pretty_N_char x) with
    | Some d => (d =? Z.of_N x)%Z
    | None => false
    end && is_decimal (pretty_N_char x)).
  assert (HP : P x = true).
  { apply (N_forall_below P 10); [vm_compute; reflexivity | exact Hx]. }
  unfold P in HP. apply andb_true_iff in HP as [H1 H2].
  split; [|exact H2].
  destruct (digit_value 10 (pretty_N_char x)) as [d|]; [|discriminate].
  apply Z.eqb_eq in H1. congruence.
Qed.

Lemma pretty_N_go_parses (x : N) (s : string) :
  parse_digits 10 (pretty_N_go x s) None
  = parse_digits 10 s (if (x =? 0)%N then None else Some (Z.of_N x)).
Proof.
  revert s. induction (N.lt_wf_0 x) as [x _ IH]; intros s.
  destruct (N.eqb_spec x 0) as [-> | Hx]; [reflexivity|].
  rewrite pretty_N_go_step by lia.
  rewrite IH by (apply N.div_lt; lia).
  cbn [parse_digits].
  destruct (pretty_char_decimal (x mod 10)) as [Hd _].
  { apply N.mod_lt. lia. }
  rewrite Hd.
  pose proof (N.div_mod x 10 ltac:(lia)) as Hdm.
  assert (Hval :
    (default 0 (if (x / 10 =? 0)%N then None else Some (Z.of_N (x / 10))) * 10
     + Z.of_N (x mod 10) = Z.of_N x)%Z).
  { apply (f_equal Z.of_N) in Hdm.
    rewrite N2Z.inj_add, N2Z.inj_mul in Hdm.
    destruct (N.eqb_spec (x / 10) 0) as [Hq | Hq];
      unfold default; cbn [from_option id];
      [rewrite Hq in Hdm; cbn in Hdm|]; lia. }
  rewrite Hval. reflexivity.
Qed.

Lemma pretty_N_go_decimal (x : N) (s : string) :
  all_decimal s = true -> all_decimal (pretty_N_go x s) = true.
Proof.
  revert s. induction (N.lt_wf_0 x) as [x _ IH]; intros s Hs.
  destruct (N.eqb_spec x 0) as [-> | Hx]; [exact Hs|].
  rewrite pretty_N_go_step by lia.
  apply IH; [apply N.div_lt; lia|].
  cbn [all_decimal]. rewrite Hs.
  destruct (pretty_char_decimal (x mod 10)) as [_ ->]; [|reflexivity].
  apply N.mod_lt. lia.
Qed.

Lemma pretty_N_go_nonempty (x : N) (s : string) :
  (0 < x)%N -> pretty_N_go x s <> "".
Proof.
  intros Hx Hempty.
  pose proof (pretty_N_go_parses x s) as H. rewrite Hempty in H.
  destruct (N.eqb_spec x 0); [lia|].
  assert (Hlen : forall y t, String.length t <= String.length (pretty_N_go y t)).
  { intros y. induction (N.lt_wf_0 y) as [y _ IHy]; intros t.
    destruct (N.eqb_spec y 0) as [-> | Hy]; [reflexivity|].
    rewrite pretty_N_go_step by lia.
    etrans; [|apply IHy; apply N.div_lt; lia]. cbn. lia. }
  rewrite pretty_N_go_step in Hempty by lia.
  specialize (Hlen (x / 10)%N (String (pretty_N_char (x mod 10)) s)).
  rewrite Hempty in Hlen. cbn in Hlen. lia.
Qed.

(** A text of decimal digits is read as such, with or without a sign. *)
Lemma parseInt_decimal (s : string) :
  all_decimal s = true ->
  s <> "" ->
  parseInt s = parse_digits 10 s None
  /\ parseInt (String "-" s) = Z.opp <$> parse_digits 10 s None.
Proof.
  intros Hs Hne.
  destruct s as [|c1 rest]; [contradiction|].
  cbn [all_decimal] in Hs. apply andb_true_iff in Hs as [Hc1 Hrest].
  assert (Hplain : forall sign : Z,
    (let '(radix, t) :=
       match String c1 rest with
       | String "0"%char (String "x"%char r) => (16%Z, r)
       | String "0"%char (String "X"%char r) => (16%Z, r)
       | _ => (10%Z, String c1 rest)
       end in
     Z.mul sign <$> parse_digits radix t None)
    = Z.mul sign <$> parse_digits 10 (String c1 rest) None).
  { intros sign.
    destruct rest as [|c2 rest'].
    - destruct (decimal_cases c1 Hc1) as [-> | [-> | [-> | [-> | [-> | [-> |
        [-> | [-> | [-> | ->]]]]]]]]]; reflexivity.
    - cbn [all_decimal] in Hrest. apply andb_true_iff in Hrest as [Hc2 _].
      destruct (decimal_cases c1 Hc1) as [-> | [-> | [-> | [-> | [-> | [-> |
        [-> | [-> | [-> | ->]]]]]]]]]; try reflexivity.
      destruct (decimal_cases c2 Hc2) as [-> | [-> | [-> | [-> | [-> | [-> |
        [-> | [-> | [-> | ->]]]]]]]]]; reflexivity. }
  split.
  - unfold parseInt.
    assert (Hskip : skip_spaces (String c1 rest) = String c1 rest).
    { destruct (decimal_cases c1 Hc1) as [-> | [-> | [-> | [-> | [-> | [-> |
        [-> | [-> | [-> | ->]]]]]]]]]; reflexivity. }
    rewrite Hskip.
    assert (Hsign :
      match String c1 rest with
      | String "-"%char r => ((-1)%Z, r)
      | String "+"%char r => (1%Z, r)
      | _ => (1%Z, String c1 rest)
      end = (1%Z, String c1 rest)).
    { destruct (decimal_cases c1 Hc1) as [-> | [-> | [-> | [-> | [-> | [-> |
        [-> | [-> | [-> | ->]]]]]]]]]; reflexivity. }
    rewrite Hsign. rewrite (Hplain 1%Z).
    destruct (parse_digits 10 (String c1 rest) None) as [v|]; cbn; [|reflexivity].
    f_equal. lia.
  - transitivity (Z.mul (-1) <$> parse_digits 10 (String c1 rest) None).
    + etransitivity; [|exact (Hplain (-1)%Z)]. reflexivity.
    + destruct (parse_digits 10 (String c1 rest) None) as [v|]; cbn;
        [|reflexivity].
      f_equal.
Qed.

(** [parseInt(n.toString())] is [n] for every integer [n]. *)
Lemma parseInt_int_to_string (z : Z) :
  parseInt (Js.int_to_string z) = Some z.
Proof.
  destruct z as [|p|p].
  - vm_compute. reflexivity.
  - unfold Js.int_to_string, pretty, pretty_Z, pretty, pretty_positive,
      pretty, pretty_N.
    destruct (decide (N.pos p = 0%N)) as [H|_]; [discriminate H|].
    destruct (parseInt_decimal (pretty_N_go (N.pos p) "")) as [H _].
    { apply pretty_N_go_decimal. reflexivity. }
    { apply pretty_N_go_nonempty. lia. }
    rewrite H, pretty_N_go_parses. reflexivity.
  - unfold Js.int_to_string, pretty, pretty_Z, pretty, pretty_positive,
      pretty, pretty_N.
    destruct (decide (N.pos p = 0%N)) as [H|_]; [discriminate H|].
    destruct (parseInt_decimal (pretty_N_go (N.pos p) "")) as [_ H].
    { apply pretty_N_go_decimal. reflexivity. }
    { apply pretty_N_go_nonempty. lia. }
    change ("-" +:+ pretty_N_go (N.pos p) "")
      with (String "-" (pretty_N_go (N.pos p) "")).
    rewrite H, pretty_N_go_parses. reflexivity.
Qed.

(** White space before the number is skipped, also U+00A0 and a byte order
    mark; a text without digits is [NaN]. *)
Example parseInt_leading_space :
  parseInt (String (Ascii.ascii_of_nat 194) (String (Ascii.ascii_of_nat 160)
              (String (Ascii.ascii_of_nat 239) (String (Ascii.ascii_of_nat 187)
                 (String (Ascii.ascii_of_nat 191) " 42px"))))) = Some 42%Z
  /\ parseInt " -7" = Some (-7)%Z
  /\ parseInt "soon" = None.
Proof. vm_compute. repeat split; reflexivity. Qed.

End ParseIntRoundTrip.

(** ** The VPN check across page loads *)

Section VpnCache.
Import VpnDetector.

Variable JSON_parse : string -> option vpn_result.
Variable JSON_stringify : vpn_result -> string.

Lemma checked_page_unfold (b : browser) (ss : gmap string string) :
  checked_page b = true ->
  initVPNCheck JSON_parse JSON_stringify b ss
  = match valid_cache b ss with
    | Some cachedResult =>
        match JSON_parse cachedResult with
        | None =>
            {| storage := ss; effects := [create_overlay]; ended := rejected |}
        | Some result =>
            if vpn_detected result then
              {| storage := ss;
                 effects := [create_overlay; redirectToBlockedPage b];
                 ended := returned |}
            else
              {| storage := ss;
                 effects := [create_overlay; hide_overlay];
                 ended := returned |}
        end
    | None =>
        let '(result, requests) :=
          retry_loop b (maxRetries VPN_CHECK_CONFIG) 0 None in
        let ss' :=
          match result with
          | Some r =>
              if negb (error r) then
                <["vpn_check_time" := Js.int_to_string (now_at_store b)]>
                  (<["vpn_check_result" := JSON_stringify r]> ss)
              else ss
          | None => ss
          end in
        let last :=
          match result with
          | Some r => if vpn_detected r then redirectToBlockedPage b
                      else hide_overlay
          | None => hide_overlay
          end in
        {| storage := ss';
           effects := create_overlay :: app requests [last];
           ended := returned |}
    end.
Proof.
  intros Hpage. unfold checked_page in Hpage.
  apply andb_true_iff in Hpage as [H1 H2].
  apply negb_true_iff in H1. apply negb_true_iff in H2.
  unfold initVPNCheck. cbn [enabled VPN_CHECK_CONFIG negb].
  rewrite H1, H2. reflexivity.
Qed.

(** X4: the check fails open. When both attempts end in a network error the
    page is shown (the overlay is hidden, no redirect) and nothing is
    written to sessionStorage; more generally a result that carries an error
    is never cached. *)
Theorem vpn_check_fails_open (b : browser) (ss : gmap string string) :
  checked_page b = true ->
  valid_cache b ss = None ->
  let run := initVPNCheck JSON_parse JSON_stringify b ss in
  (error (checkVPNStatus (responses b 0)) = true ->
   error (checkVPNStatus (responses b 1)) = true ->
   storage run = ss)
  /\ (responses b 0 = fetch_failed ->
      responses b 1 = fetch_failed ->
      effects run
      = [create_overlay;
         request "/api/vpn-check"; wait 500;
         request "/api/vpn-check"; wait 500;
         hide_overlay]).
Proof.
  intros Hpage Hcache. cbv zeta.
  rewrite (checked_page_unfold b ss Hpage), Hcache.
  split.
  - intros H1 H2. cbn. rewrite H1, H2. cbn. rewrite H2. reflexivity.
  - intros H1 H2. cbn. rewrite H1, H2. cbn. reflexivity.
Qed.

(** X5: a verdict obtained from the server is honoured by the next page
    loads. After an uncached check that ended with a result [r] without
    error, a load of a checked page less than 60 seconds after the result
    was stored sends no request, takes the same decision (redirect if
    [r.vpn_detected], else hide the overlay) and leaves the cache as it is. *)
Theorem vpn_verdict_reused (b1 b2 : browser) (ss : gmap string string)
    (r : vpn_result) :
  checked_page b1 = true ->
  valid_cache b1 ss = None ->
  fst (retry_loop b1 (maxRetries VPN_CHECK_CONFIG) 0 None) = Some r ->
  error r = false ->
  JSON_stringify r <> "" ->
  JSON_parse (JSON_stringify r) = Some r ->
  checked_page b2 = true ->
  (now b2 - now_at_store b1 < cacheTimeout VPN_CHECK_CONFIG)%Z ->
  let first := initVPNCheck JSON_parse JSON_stringify b1 ss in
  let second := initVPNCheck JSON_parse JSON_stringify b2 (storage first) in
  storage first !! "vpn_check_result" = Some (JSON_stringify r)
  /\ requests_in (effects second) = []
  /\ effects second
     = [create_overlay;
        if vpn_detected r then redirectToBlockedPage b2 else hide_overlay]
  /\ storage second = storage first.
Proof.
  intros Hp1 Hc1 Hloop Herr Htext Hround Hp2 Hfresh. cbv zeta.
  rewrite (checked_page_unfold b1 ss Hp1), Hc1.
  destruct (retry_loop b1 (maxRetries VPN_CHECK_CONFIG) 0 None)
    as [result reqs]. cbn [fst] in Hloop. subst result.
  rewrite Herr. cbn [negb storage].
  set (ss1 := <["vpn_check_time" := Js.int_to_string (now_at_store b1)]>
                (<["vpn_check_result" := JSON_stringify r]> ss)).
  assert (Hres : ss1 !! "vpn_check_result" = Some (JSON_stringify r)).
  { unfold ss1. rewrite lookup_insert_ne by discriminate.
    apply lookup_insert_eq. }
  assert (Htime : ss1 !! "vpn_check_time"
                  = Some (Js.int_to_string (now_at_store b1))).
  { unfold ss1. apply lookup_insert_eq. }
  assert (Hvalid : valid_cache b2 ss1 = Some (JSON_stringify r)).
  { unfold valid_cache. rewrite Hres, Htime.
    assert (Js.truthy_str (JSON_stringify r) = true) as ->.
    { unfold Js.truthy_str. destruct (String.eqb_spec (JSON_stringify r) "");
        [contradiction | reflexivity]. }
    pose proof (parseInt_int_to_string (now_at_store b1)) as Hparse.
    assert (Js.truthy_str (Js.int_to_string (now_at_store b1)) = true) as ->.
    { destruct (Js.int_to_string (now_at_store b1));
        [discriminate Hparse | reflexivity]. }
    cbn [andb]. rewrite Hparse.
    apply Z.ltb_lt in Hfresh. rewrite Hfresh. reflexivity. }
  split; [exact Hres|].
  rewrite (checked_page_unfold b2 ss1 Hp2), Hvalid, Hround.
  destruct (vpn_detected r); cbn; repeat split; reflexivity.
Qed.

Lemma valid_cache_cleared (b : browser) (ss : gmap string string) :
  valid_cache b (clearCache ss) = None.
Proof.
  unfold valid_cache, clearCache.
  rewrite lookup_delete_ne by discriminate.
  rewrite lookup_delete_eq. reflexivity.
Qed.

Lemma uncached_check_asks (b : browser) (ss : gmap string string) :
  checked_page b = true ->
  valid_cache b ss = None ->
  exists rest : list string,
    requests_in (effects (initVPNCheck JSON_parse JSON_stringify b ss))
    = "/api/vpn-check" :: rest.
Proof.
  intros Hpage Hcache.
  rewrite (checked_page_unfold b ss Hpage), Hcache.
  cbn [maxRetries VPN_CHECK_CONFIG retry_loop].
  destruct (error (checkVPNStatus (responses b 0))); cbn [negb].
  - destruct (error (checkVPNStatus (responses b 1))); cbn;
      eexists; reflexivity.
  - cbn. eexists. reflexivity.
Qed.

Lemma unchecked_page_unfold (b : browser) (ss : gmap string string) :
  checked_page b = false ->
  initVPNCheck JSON_parse JSON_stringify b ss
  = {| storage := ss; effects := []; ended := returned |}.
Proof.
  intros Hpage. unfold checked_page in Hpage.
  unfold initVPNCheck. cbn [enabled VPN_CHECK_CONFIG negb].
  apply andb_false_iff in Hpage as [H | H]; apply negb_false_iff in H.
  - rewrite H. reflexivity.
  - rewrite H. destruct (String.eqb (pathname b) "/vpn-blocked"); reflexivity.
Qed.

(** X6: a cache that cannot be used forces a visit to the server. On a
    checked page (neither [/vpn-blocked] nor under [/admin]), when the
    cached time is 60 seconds old or more, or is not a number,
    [initVPNCheck] sends a request to the endpoint, and so does [recheck],
    whatever the session holds. On the other pages [recheck] only clears the
    cache: it sends nothing and shows nothing. [clearCache] removes the two
    cache keys and nothing else. *)
Theorem vpn_stale_cache_refetched (b : browser) (ss : gmap string string) :
  (checked_page b = true ->
   forall cachedTime : string,
     ss !! "vpn_check_time" = Some cachedTime ->
     (parseInt cachedTime = None
      \/ exists t, parseInt cachedTime = Some t
           /\ (cacheTimeout VPN_CHECK_CONFIG <= now b - t)%Z) ->
     exists rest : list string,
       requests_in (effects (initVPNCheck JSON_parse JSON_stringify b ss))
       = "/api/vpn-check" :: rest)
  /\ (checked_page b = true ->
      exists rest : list string,
        requests_in (effects (recheck JSON_parse JSON_stringify b ss))
        = "/api/vpn-check" :: rest)
  /\ (checked_page b = false ->
      recheck JSON_parse JSON_stringify b ss
      = {| storage := clearCache ss; effects := []; ended := returned |})
  /\ clearCache ss !! "vpn_check_result" = None
  /\ clearCache ss !! "vpn_check_time" = None
  /\ (forall key : string,
        key <> "vpn_check_result" -> key <> "vpn_check_time" ->
        clearCache ss !! key = ss !! key).
Proof.
  split; [|split; [|split; [|split; [|split]]]].
  - intros Hpage cachedTime Htime Hstale.
    apply uncached_check_asks; [exact Hpage|].
    unfold valid_cache. rewrite Htime.
    destruct (ss !! "vpn_check_result") as [cachedResult|]; [|reflexivity].
    destruct (Js.truthy_str cachedResult && Js.truthy_str cachedTime);
      [|reflexivity].
    destruct Hstale as [-> | (t & -> & Hold)]; [reflexivity|].
    apply Z.ltb_ge in Hold. rewrite Hold. reflexivity.
  - intros Hpage. unfold recheck. apply uncached_check_asks; [exact Hpage|].
    apply valid_cache_cleared.
  - intros Hpage. unfold recheck. apply unchecked_page_unfold. exact Hpage.
  - unfold clearCache. rewrite lookup_delete_ne by discriminate.
    apply lookup_delete_eq.
  - unfold clearCache. apply lookup_delete_eq.
  - intros key H1 H2. unfold clearCache.
    rewrite !lookup_delete_ne by congruence. reflexivity.
Qed.

End VpnCache.

Lemma vpn_check_fails_open_witness :
  VpnDetector.storage
    (VpnDetector.initVPNCheck Scenario.vpn_parse Scenario.vpn_stringify
       (Scenario.page_load "/dashboard") ∅) = ∅.
Proof.
  refine (proj1 (vpn_check_fails_open Scenario.vpn_parse Scenario.vpn_stringify
                   (Scenario.page_load "/dashboard") ∅ _ _) _ _);
    vm_compute; reflexivity.
Defined.

Lemma vpn_verdict_reused_witness :
  VpnDetector.requests_in
    (VpnDetector.effects
       (VpnDetector.initVPNCheck Scenario.vpn_parse Scenario.vpn_stringify
          (Scenario.reload "/wallet")
          (VpnDetector.storage
             (VpnDetector.initVPNCheck Scenario.vpn_parse Scenario.vpn_stringify
                (Scenario.detected_load "/dashboard") ∅)))) = [].
Proof.
  refine (proj1 (proj2 (vpn_verdict_reused
                   Scenario.vpn_parse Scenario.vpn_stringify
                   (Scenario.detected_load "/dashboard")
                   (Scenario.reload "/wallet") ∅
                   {| VpnDetector.vpn_detected := true;
                      VpnDetector.error := false |}
                   _ _ _ _ _ _ _ _)));
    first [ vm_compute; reflexivity | vm_compute; discriminate ].
Defined.

Lemma vpn_stale_cache_refetched_witness :
  exists rest : list string,
    VpnDetector.requests_in
      (VpnDetector.effects
         (VpnDetector.initVPNCheck Scenario.vpn_parse Scenario.vpn_stringify
            (Scenario.page_load "/dashboard") Scenario.stale_session))
    = "/api/vpn-check" :: rest.
Proof.
  apply (proj1 (vpn_stale_cache_refetched
                  Scenario.vpn_parse Scenario.vpn_stringify
                  (Scenario.page_load "/dashboard") Scenario.stale_session)
           eq_refl "1600000000000").
  - reflexivity.
  - right. exists 1600000000000%Z. split; [reflexivity|]. vm_compute. discriminate.
Defined.

(** ** The loader across calls *)

Section LoaderInvariants.
Import DbLoader.

Lemma run_app (es1 es2 : list event) (s : loader) :
  run (app es1 es2) s = run es2 (run es1 s).
Proof. unfold run. apply fold_left_app. Qed.

Lemma run_counter (es : list event) (s : loader) (pending : nat) :
  matched es pending = true ->
  (Z.of_nat pending <= activeRequests s)%Z ->
  activeRequests (run es s)
  = (activeRequests s - Z.of_nat pending + Z.of_nat (outstanding es pending))%Z.
Proof.
  revert s pending. induction es as [|e es IH]; intros s pending Hm Hs.
  - cbn. lia.
  - destruct e as [m | status | | timed_out status_message];
      cbn [run fold_left step matched outstanding] in *;
      change (fold_left step es ?x) with (run es x).
    + rewrite (IH _ (S pending)); rewrite ?activeRequests_show; try assumption; lia.
    + destruct pending as [|n]; [discriminate Hm|].
      rewrite (IH _ n); rewrite ?activeRequests_hide; try assumption; cbn; lia.
    + rewrite (IH _ pending); rewrite ?activeRequests_fade_out; try assumption; lia.
    + rewrite (IH _ pending); rewrite ?activeRequests_poll; try assumption; lia.
Qed.

(** X7: as long as no [hide] comes without an earlier [show] to answer,
    [activeRequests] is exactly the number of shows not yet answered by a
    hide, whatever timers and polling rounds run in between. *)
Theorem loader_counter_is_outstanding (es : list event) :
  matched es 0 = true ->
  activeRequests (run es state) = Z.of_nat (outstanding es 0).
Proof.
  intros Hm. rewrite (run_counter es state 0 Hm); cbn; lia.
Qed.

Lemma loader_counter_is_outstanding_witness :
  activeRequests
    (run [call_show "a"; call_show "b"; timer_fade_out; call_hide "success"] state)
  = 1%Z.
Proof.
  apply (loader_counter_is_outstanding
           [call_show "a"; call_show "b"; timer_fade_out; call_hide "success"]).
  reflexivity.
Defined.

(** X8: [wrap] gives back the counter as it found it, whether the promise
    is fulfilled or rejected, and whatever other wrapped calls start and end
    while it waits. *)
Theorem wrap_restores_counter (m : string) (between : list event)
    (fulfilled : bool) (s : loader) :
  (0 <= activeRequests s)%Z ->
  matched between 0 = true ->
  outstanding between 0 = 0 ->
  activeRequests (wrap m between fulfilled s) = activeRequests s.
Proof.
  intros Hs Hm Hout. unfold wrap.
  rewrite activeRequests_hide.
  rewrite (run_counter between (show m s) 0 Hm);
    rewrite activeRequests_show; [|cbn; lia].
  rewrite Hout. cbn. lia.
Qed.

Lemma wrap_restores_counter_witness :
  activeRequests
    (wrap "a" [call_show "b"; poll_round false None; call_hide "error"] true state)
  = 0%Z.
Proof.
  apply (wrap_restores_counter "a"
           [call_show "b"; poll_round false None; call_hide "error"] true state);
    [cbn; lia | reflexivity | reflexivity].
Defined.

Lemma consistent_state : consistent state.
Proof. split; cbn; intros; congruence. Qed.

Ltac loader_fields :=
  split; cbn; intros;
  repeat match goal with
         | H : ?a = ?a -> _ |- _ => specialize (H eq_refl)
         end;
  first [ congruence | assumption | reflexivity | lia | contradiction
        | solve [auto] ].

Lemma consistent_step (s : loader) (e : event) :
  consistent s -> consistent (step s e).
Proof.
  intros [H1 H2 H3 H4].
  destruct s as [ip pt le ar oe ft]. cbn in H1, H2, H3, H4.
  destruct e as [m | status | | timed_out status_message]; cbn [step].
  - unfold show, startPolling, updateMessage, with_overlay, createLoaderElement.
    cbn. destruct le, ip, oe; cbn; loader_fields.
  - unfold hide. cbn.
    destruct (0 <? Z.max 0 (ar - 1))%Z eqn:Hpos; cbn.
    + destruct le; [loader_fields|].
      rewrite H2 in Hpos by reflexivity. discriminate Hpos.
    + destruct le; cbn.
      * destruct (String.eqb status "success");
          [|destruct (String.eqb status "error")];
          destruct oe; cbn; loader_fields.
      * rewrite H2 by reflexivity. loader_fields.
  - unfold fade_out. cbn. destruct ft as [|n]; cbn.
    + loader_fields.
    + destruct le, oe; cbn; loader_fields.
  - unfold poll. destruct timed_out; cbn.
    + loader_fields.
    + destruct status_message as [m|]; [destruct (Js.truthy_str m)|];
        cbn; destruct ip, oe; cbn; loader_fields.
Qed.

Lemma consistent_run (es : list event) (s : loader) :
  consistent s -> consistent (run es s).
Proof.
  revert s. induction es as [|e es IH]; intros s Hs; [exact Hs|].
  cbn. apply IH. apply consistent_step. exact Hs.
Qed.

(** X9: in every state the loader can reach, [show] puts the overlay on
    screen with the message it was given, creating the element when the
    page has none, and leaves polling switched on. *)
Theorem show_makes_overlay_visible (es : list event) (m : string) :
  let s := show m (run es state) in
  visible s = true
  /\ message <$> overlay_element s = Some m
  /\ isPolling s = true.
Proof.
  cbv zeta.
  pose proof (consistent_run es state consistent_state) as [H1 _ _ _].
  set (s := run es state) in *. clearbody s.
  unfold show, startPolling, updateMessage, with_overlay, createLoaderElement,
    visible.
  cbn. destruct (loaderElement s) eqn:Hl; cbn;
    destruct (isPolling s); cbn;
    destruct (overlay_element s); cbn; try (repeat split; reflexivity);
    exfalso; apply H1; reflexivity.
Qed.



End LoaderInvariants.

(** ** Every way through the consent flow *)

Section ConsentFlowTrace.
Import Ui AdsgramBoost.

Lemma await_initAdsgram_frame (r : ad_run) (p : page) :
  win (snd (await_initAdsgram r p)) = win p
  /\ modal (snd (await_initAdsgram r p)) = modal p
  /\ log (snd (await_initAdsgram r p)) = log p.
Proof.
  unfold await_initAdsgram, initAdsgram.
  destruct (Adsgram (sdk p)), (isAdsgramReady (sdk p)); cbn;
    destruct (script_loads r), (init_error r); repeat split; reflexivity.
Qed.

(** The whole of what one run of [acceptAndShowAd] adds to the log, how it
    ends and the state it leaves the modal in. *)
Lemma acceptAndShowAd_trace (r : ad_run) (p : page) :
  let failure e :=
    match cancelled_by_user e with
    | Some cancelled =>
        app [toast (if cancelled then "Anuncio cancelado"
                    else "Error al cargar anuncio. Intenta de nuevo.")
                   (if cancelled then info else error)]
            (haptic_log p (haptic_notification "error"))
    | None => []
    end in
  let reported :=
    match activation r with
    | throw _ => toast (BOOST_ACTIVATED ++ " +15 PTS") success
    | ok d =>
        if resp_success d then
          toast (BOOST_ACTIVATED ++
                 match pts_earned d with
                 | Some n => if Js.truthy_num n
                             then " +" ++ Js.int_to_string n ++ " PTS"
                             else " +15 PTS"
                 | None => " +15 PTS"
                 end) success
        else if already_active d then
          toast (BOOST_ACTIVATED ++ " +15 PTS") success
        else
          toast (if Js.truthy_ostr (activate_error d)
                 then default "" (activate_error d) else "Boost activado") info
    end in
  fst (acceptAndShowAd r p)
  = match caught r p with
    | Some e =>
        match cancelled_by_user e with
        | Some _ => ok tt
        | None => throw TypeError
        end
    | None => ok tt
    end
  /\ log (snd (acceptAndShowAd r p))
     = app (log p)
         (app match fst (await_initAdsgram r p) with
              | throw e => failure e
              | ok _ =>
                  ad_shown ::
                  match shown r with
                  | throw e => failure e
                  | ok sr =>
                      if done sr then
                        post_activate (uid_to_string (getUserId (win p))) ::
                        app (haptic_log p (haptic_impact "light"))
                            (reported :: update_ui_later ::
                             haptic_log p (haptic_notification "success"))
                      else []
                  end
              end
              (haptic_log p (haptic_impact "light")))
  /\ modal_display (modal (snd (acceptAndShowAd r p)))
     = (fun _ => "none") <$> modal_display (modal p)
  /\ loading_display (modal (snd (acceptAndShowAd r p)))
     = (fun _ => "none") <$> loading_display (modal p).
Proof.
  cbv zeta.
  destruct (await_initAdsgram_frame r p) as (Hwin & Hmodal & Hlog).
  unfold caught, acceptAndShowAd, bind, try_finally, try_catch, exec, ret, raise.
  rewrite await_initAdsgram_with_modal.
  destruct (await_initAdsgram r p) as [res p1]. cbn [fst snd] in *.
  destruct p1 as [w1 s1 m1 pc1 l1], p as [[url tg hf] s0 [ms md ld ad cd] pc l].
  cbn [win modal log] in Hwin, Hmodal, Hlog. subst w1 m1 l1.
  destruct r as [sl ie sh act].
  unfold await_show, await_activate, closeBoostModal, showBoostToast, haptic,
    haptic_log.
  cbn [win sdk modal log haptic_feedback with_modal emit fst snd shown
       activation modal_display loading_display].
  destruct res as [[]|e0]; [destruct sh as [[[]]|e1]; [destruct act as [d|e2]| |]|];
    try destruct (cancelled_by_user e0) as [[]|];
    try destruct (cancelled_by_user e1) as [[]|];
    try destruct (resp_success d);
    try destruct (already_active d);
    destruct hf;
    cbn [fst snd with_modal emit win sdk modal log haptic_feedback
         modal_display loading_display done];
    rewrite <- ?app_assoc; cbn [app]; rewrite ?app_nil_r;
    (split; [reflexivity|]); (split; [reflexivity|]);
    destruct md, ld; split; reflexivity.
Qed.

Lemma activations_app (l1 l2 : list effect) :
  activations (app l1 l2) = app (activations l1) (activations l2).
Proof. apply omap_app. Qed.

Lemma haptic_log_silent (p : page) (e : effect) :
  match e with
  | toast _ _ | post_activate _ => False
  | _ => True
  end ->
  toasts (haptic_log p e) = [] /\ activations (haptic_log p e) = [].
Proof.
  intros He. unfold haptic_log. destruct (haptic_feedback (win p));
    [|split; reflexivity].
  destruct e; try contradiction; split; reflexivity.
Qed.

Lemma toasts_cons (e : effect) (l : list effect) :
  toasts (e :: l) = app (toasts [e]) (toasts l).
Proof. apply (toasts_app [e] l). Qed.

Lemma activations_cons (e : effect) (l : list effect) :
  activations (e :: l) = app (activations [e]) (activations l).
Proof. apply (activations_app [e] l). Qed.

Ltac project_trace :=
  repeat first
    [ rewrite toasts_app
    | rewrite activations_app
    | match goal with
      | |- context [toasts (?e :: ?l)] =>
          lazymatch l with
          | [] => fail
          | _ => rewrite (toasts_cons e l)
          end
      | |- context [activations (?e :: ?l)] =>
          lazymatch l with
          | [] => fail
          | _ => rewrite (activations_cons e l)
          end
      | |- context [toasts (haptic_log ?p ?e)] =>
          rewrite (proj1 (haptic_log_silent p e I))
      | |- context [activations (haptic_log ?p ?e)] =>
          rewrite (proj2 (haptic_log_silent p e I))
      end ];
  change (toasts []) with (@nil (string * toast_type));
  change (activations []) with (@nil string);
  repeat match goal with
         | |- context [toasts [?e]] =>
             let v := eval cbn [toasts omap] in (toasts [e]) in
             change (toasts [e]) with v
         | |- context [activations [?e]] =>
             let v := eval cbn [activations omap] in (activations [e]) in
             change (activations [e]) with v
         end;
  rewrite ?app_nil_r; cbn [app]; rewrite ?app_nil_r.

(** X11: [acceptAndShowAd] catches every exception of the SDK load, of the
    ad and of the activation request, and rejects only out of its own
    [catch] block: when the value it caught is [undefined] or [null], or
    holds a [message] or [description] on which [includes] cannot be called,
    the test of the block throws a [TypeError], no toast is shown and the
    promise rejects; with every other value, and when nothing was thrown,
    it resolves. On every path, rejected or not, the consent modal and its
    loading layer end hidden when they exist. *)
Theorem acceptAndShowAd_always_settles (r : ad_run) (p : page) :
  (fst (acceptAndShowAd r p) = ok tt
   <-> forall e : thrown, caught r p = Some e -> cancelled_by_user e <> None)
  /\ (fst (acceptAndShowAd r p) = ok tt
      \/ (exists e : thrown, fst (acceptAndShowAd r p) = throw e)
         /\ toasts (log (snd (acceptAndShowAd r p))) = toasts (log p)
         /\ activations (log (snd (acceptAndShowAd r p)))
            = activations (log p))
  /\ modal_display (modal (snd (acceptAndShowAd r p)))
     = (fun _ => "none") <$> modal_display (modal p)
  /\ loading_display (modal (snd (acceptAndShowAd r p)))
     = (fun _ => "none") <$> loading_display (modal p).
Proof.
  destruct (acceptAndShowAd_trace r p) as (H1 & Hlog & H3 & H4).
  cbv zeta in Hlog.
  split; [|split; [|split; assumption]].
  - rewrite H1. destruct (caught r p) as [e|].
    + destruct (cancelled_by_user e) as [c|] eqn:Hc; split.
      * intros _ e' He'. injection He' as <-. congruence.
      * reflexivity.
      * intros H. discriminate H.
      * intros H. exfalso. apply (H e eq_refl). exact Hc.
    + split; [intros _ e He; discriminate He | reflexivity].
  - rewrite H1. unfold caught in *.
    destruct (fst (await_initAdsgram r p)) as [[]|e0].
    + destruct (shown r) as [sr|e1]; [left; reflexivity|].
      destruct (cancelled_by_user e1) as [c|] eqn:Hc; [left; reflexivity|].
      right. split; [eexists; reflexivity|]. rewrite Hlog, ?Hc.
      split; project_trace; reflexivity.
    + destruct (cancelled_by_user e0) as [c|] eqn:Hc; [left; reflexivity|].
      right. split; [eexists; reflexivity|]. rewrite Hlog, ?Hc.
      split; project_trace; reflexivity.
Qed.

Lemma acceptAndShowAd_always_settles_witness :
  fst (acceptAndShowAd Scenario.cancelled_run Scenario.fresh_page) = ok tt.
Proof.
  apply (proj2 (proj1 (acceptAndShowAd_always_settles
                         Scenario.cancelled_run Scenario.fresh_page))).
  intros e He. injection He as <-. discriminate.
Defined.

(** A rejection with [undefined] makes the [catch] block throw: the promise
    rejects and nothing is shown. *)
Example nullish_rejection_rejects :
  fst (acceptAndShowAd Scenario.undefined_run Scenario.fresh_page) <> ok tt
  /\ toasts (log (snd (acceptAndShowAd Scenario.undefined_run
                         Scenario.fresh_page))) = [].
Proof. split; [discriminate | reflexivity]. Qed.

(** X12: a run of [acceptAndShowAd] asks the backend to activate the boost
    at most once, and exactly when the SDK was initialised and the ad
    resolved with [done]; an ad that resolves without [done] is passed over
    in silence: no request and no toast. *)
Theorem activation_only_after_completed_ad (r : ad_run) (p : page) :
  activations (log (snd (acceptAndShowAd r p)))
  = app (activations (log p))
        match fst (await_initAdsgram r p), shown r with
        | ok _, ok sr =>
            if done sr then [uid_to_string (getUserId (win p))] else []
        | _, _ => []
        end
  /\ (forall sr : show_result,
        fst (await_initAdsgram r p) = ok tt ->
        shown r = ok sr ->
        done sr = false ->
        toasts (log (snd (acceptAndShowAd r p))) = toasts (log p)).
Proof.
  destruct (acceptAndShowAd_trace r p) as (_ & Hlog & _). cbv zeta in Hlog.
  split.
  - rewrite Hlog.
    destruct (fst (await_initAdsgram r p)) as [[]|e0];
      [destruct (shown r) as [[[]]|e1];
       [destruct (activation r) as [d|e2];
        [destruct (resp_success d); [|destruct (already_active d)]|]| |]|];
      cbn [done];
      try match goal with
          | |- context [cancelled_by_user ?e] =>
              destruct (cancelled_by_user e) as [[]|]
          end;
      project_trace; reflexivity.
  - intros sr Hinit Hshown Hdone. rewrite Hlog, Hinit, Hshown, Hdone.
    project_trace. reflexivity.
Qed.

Lemma activation_only_after_completed_ad_witness :
  toasts (log (snd (acceptAndShowAd Scenario.unfinished_run Scenario.fresh_page)))
  = toasts (log Scenario.fresh_page).
Proof.
  apply (proj2 (activation_only_after_completed_ad
                  Scenario.unfinished_run Scenario.fresh_page)
           {| done := false |}); reflexivity.
Defined.

(** X13: when the SDK cannot be initialised or the ad is rejected with a
    value [e], the run sends no activation request and shows at most one
    toast: [Anuncio cancelado], of type info, when the message or the
    description of [e] contains [user]; the load error, of type error, when
    both can be inspected and neither does; and no toast at all when [e]
    cannot be inspected, because the [catch] block throws before it shows
    one. A script that fails to load falls in the second case. *)
Theorem ad_failure_is_classified (r : ad_run) (p : page) (e : thrown) :
  (fst (await_initAdsgram r p) = throw e
   \/ (fst (await_initAdsgram r p) = ok tt /\ shown r = throw e)) ->
  toasts (log (snd (acceptAndShowAd r p)))
  = app (toasts (log p))
        match cancelled_by_user e with
        | Some true => [("Anuncio cancelado", info)]
        | Some false => [("Error al cargar anuncio. Intenta de nuevo.", error)]
        | None => []
        end
  /\ activations (log (snd (acceptAndShowAd r p))) = activations (log p)
  /\ (Adsgram (sdk p) = false -> script_loads r = false ->
      fst (await_initAdsgram r p) = throw e ->
      cancelled_by_user e = Some false).
Proof.
  intros Hfail.
  destruct (acceptAndShowAd_trace r p) as (_ & Hlog & _). cbv zeta in Hlog.
  split; [|split].
  - rewrite Hlog.
    destruct Hfail as [-> | [-> ->]];
      destruct (cancelled_by_user e) as [[]|]; project_trace; reflexivity.
  - rewrite Hlog.
    destruct Hfail as [-> | [-> ->]];
      destruct (cancelled_by_user e) as [[]|]; project_trace; reflexivity.
  - intros Hglobal Hscript Hinit.
    unfold await_initAdsgram, initAdsgram in Hinit.
    rewrite Hglobal, Hscript in Hinit. cbn in Hinit.
    injection Hinit as <-. vm_compute. reflexivity.
Qed.

Lemma ad_failure_is_classified_witness :
  toasts (log (snd (acceptAndShowAd Scenario.cancelled_run Scenario.fresh_page)))
  = [("Anuncio cancelado", info)].
Proof.
  apply (proj1 (ad_failure_is_classified
                  Scenario.cancelled_run Scenario.fresh_page
                  {| message := None; description := Some "Closed by user" |}
                  (or_intror (conj eq_refl eq_refl)))).
Defined.

(** X14: once the ad was watched to its end the run shows exactly one
    toast, and never one of type error or warning, whatever the activation
    request does: when the request itself fails (network error, unreadable
    answer) the toast is the one of a success. *)
Theorem completed_ad_never_reports_error (r : ad_run) (p : page)
    (sr : show_result) :
  fst (await_initAdsgram r p) = ok tt ->
  shown r = ok sr ->
  done sr = true ->
  (exists (text : string) (type : toast_type),
     toasts (log (snd (acceptAndShowAd r p)))
     = app (toasts (log p)) [(text, type)]
     /\ (type = success \/ type = info))
  /\ (forall e : thrown,
        activation r = throw e ->
        toasts (log (snd (acceptAndShowAd r p)))
        = app (toasts (log p)) [(BOOST_ACTIVATED ++ " +15 PTS", success)]).
Proof.
  intros Hinit Hshown Hdone.
  destruct (acceptAndShowAd_trace r p) as (_ & Hlog & _). cbv zeta in Hlog.
  rewrite Hinit, Hshown, Hdone in Hlog.
  split.
  - rewrite Hlog.
    destruct (activation r) as [d|e2];
      [destruct (resp_success d); [|destruct (already_active d)]|];
      project_trace;
      eexists; eexists; (split; [reflexivity|]); auto.
  - intros e He. rewrite Hlog, He. project_trace. reflexivity.
Qed.

Lemma completed_ad_never_reports_error_witness :
  toasts (log (snd (acceptAndShowAd Scenario.offline_run Scenario.fresh_page)))
  = [(BOOST_ACTIVATED ++ " +15 PTS", success)].
Proof.
  apply (proj2 (completed_ad_never_reports_error
                  Scenario.offline_run Scenario.fresh_page {| done := true |}
                  eq_refl eq_refl eq_refl)
           {| message := Some "Failed to fetch"; description := None |}).
  reflexivity.
Defined.

End ConsentFlowTrace.

(** ** The SDK controller and the boost trigger *)

Section BoostTrigger.
Import Ui AdsgramBoost.






Lemma trigger_step_frame (p : page) (e : trigger_event) :
  win (trigger_step p e) = win p.
Proof.
  destruct e as [|o]; cbn [trigger_step].
  - unfold openBoostModal, createBoostConsentModal, createBoostModalStyles,
      showBoostToast.
    cbn. destruct (modal_display (modal p)); cbn;
      destruct (uid_truthy (getUserId (win p))); reflexivity.
  - unfold openBoostModal_resume, showBoostToast, haptic.
    destruct (pending_checks p); [reflexivity|].
    destruct o as [[] reason|]; cbn; try reflexivity.
    destruct (modal_display (modal p)); cbn; [|reflexivity].
    destruct (haptic_feedback (win p)); reflexivity.
Qed.

Lemma eligibility_requests_app (l1 l2 : list effect) :
  eligibility_requests (app l1 l2)
  = app (eligibility_requests l1) (eligibility_requests l2).
Proof. apply omap_app. Qed.

Lemma trigger_step_shown (p : page) (e : trigger_event) :
  grants e = false ->
  modal_display (modal p) <> Some "flex" ->
  modal_display (modal (trigger_step p e)) <> Some "flex".
Proof.
  intros He Hp. destruct e as [|o]; cbn [trigger_step].
  - unfold openBoostModal, createBoostConsentModal, createBoostModalStyles,
      showBoostToast.
    cbn. destruct (modal_display (modal p)) eqn:Hd; cbn;
      destruct (uid_truthy (getUserId (win p))); cbn; rewrite ?Hd;
      first [exact Hp | discriminate].
  - unfold openBoostModal_resume, showBoostToast.
    destruct (pending_checks p); [exact Hp|].
    destruct o as [[] reason|]; cbn in *; [discriminate He|exact Hp|exact Hp].
Qed.

Lemma trigger_step_requests (p : page) (e : trigger_event) :
  eligibility_requests (log (trigger_step p e))
  = app (eligibility_requests (log p))
        (if is_click e && uid_truthy (getUserId (win p))
         then [uid_to_string (getUserId (win p))] else []).
Proof.
  destruct e as [|o]; cbn [trigger_step is_click andb].
  - unfold openBoostModal, createBoostConsentModal, createBoostModalStyles,
      showBoostToast.
    cbn. destruct (modal_display (modal p)); cbn;
      destruct (uid_truthy (getUserId (win p))); cbn;
      rewrite eligibility_requests_app; reflexivity.
  - rewrite app_nil_r.
    unfold openBoostModal_resume, showBoostToast, haptic.
    destruct (pending_checks p); [reflexivity|].
    destruct o as [[] reason|]; cbn;
      rewrite ?eligibility_requests_app, ?app_nil_r; try reflexivity.
    destruct (modal_display (modal p)); cbn;
      rewrite ?eligibility_requests_app, ?app_nil_r; try reflexivity.
    destruct (haptic_feedback (win p)); cbn;
      rewrite ?eligibility_requests_app, ?app_nil_r; reflexivity.
Qed.

(** X16: over any sequence of clicks on the boost trigger and of answers to
    the eligibility requests, the consent modal gets on screen only through
    an answer with [can_activate] true; every click of an identified user
    sends one eligibility request with the user's id, and the clicks of an
    unidentified user send none. *)
Theorem consent_modal_needs_eligibility (es : list trigger_event) (p : page) :
  (modal_display (modal p) <> Some "flex" ->
   existsb grants es = false ->
   modal_display (modal (trigger_run es p)) <> Some "flex")
  /\ eligibility_requests (log (trigger_run es p))
     = app (eligibility_requests (log p))
           (if uid_truthy (getUserId (win p))
            then replicate (length (filter (fun e => is_click e = true) es))
                           (uid_to_string (getUserId (win p)))
            else []).
Proof.
  split.
  - revert p. induction es as [|e es IH]; intros p Hp Hes; [exact Hp|].
    cbn in Hes. apply orb_false_iff in Hes as [He Hes].
    cbn. apply IH; [|exact Hes]. apply trigger_step_shown; assumption.
  - revert p. induction es as [|e es IH]; intros p.
    + cbn. destruct (uid_truthy _); rewrite app_nil_r; reflexivity.
    + cbn [trigger_run fold_left].
      change (fold_left trigger_step es ?x) with (trigger_run es x).
      rewrite IH, trigger_step_requests, trigger_step_frame.
      rewrite <- app_assoc. f_equal.
      destruct e as [|o]; cbn [is_click andb];
        destruct (uid_truthy (getUserId (win p))); cbn; reflexivity.
Qed.

Lemma consent_modal_needs_eligibility_witness :
  modal_display
    (modal (trigger_run
              [trigger_click;
               eligibility_answer (can_activate_response false (Some "Cooldown"));
               trigger_click; eligibility_answer check_failed]
              Scenario.fresh_page))
  <> Some "flex".
Proof.
  apply (proj1 (consent_modal_needs_eligibility
                  [trigger_click;
                   eligibility_answer (can_activate_response false (Some "Cooldown"));
                   trigger_click; eligibility_answer check_failed]
                  Scenario.fresh_page)).
  - discriminate.
  - reflexivity.
Defined.

(** X17: [updateBoostUI] leaves the trigger button as it is when the status
    request failed or says [success: false]; otherwise the button ends
    enabled exactly when no boost is active and the backend says
    [can_activate]; and the label is the daily limit, [used/limit], exactly
    when no boost is active, no cooldown is left and the daily boosts are
    used up. *)
Theorem boost_button_follows_status (status : boost_status)
    (button : button_view) :
  updateBoostUI None (Some button) = Some button
  /\ (status_success status = false ->
      updateBoostUI (Some status) (Some button) = Some button)
  /\ updateBoostUI (Some status) None = None
  /\ (status_success status = true ->
      exists view : button_view,
        updateBoostUI (Some status) (Some button) = Some view
        /\ (btn_disabled view = false <->
            has_active_boost status = false /\ can_activate status = true)
        /\ (has_active_boost status = false ->
            cooldown_remaining_seconds status = 0%N ->
            (daily_boosts_limit status <= daily_boosts_used status)%N ->
            btn_text view
            = "Límite diario (" ++ Js.num_to_string (daily_boosts_used status)
              ++ "/" ++ Js.num_to_string (daily_boosts_limit status) ++ ")")).
Proof.
  split; [reflexivity|]. split; [|split].
  - intros Hs. unfold updateBoostUI. rewrite Hs. reflexivity.
  - unfold updateBoostUI. destruct (status_success status); reflexivity.
  - intros Hs. unfold updateBoostUI. rewrite Hs. cbn [negb].
    destruct (has_active_boost status) eqn:Hb.
    + eexists. split; [reflexivity|]. cbn. split.
      * split; [discriminate | intros [H _]; discriminate H].
      * intros H. discriminate H.
    + destruct (0 <? cooldown_remaining_seconds status)%N eqn:Hc; cbv zeta.
      * eexists. split; [reflexivity|]. cbn. split.
        -- destruct (can_activate status); cbn; split; auto; try discriminate.
           intros [_ H]. discriminate H.
        -- intros _ H0 _. rewrite H0 in Hc. discriminate Hc.
      * destruct (daily_boosts_limit status <=? daily_boosts_used status)%N eqn:Hl.
        -- eexists. split; [reflexivity|]. cbn. split.
           ++ destruct (can_activate status); cbn; split; auto; try discriminate.
              intros [_ H]. discriminate H.
           ++ reflexivity.
        -- eexists. split; [reflexivity|]. cbn. split.
           ++ destruct (can_activate status); cbn; split; auto; try discriminate.
              intros [_ H]. discriminate H.
           ++ intros _ _ H. apply N.leb_le in H. congruence.
Qed.

Lemma boost_button_follows_status_witness :
  updateBoostUI
    (Some {| status_success := false; has_active_boost := true;
             can_activate := false; cooldown_remaining_seconds := 0;
             daily_boosts_used := 3; daily_boosts_limit := 3 |})
    (Some Scenario.blank_button)
  = Some Scenario.blank_button.
Proof.
  apply (proj1 (proj2 (boost_button_follows_status
           {| status_success := false; has_active_boost := true;
              can_activate := false; cooldown_remaining_seconds := 0;
              daily_boosts_used := 3; daily_boosts_limit := 3 |}
           Scenario.blank_button))).
  reflexivity.
Defined.

End BoostTrigger.

(** ** Mission requests and cooldown timers *)

Section MissionAccounting.
Import Ui ShrinkEarn.

Lemma posts_app (l1 l2 : list effect) :
  posts (app l1 l2) = app (posts l1) (posts l2).
Proof. apply omap_app. Qed.

Lemma count_app (f : effect -> bool) (l1 l2 : list effect) :
  count f (app l1 l2) = (count f l1 + count f l2)%nat.
Proof. unfold count. rewrite List.filter_app, length_app. reflexivity. Qed.

Lemma settle_effects_quiet (o : fetch_outcome) :
  posts (settle_effects o) = []
  /\ count is_refresh (settle_effects o) = 0%nat.
Proof.
  destruct o as [data|]; cbn; [|auto].
  destruct (resp_success data); cbn.
  - destruct (has_mission data); cbn; auto.
  - destruct (cooldown_remaining data =? 0)%N; cbn; auto.
Qed.

Lemma balanced_step (valid_selector : string -> bool) (p : page)
    (e : event) :
  balanced p -> balanced (step valid_selector p e).
Proof.
  unfold balanced. intros Hposts. destruct e as [missionId | i o]; cbn [step].
  - unfold startShrinkEarnMission.
    destruct (Js.truthy_ostr (userId (st p))); cbn [negb].
    + destruct (Js.truthy_ostr (activeMission (st p))); [assumption|].
      destruct (valid_selector (mission_selector missionId)); cbn [negb];
        [|exact Hposts].
      cbn [log in_flight st emit set_activeMission].
      rewrite posts_app, count_app, !length_app. cbn. lia.
    + cbn [log in_flight st emit set_activeMission].
      rewrite posts_app, count_app, length_app. cbn. lia.
  - unfold settle. destruct (in_flight p !! i) as [m|] eqn:Hi; [|assumption].
    pose proof (lookup_lt_Some _ _ _ Hi) as Hlt.
    destruct (settle_effects_quiet o) as (Hq1 & Hq2).
    cbn [log in_flight st emit set_activeMission].
    rewrite !posts_app, !count_app, !length_app, Hq1, Hq2.
    rewrite length_delete by eauto. cbn. lia.
Qed.

(** X18: from a page on which every [POST /shrinkearn/start] sent so far is
    either still awaited or was followed by one delayed refresh of the
    mission list, any sequence of clicks and answers keeps it so, whatever
    the answers are: the requests sent are the refreshes scheduled plus the
    flows still suspended. *)
Theorem mission_requests_accounted (valid_selector : string -> bool)
    (es : list event) (p : page) :
  balanced p -> balanced (run valid_selector es p).
Proof.
  revert p. induction es as [|e es IH]; intros p Hp; [exact Hp|].
  cbn. apply IH. apply balanced_step. exact Hp.
Qed.

Lemma mission_requests_accounted_witness :
  balanced (run Scenario.plain_selector
              [trigger "daily"; trigger "bonus"; settled 0 fetch_failed;
               trigger "bonus"]
              Scenario.idle_missions).
Proof.
  apply (mission_requests_accounted Scenario.plain_selector
           [trigger "daily"; trigger "bonus"; settled 0 fetch_failed;
            trigger "bonus"]
           Scenario.idle_missions).
  reflexivity.
Defined.

Lemma userId_step (valid_selector : string -> bool) (p : page) (e : event) :
  userId (st (step valid_selector p e)) = userId (st p).
Proof.
  destruct e as [missionId | i o]; cbn [step].
  - unfold startShrinkEarnMission.
    destruct (Js.truthy_ostr (userId (st p))); cbn [negb]; [|reflexivity].
    destruct (Js.truthy_ostr (activeMission (st p))); [reflexivity|].
    destruct (valid_selector (mission_selector missionId)); reflexivity.
  - unfold settle. destruct (in_flight p !! i); reflexivity.
Qed.

Lemma posts_step (valid_selector : string -> bool) (p : page) (e : event) :
  exists new : list string,
    posts (log (step valid_selector p e))
    = app (posts (log p)) (map (pair (default "" (userId (st p)))) new)
    /\ (Js.truthy_ostr (userId (st p)) = false -> new = []).
Proof.
  destruct e as [missionId | i o]; cbn [step].
  - unfold startShrinkEarnMission.
    destruct (Js.truthy_ostr (userId (st p))) eqn:Hu; cbn [negb].
    + destruct (Js.truthy_ostr (activeMission (st p))).
      * exists []. rewrite app_nil_r. split; [reflexivity|discriminate].
      * destruct (valid_selector (mission_selector missionId)); cbn [negb].
        -- exists [missionId]. cbn. rewrite posts_app. split;
             [reflexivity|discriminate].
        -- exists []. cbn. rewrite app_nil_r. split;
             [reflexivity|discriminate].
    + exists []. cbn. rewrite posts_app, app_nil_r. cbn. rewrite app_nil_r.
      split; reflexivity.
  - exists []. cbn. rewrite app_nil_r. split; [|reflexivity].
    unfold settle. destruct (in_flight p !! i); [|reflexivity].
    destruct (settle_effects_quiet o) as (Hq & _).
    cbn. rewrite !posts_app, Hq. cbn. rewrite !app_nil_r. reflexivity.
Qed.

(** X19: over any sequence of clicks and answers, every request that is
    added carries the user id stored in [ShrinkEarnState], which no step
    changes; and when that id is missing or empty no request is sent at
    all. *)
Theorem mission_requests_carry_user (valid_selector : string -> bool)
    (es : list event) (p : page) :
  userId (st (run valid_selector es p)) = userId (st p)
  /\ exists new : list string,
       posts (log (run valid_selector es p))
       = app (posts (log p)) (map (pair (default "" (userId (st p)))) new)
       /\ (Js.truthy_ostr (userId (st p)) = false -> new = []).
Proof.
  revert p. induction es as [|e es IH]; intros p.
  - split; [reflexivity|]. exists []. cbn. rewrite app_nil_r.
    split; reflexivity.
  - cbn [run fold_left].
    change (fold_left (step valid_selector) es ?x)
      with (run valid_selector es x).
    destruct (IH (step valid_selector p e)) as (Hu & new2 & Hposts & Hnone).
    destruct (posts_step valid_selector p e) as (new1 & Hposts1 & Hnone1).
    rewrite userId_step in Hu, Hposts, Hnone.
    split; [exact Hu|]. exists (app new1 new2). split.
    + rewrite Hposts, Hposts1, map_app, app_assoc. reflexivity.
    + intros Hf. rewrite (Hnone Hf), (Hnone1 Hf). reflexivity.
Qed.

Lemma mission_requests_carry_user_witness :
  exists new : list string,
    posts (log (run Scenario.plain_selector
                  [trigger "daily"; settled 0 fetch_failed]
                  {| st := {| userId := Some ""; activeMission := None |};
                     in_flight := []; log := [] |}))
    = map (pair "") new
    /\ new = [].
Proof.
  destruct (proj2 (mission_requests_carry_user Scenario.plain_selector
                     [trigger "daily"; settled 0 fetch_failed]
                     {| st := {| userId := Some ""; activeMission := None |};
                        in_flight := []; log := [] |}))
    as (new & Hposts & Hnone).
  exists new. split; [exact Hposts|]. apply Hnone. reflexivity.
Defined.

End MissionAccounting.

Section Countdown.
Import CooldownTimer.

Lemma ticks_S (k : nat) (t : timer) : ticks (S k) t = tick (ticks k t).
Proof. reflexivity. Qed.

Lemma countdown_invariant (n : Z) (span : option string) (k : nat) :
  let t := ticks k (startCooldownTimer (Some (Js.int_to_string n)) span) in
  if (Z.of_nat k <? Z.max n 1)%Z then
    seconds t = Some (n - Z.of_nat k)%Z /\ running t = true
    /\ refreshes t = 0%nat
    /\ cooldown_time t
       = (fun s => if Nat.eqb k 0 then s
                   else ShrinkEarn.formatCooldown (Z.to_N (n - Z.of_nat k)))
         <$> span
  else running t = false /\ refreshes t = 1%nat.
Proof.
  cbv zeta. induction k as [|k IH].
  - replace (Z.of_nat 0 <? Z.max n 1)%Z with true by (symmetry; apply Z.ltb_lt; lia).
    unfold ticks, startCooldownTimer, default.
    cbn [Nat.iter from_option id seconds running refreshes cooldown_time Nat.eqb].
    rewrite parseInt_int_to_string.
    repeat split; cbn; [f_equal; lia | destruct span; reflexivity].
  - rewrite ticks_S.
    set (t := ticks k _) in *. clearbody t.
    destruct (Z.of_nat k <? Z.max n 1)%Z eqn:Hk.
    + destruct IH as (Hs & Hr & Hn & Hc). apply Z.ltb_lt in Hk.
      unfold tick. rewrite Hr, Hs. cbn [negb fmap option_fmap option_map].
      destruct (n - Z.of_nat k - 1 <=? 0)%Z eqn:Hz.
      * apply Z.leb_le in Hz.
        replace (Z.of_nat (S k) <? Z.max n 1)%Z with false
          by (symmetry; apply Z.ltb_ge; lia).
        cbn. split; [reflexivity | congruence].
      * apply Z.leb_gt in Hz.
        replace (Z.of_nat (S k) <? Z.max n 1)%Z with true
          by (symmetry; apply Z.ltb_lt; lia).
        cbn [seconds running refreshes cooldown_time Nat.eqb].
        replace (n - Z.of_nat (S k))%Z with (n - Z.of_nat k - 1)%Z by lia.
        repeat split; try assumption.
        rewrite Hc. destruct span; reflexivity.
    + destruct IH as (Hr & Hn). apply Z.ltb_ge in Hk.
      replace (Z.of_nat (S k) <? Z.max n 1)%Z with false
        by (symmetry; apply Z.ltb_ge; lia).
      unfold tick. rewrite Hr. cbn. split; assumption.
Qed.

(** X20: a cooldown timer whose [data-seconds] is the decimal text of [n]
    shows [formatCooldown(n - k)] after [k] ticks as long as that is
    positive (when it has a [.cooldown-time] span), without asking for a
    refresh; from tick [n] on (from the first tick when [n] is below one)
    its interval is cleared and the mission list was refreshed exactly
    once. *)
Theorem cooldown_timer_counts_down (n : Z) (span : option string) (k : nat) :
  let t := ticks k (startCooldownTimer (Some (Js.int_to_string n)) span) in
  ((0 < Z.of_nat k < n)%Z ->
   running t = true /\ refreshes t = 0%nat
   /\ cooldown_time t
      = (fun _ => ShrinkEarn.formatCooldown (Z.to_N (n - Z.of_nat k))) <$> span)
  /\ ((0 < Z.of_nat k)%Z -> (n <= Z.of_nat k)%Z ->
      running t = false /\ refreshes t = 1%nat).
Proof.
  cbv zeta. pose proof (countdown_invariant n span k) as H. cbv zeta in H.
  split.
  - intros Hk.
    replace (Z.of_nat k <? Z.max n 1)%Z with true in H
      by (symmetry; apply Z.ltb_lt; lia).
    destruct H as (_ & Hr & Hn & Hc). repeat split; try assumption.
    rewrite Hc. destruct k; [lia|]. reflexivity.
  - intros Hk Hn.
    replace (Z.of_nat k <? Z.max n 1)%Z with false in H
      by (symmetry; apply Z.ltb_ge; lia).
    exact H.
Qed.

Lemma cooldown_timer_counts_down_witness :
  cooldown_time
    (ticks 30 (startCooldownTimer (Some (Js.int_to_string 90)) (Some "1:30")))
  = Some "1:00".
Proof.
  refine (proj2 (proj2 (proj1 (cooldown_timer_counts_down 90 (Some "1:30") 30) _))).
  lia.
Defined.

Lemma nan_timer (span : option string) (k : nat) (t : timer) :
  seconds t = None -> running t = true ->
  seconds (ticks k t) = None /\ running (ticks k t) = true
  /\ refreshes (ticks k t) = refreshes t
  /\ cooldown_time (ticks k t)
     = (fun s => if Nat.eqb k 0 then s else "NaN:NaN") <$> cooldown_time t.
Proof.
  intros Hs Hr. induction k as [|k IH].
  - cbn. repeat split; try assumption. destruct (cooldown_time t); reflexivity.
  - rewrite ticks_S. destruct IH as (Hs' & Hr' & Hn' & Hc').
    unfold tick. rewrite Hr', Hs'. cbn. repeat split; try assumption.
    rewrite Hc'. destruct (cooldown_time t); reflexivity.
Qed.

(** X21: a timer element whose [data-seconds] is missing or does not begin
    with a number counts down from [NaN]: its interval is never cleared, it
    never asks for a refresh of the mission list, and from the first tick
    on its span reads [NaN:NaN]. *)
Theorem unparsable_timer_never_stops (data_seconds span : option string)
    (k : nat) :
  VpnDetector.parseInt (default "undefined" data_seconds) = None ->
  let t := ticks k (startCooldownTimer data_seconds span) in
  running t = true /\ refreshes t = 0%nat
  /\ (k <> 0%nat -> cooldown_time t = (fun _ => "NaN:NaN") <$> span).
Proof.
  intros Hnan. cbv zeta.
  destruct (nan_timer span k (startCooldownTimer data_seconds span))
    as (_ & Hr & Hn & Hc); [exact Hnan | reflexivity |].
  repeat split; try assumption.
  intros Hk. rewrite Hc. destruct k; [congruence|]. reflexivity.
Qed.

Lemma unparsable_timer_never_stops_witness :
  running (ticks 100 (startCooldownTimer None (Some "0:45"))) = true.
Proof.
  refine (proj1 (unparsable_timer_never_stops None (Some "0:45") 100 _)).
  reflexivity.
Defined.

End Countdown.

(** ** Showing an OnClickA ad *)

Section AdCallbacks.
Import Ui OnClickA OnClickaAd.

Lemma show_cases (env : ad_env) (user : string) :
  let r := fst (show env user) in
  let l := snd (show env user) in
  length (callbacks l) = match r with Some _ => 1%nat | None => 0%nat end
  /\ (r = Some true ->
      show_ad env = Some (ad_result true)
      \/ show_ad env = None /\ ad_trigger env = true)
  /\ (In onSkip l -> show_ad env = Some (ad_result false) /\ r = Some false)
  /\ registrations l
     = (if show_ad env is Some (ad_result true) then [user] else [])
  /\ (In (onComplete shown_only) l <-> show_ad env = None /\ ad_trigger env = true)
  /\ (forall e, watch env = failed e ->
      show_ad env = Some (ad_result true) -> r = None /\ callbacks l = []).
Proof.
  cbv zeta. unfold show.
  destruct (show_ad env) as [[[]|m|]|]; [destruct (watch env) as [data|e]| | | |];
    try destruct (watch_success data); try destruct (ad_trigger env);
    cbn; repeat split; try discriminate; try tauto; try congruence;
    try (intros; intuition (try discriminate; try congruence)).
Qed.

Lemma showOnClickaAd_cases (w : window) (env : ad_env) (p : page) :
  let r := fst (fst (showOnClickaAd w env p)) in
  let l := snd (showOnClickaAd w env p) in
  (exists e, r = Some false /\ l = [onError e])
  \/ (r = None /\ l = [])
  \/ (exists e, r = Some false
      /\ l = [get_can_watch (uid_to_string (getUserId w)); onError e]
      /\ (forall d, check env = answered d -> can_watch d = false))
  \/ ((exists d, check env = answered d /\ can_watch d = true)
      /\ r = fst (show env (uid_to_string (getUserId w)))
      /\ l = get_can_watch (uid_to_string (getUserId w))
             :: snd (show env (uid_to_string (getUserId w)))).
Proof.
  cbv zeta. unfold showOnClickaAd.
  destruct (await_loadOnClickaSDK env p) as [[[[]|e]|] p'].
  - destruct (check env) as [d|e].
    + destruct (can_watch d) eqn:Hd; cbn [negb].
      * destruct (show env _) as [r l] eqn:Hs. cbn.
        right. right. right. split; [eauto|]. split; reflexivity.
      * cbn. right. right. left. eexists. split; [reflexivity|].
        split; [reflexivity|]. intros d' Hd'. congruence.
    + cbn. right. right. left. eexists. split; [reflexivity|].
      split; [reflexivity|]. intros d' Hd'. discriminate Hd'.
  - cbn. left. eauto.
  - cbn. right. left. split; reflexivity.
Qed.



(** X23: [POST /api/ad/watch] is sent at most once, for the user of the
    eligibility request, and only after a positive eligibility answer and
    the SDK's report of a completed ad; the fallback without
    [window.show_ad] calls [onComplete] with its fixed object and registers
    nothing; and when the registration request itself fails, the promise
    never settles and no callback is called. *)
Theorem ad_registered_only_when_completed (w : window) (env : ad_env)
    (p : page) :
  let r := fst (fst (showOnClickaAd w env p)) in
  let l := snd (showOnClickaAd w env p) in
  (registrations l = []
   \/ registrations l = [uid_to_string (getUserId w)]
      /\ show_ad env = Some (ad_result true)
      /\ (exists d, check env = answered d /\ can_watch d = true)
      /\ In (get_can_watch (uid_to_string (getUserId w))) l)
  /\ (In (onComplete shown_only) l -> registrations l = [] /\ r = Some true)
  /\ (forall e, watch env = failed e -> registrations l <> [] ->
      r = None /\ callbacks l = []).
Proof.
  cbv zeta.
  destruct (showOnClickaAd_cases w env p)
    as [(e & Hr & Hl) | [(Hr & Hl) | [(e & Hr & Hl & _) | (Hc & Hr & Hl)]]];
    rewrite Hr, Hl.
  - cbn. split; [left; reflexivity|].
    split; [intros [H|[]]; discriminate H | congruence].
  - cbn. split; [left; reflexivity|]. split; [intros [] | congruence].
  - cbn. split; [left; reflexivity|].
    split; [intros [H|[H|[]]]; discriminate H | congruence].
  - destruct (show_cases env (uid_to_string (getUserId w)))
      as (Hn & Ht & Hs & Hreg & Hfb & Hw).
    change (registrations (get_can_watch ?u :: ?l)) with (registrations l).
    change (callbacks (get_can_watch ?u :: ?l)) with (callbacks l).
    rewrite Hreg. split; [|split].
    + destruct (show_ad env) as [[[]|m|]|]; try (left; reflexivity).
      right. repeat split; [exact Hc | left; reflexivity].
    + intros [H|H]; [discriminate H|]. apply Hfb in H as [Hnone Htrig].
      rewrite Hnone. split; [reflexivity|].
      unfold show. rewrite Hnone, Htrig. reflexivity.
    + intros e He Hne. apply (Hw e He).
      destruct (show_ad env) as [[[]|m|]|]; congruence.
Qed.

Lemma ad_registered_only_when_completed_witness :
  fst (fst (showOnClickaAd Scenario.both_sources Scenario.unregistered_ad
              {| onclickaReady := true; scripts := [] |})) = None
  /\ callbacks
       (snd (showOnClickaAd Scenario.both_sources Scenario.unregistered_ad
               {| onclickaReady := true; scripts := [] |})) = [].
Proof.
  refine (proj2 (proj2 (ad_registered_only_when_completed
                          Scenario.both_sources Scenario.unregistered_ad
                          {| onclickaReady := true; scripts := [] |}))
            {| message := Some "Failed to fetch"; description := None |} _ _).
  - reflexivity.
  - discriminate.
Defined.

End AdCallbacks.

(** ** The TON wallet front end *)

Section TonAddress.
Import Ui TonWallet.

Lemma append_cons (c : Ascii.ascii) (a b : string) :
  String c a ++ b = String c (a ++ b).
Proof. reflexivity. Qed.

Lemma append_nil (b : string) : "" ++ b = b.
Proof. reflexivity. Qed.

Lemma length_append (a b : string) :
  String.length (a ++ b) = (String.length a + String.length b)%nat.
Proof.
  induction a as [|c a IH]; [reflexivity|].
  rewrite append_cons. cbn. rewrite IH. reflexivity.
Qed.

Lemma substring_all (s : string) : String.substring 0 (String.length s) s = s.
Proof. induction s as [|c s IH]; cbn; [reflexivity | rewrite IH; reflexivity]. Qed.

Lemma substring_app_l (a b : string) :
  String.substring 0 (String.length a) (a ++ b) = a.
Proof.
  induction a as [|c a IH]; [destruct b; reflexivity|].
  rewrite append_cons. cbn. rewrite IH. reflexivity.
Qed.

Lemma substring_app_r (a b : string) (n m : nat) :
  String.substring (String.length a + n) m (a ++ b) = String.substring n m b.
Proof.
  induction a as [|c a IH]; [reflexivity|].
  rewrite append_cons. cbn. exact IH.
Qed.

Lemma length_substring (s : string) (n m : nat) :
  (n + m <= String.length s)%nat ->
  String.length (String.substring n m s) = m.
Proof.
  revert n m. induction s as [|c s IH]; intros n m H; cbn in H.
  - destruct n, m; cbn; lia.
  - destruct n as [|n].
    + destruct m as [|m]; cbn; [reflexivity|].
      rewrite (IH 0%nat m) by lia. reflexivity.
    + cbn. apply IH. lia.
Qed.

Lemma truthy_of_length (s : string) :
  (0 < String.length s)%nat -> Js.truthy_str s = true.
Proof. destruct s; cbn; [lia | reflexivity]. Qed.

Lemma formatAddress_long (a : string) :
  (12 <= String.length a)%nat ->
  formatAddress (Some a)
  = Some (String.substring 0 6 a ++ "..." ++
          String.substring (String.length a - 4) 4 a).
Proof.
  intros H. unfold formatAddress.
  rewrite truthy_of_length by lia.
  replace (String.length a <? 12)%nat with false
    by (symmetry; apply Nat.ltb_ge; lia).
  reflexivity.
Qed.

(** X24: [formatAddress] returns [null], the empty string and addresses of
    fewer than 12 characters as they are; a longer address becomes 13
    characters, its first six, three dots and its last four; and formatting
    a formatted address changes nothing. *)
Theorem formatAddress_is_idempotent (address : option string) :
  formatAddress (formatAddress address) = formatAddress address
  /\ (forall a : string, address = Some a -> (String.length a < 12)%nat ->
      formatAddress address = address)
  /\ (forall a : string, address = Some a -> (12 <= String.length a)%nat ->
      exists r : string,
        formatAddress address = Some r
        /\ String.length r = 13%nat
        /\ String.substring 0 6 r = String.substring 0 6 a
        /\ String.substring 6 3 r = "..."
        /\ String.substring 9 4 r
           = String.substring (String.length a - 4) 4 a).
Proof.
  assert (Hshort : forall a, (String.length a < 12)%nat ->
                             formatAddress (Some a) = Some a).
  { intros a H. unfold formatAddress.
    replace (String.length a <? 12)%nat with true
      by (symmetry; apply Nat.ltb_lt; lia).
    rewrite orb_true_r. reflexivity. }
  assert (Hlong : forall a, (12 <= String.length a)%nat ->
            exists r : string,
              formatAddress (Some a) = Some r
              /\ String.length r = 13%nat
              /\ String.substring 0 6 r = String.substring 0 6 a
              /\ String.substring 6 3 r = "..."
              /\ String.substring 9 4 r
                 = String.substring (String.length a - 4) 4 a).
  { intros a H.
    pose proof (length_substring a 0 6 ltac:(lia)) as Hp.
    pose proof (length_substring a (String.length a - 4) 4 ltac:(lia)) as Hq.
    set (p := String.substring 0 6 a) in *.
    set (q := String.substring (String.length a - 4) 4 a) in *.
    exists (p ++ "..." ++ q). split; [apply formatAddress_long; exact H|].
    split; [rewrite !length_append, Hp, Hq; reflexivity|].
    split; [rewrite <- Hp at 1; apply substring_app_l|].
    split.
    - change 6%nat with (6 + 0)%nat. rewrite <- Hp at 1.
      rewrite substring_app_r. exact (substring_app_l "..." q).
    - change 9%nat with (6 + 3)%nat. rewrite <- Hp at 1.
      rewrite substring_app_r. rewrite !append_cons, append_nil.
      cbn [String.substring].
      rewrite <- Hq at 1. apply substring_all. }
  split; [|split].
  - destruct address as [a|]; [|reflexivity].
    destruct (Nat.lt_ge_cases (String.length a) 12) as [H|H].
    + rewrite !Hshort by exact H. reflexivity.
    + destruct (Hlong a H) as (r & Hr & Hlen & H6 & _ & H4).
      rewrite Hr. rewrite formatAddress_long by lia.
      rewrite Hlen. change (13 - 4)%nat with 9%nat.
      rewrite H6, H4. rewrite <- formatAddress_long by exact H. exact Hr.
  - intros a -> H. apply Hshort. exact H.
  - intros a -> H. apply Hlong. exact H.
Qed.

Lemma formatAddress_is_idempotent_witness :
  formatAddress (Some "EQshort") = Some "EQshort".
Proof.
  apply (proj1 (proj2 (formatAddress_is_idempotent (Some "EQshort")))
           "EQshort").
  - reflexivity.
  - cbn. lia.
Defined.

(** X25: the wallet's [getUserId] agrees with the two-source [getUserId] of
    the boost module whenever that yields a usable id, and otherwise falls
    back to [window.currentUserId]; its result is usable exactly when one of
    the three sources is. *)
Theorem wallet_getUserId_sources (w : window) (currentUserId : user_id) :
  getUserId w currentUserId
  = (if uid_truthy (AdsgramBoost.getUserId w) then AdsgramBoost.getUserId w
     else if uid_truthy currentUserId then currentUserId
     else AdsgramBoost.getUserId w)
  /\ uid_truthy (getUserId w currentUserId)
     = (Js.truthy_ostr (url_user_id w)
        || match telegram_user_id w with
           | Some id => Js.truthy_num id
           | None => false
           end
        || uid_truthy currentUserId).
Proof.
  unfold getUserId, AdsgramBoost.getUserId.
  destruct (url_user_id w) as [s|], (telegram_user_id w) as [id|];
    cbn [uid_truthy Js.truthy_ostr negb andb orb].
  - destruct (Js.truthy_str s) eqn:Hs; cbn [negb andb orb].
    + cbn [uid_truthy]. rewrite Hs. cbn. rewrite Hs. split; reflexivity.
    + destruct (Js.truthy_num id) eqn:Hid; cbn [uid_truthy negb andb orb].
      * rewrite Hid. cbn. rewrite Hid. split; reflexivity.
      * rewrite Hs. cbn.
        destruct (uid_truthy currentUserId) eqn:Hc; cbn;
          rewrite ?Hs, ?Hc; split; reflexivity.
  - destruct (Js.truthy_str s) eqn:Hs; cbn [negb andb orb].
    + cbn. rewrite Hs. split; reflexivity.
    + cbn. destruct (uid_truthy currentUserId) eqn:Hc; cbn;
        rewrite ?Hs, ?Hc; split; reflexivity.
  - destruct (Js.truthy_num id) eqn:Hid; cbn [uid_truthy negb andb orb].
    + rewrite Hid. cbn. rewrite Hid. split; reflexivity.
    + cbn. destruct (uid_truthy currentUserId) eqn:Hc; cbn;
        rewrite ?Hc; split; reflexivity.
  - cbn. destruct (uid_truthy currentUserId) eqn:Hc; cbn;
      rewrite ?Hc; split; reflexivity.
Qed.

End TonAddress.

Section TonRequests.
Import Ui TonWallet.

Variable trim : string -> string.

Lemma notifications_app (l1 l2 : list effect) :
  notifications (app l1 l2) = app (notifications l1) (notifications l2).
Proof. apply omap_app. Qed.

Lemma links_app (l1 l2 : list effect) :
  links (app l1 l2) = app (links l1) (links l2).
Proof. apply omap_app. Qed.

Lemma withdrawals_app (l1 l2 : list effect) :
  withdrawals (app l1 l2) = app (withdrawals l1) (withdrawals l2).
Proof. apply omap_app. Qed.

Lemma lookups_app (l1 l2 : list effect) :
  lookups (app l1 l2) = app (lookups l1) (lookups l2).
Proof. apply omap_app. Qed.

Lemma validated_offline (a : string) :
  validateTonAddress a failed = true -> String.length a = 48%nat.
Proof.
  unfold validateTonAddress. intros H.
  apply andb_true_iff in H as [_ H]. apply Nat.eqb_eq in H. exact H.
Qed.

Ltac wallet_log :=
  cbn [log tonWalletAddress emit fst snd Js.truthy_ostr negb];
  rewrite ?notifications_app, ?links_app, ?withdrawals_app, ?lookups_app,
    ?length_app;
  cbn.

(** X26: [submitTonWallet] shows exactly one notification whenever the
    input element exists, and does nothing when it does not. It sends a
    link request only for a non-empty trimmed address that passed
    validation, on behalf of an identified user; it changes
    [tonWalletAddress] only to that address, and only after the backend
    confirmed the link. With the validation service unreachable, an address
    it stores has 48 characters. *)
Theorem wallet_linked_only_after_validation (w : window)
    (currentUserId : user_id) (input : option string) (v : answer bool)
    (l : answer link_data) (s : wallet) :
  let s' := submitTonWallet trim w currentUserId input v l s in
  length (notifications (log s'))
  = (length (notifications (log s)) + if input is Some _ then 1 else 0)%nat
  /\ (links (log s') = links (log s)
      \/ exists value : string,
           input = Some value
           /\ Js.truthy_str (trim value) = true
           /\ validateTonAddress (trim value) v = true
           /\ uid_truthy (getUserId w currentUserId) = true
           /\ links (log s')
              = app (links (log s))
                    [(getUserId w currentUserId, trim value)])
  /\ (tonWalletAddress s' = tonWalletAddress s
      \/ exists (value : string) (data : link_data),
           input = Some value
           /\ tonWalletAddress s' = Some (trim value)
           /\ validateTonAddress (trim value) v = true
           /\ l = answered data /\ link_success data = true)
  /\ (v = failed ->
      forall a : string,
        tonWalletAddress s' = Some a -> tonWalletAddress s <> Some a ->
        String.length a = 48%nat).
Proof.
  cbv zeta.
  assert (Hmain :
    length (notifications
              (log (submitTonWallet trim w currentUserId input v l s)))
    = (length (notifications (log s)) + if input is Some _ then 1 else 0)%nat
    /\ (links (log (submitTonWallet trim w currentUserId input v l s))
        = links (log s)
        \/ exists value : string,
             input = Some value
             /\ Js.truthy_str (trim value) = true
             /\ validateTonAddress (trim value) v = true
             /\ uid_truthy (getUserId w currentUserId) = true
             /\ links (log (submitTonWallet trim w currentUserId input v l s))
                = app (links (log s))
                      [(getUserId w currentUserId, trim value)])
    /\ (tonWalletAddress (submitTonWallet trim w currentUserId input v l s)
        = tonWalletAddress s
        \/ exists (value : string) (data : link_data),
             input = Some value
             /\ tonWalletAddress
                  (submitTonWallet trim w currentUserId input v l s)
                = Some (trim value)
             /\ validateTonAddress (trim value) v = true
             /\ l = answered data /\ link_success data = true)).
  { unfold submitTonWallet.
    destruct input as [value|];
      [|split; [lia|]; split; left; reflexivity].
    destruct (Js.truthy_str (trim value)) eqn:Ha; cbn [negb].
    2:{ wallet_log. split; [lia|]. rewrite !app_nil_r.
        split; left; reflexivity. }
    destruct (validateTonAddress (trim value) v) eqn:Hv; cbn [negb].
    2:{ wallet_log. split; [lia|]. rewrite !app_nil_r.
        split; left; reflexivity. }
    unfold linkTonWallet.
    destruct (uid_truthy (getUserId w currentUserId)) eqn:Hu; cbn [negb].
    2:{ wallet_log. split; [lia|]. rewrite !app_nil_r.
        split; left; reflexivity. }
    destruct l as [data|].
    - destruct (link_success data) eqn:Hl; wallet_log.
      + split; [lia|]. rewrite !app_nil_r. split.
        * right. exists value. repeat split; assumption.
        * right. exists value, data. repeat split; assumption.
      + split; [lia|]. rewrite !app_nil_r. split.
        * right. exists value. repeat split; assumption.
        * left. reflexivity.
    - wallet_log. split; [lia|]. rewrite !app_nil_r. split.
      + right. exists value. repeat split; assumption.
      + left. reflexivity. }
  destruct Hmain as (Hn & Hl & Ha).
  split; [exact Hn|]. split; [exact Hl|]. split; [exact Ha|].
  intros -> a Hnew Hold.
  destruct Ha as [Hsame | (value & data & _ & Hset & Hv & _)].
  - rewrite Hsame in Hnew. contradiction.
  - rewrite Hset in Hnew. injection Hnew as <-.
    apply validated_offline. exact Hv.
Qed.

(** X27: [requestTonWithdrawal] never touches [tonWalletAddress] and shows
    exactly one notification on every path. It sends at most one withdrawal
    request, only for an identified user and a non-empty address: the
    stored address when there is one (then without asking [/api/user]),
    otherwise the one [/api/user] answered. It reports success only when a
    withdrawal request was sent and the backend answered [success]. *)
Theorem withdrawal_needs_user_and_address (w : window)
    (currentUserId : user_id) (lookup : answer (option string))
    (o : answer withdraw_data) (s : wallet) :
  let r := requestTonWithdrawal w currentUserId lookup o s in
  tonWalletAddress (snd r) = tonWalletAddress s
  /\ length (notifications (log (snd r)))
     = S (length (notifications (log s)))
  /\ (withdrawals (log (snd r)) = withdrawals (log s)
      /\ fst r = false
      \/ exists a : string,
           withdrawals (log (snd r))
           = app (withdrawals (log s)) [(getUserId w currentUserId, a)]
           /\ uid_truthy (getUserId w currentUserId) = true
           /\ Js.truthy_str a = true
           /\ (if Js.truthy_ostr (tonWalletAddress s)
               then tonWalletAddress s = Some a
                    /\ lookups (log (snd r)) = lookups (log s)
               else lookup = answered (Some a)
                    /\ lookups (log (snd r))
                       = app (lookups (log s))
                             [uid_to_string (getUserId w currentUserId)])
           /\ (fst r = true ->
               exists data : withdraw_data,
                 o = answered data /\ withdraw_success data = true)).
Proof.
  cbv zeta. unfold requestTonWithdrawal.
  destruct (uid_truthy (getUserId w currentUserId)) eqn:Hu; cbn [negb].
  2:{ wallet_log. rewrite !app_nil_r. repeat split; try lia.
      left. split; reflexivity. }
  destruct (Js.truthy_ostr (tonWalletAddress s)) eqn:Hstored.
  - destruct (tonWalletAddress s) as [a|] eqn:Hst; [|discriminate Hstored].
    cbn [Js.truthy_ostr] in Hstored.
    cbn [Js.truthy_ostr negb default from_option id]. rewrite Hstored.
    cbn [negb default from_option id].
    destruct o as [data|]; [destruct (withdraw_success data) eqn:Hw|];
      wallet_log; rewrite ?app_nil_r, ?Hst;
      (split; [reflexivity|]); (split; [lia|]);
      right; exists a; repeat split; try assumption; try reflexivity;
      try discriminate.
    intros _. exists data. split; [reflexivity | exact Hw].
  - destruct lookup as [[a|]|].
    + cbn [Js.truthy_ostr]. destruct (Js.truthy_str a) eqn:Ha; cbn [negb].
      * destruct o as [data|]; [destruct (withdraw_success data) eqn:Hw|];
          wallet_log; rewrite ?app_nil_r;
          (split; [reflexivity|]); (split; [lia|]);
          right; exists a; repeat split; try assumption; try reflexivity;
          try discriminate.
        intros _. exists data. split; [reflexivity | exact Hw].
      * wallet_log. rewrite ?app_nil_r.
        split; [reflexivity|]. split; [lia|]. left. split; reflexivity.
    + wallet_log. rewrite ?app_nil_r.
      split; [reflexivity|]. split; [lia|]. left. split; reflexivity.
    + wallet_log. rewrite ?app_nil_r.
      split; [reflexivity|]. split; [lia|]. left. split; reflexivity.
Qed.

End TonRequests.

Lemma wallet_linked_only_after_validation_witness :
  String.length Scenario.ton_address = 48%nat.
Proof.
  refine (proj2 (proj2 (proj2
            (wallet_linked_only_after_validation (fun s => s)
               Scenario.both_sources Ui.uid_null
               (Some Scenario.ton_address) TonWallet.failed
               (TonWallet.answered
                  {| TonWallet.link_success := true;
                     TonWallet.link_error := None |})
               {| TonWallet.tonWalletAddress := None;
                  TonWallet.log := [] |})))
            _ Scenario.ton_address _ _).
  - reflexivity.
  - reflexivity.
  - discriminate.
Defined.

Lemma withdrawal_needs_user_and_address_witness :
  exists data : TonWallet.withdraw_data,
    TonWallet.answered
      {| TonWallet.withdraw_success := true;
         TonWallet.withdraw_message := None;
         TonWallet.withdraw_error := None |}
    = TonWallet.answered data
    /\ TonWallet.withdraw_success data = true.
Proof.
  destruct (proj2 (proj2
              (withdrawal_needs_user_and_address Scenario.both_sources
                 Ui.uid_null (TonWallet.answered None)
                 (TonWallet.answered
                    {| TonWallet.withdraw_success := true;
                       TonWallet.withdraw_message := None;
                       TonWallet.withdraw_error := None |})
                 {| TonWallet.tonWalletAddress := Some Scenario.ton_address;
                    TonWallet.log := [] |})))
    as [[_ Hfalse] | (a & _ & _ & _ & _ & Hok)].
  - discriminate Hfalse.
  - apply Hok. reflexivity.
Defined.

(** ** The daily check-in *)

Section CheckinButton.
Import Ui Checkin.

Lemma hapticFeedback_frame (type : string) (p : page) :
  checkin_btn (hapticFeedback type p) = checkin_btn p
  /\ exists new : list effect,
       log (hapticFeedback type p) = app (log p) new
       /\ ~ In update_pts_ui new.
Proof.
  unfold hapticFeedback. destruct (haptic_feedback (win p)).
  - destruct (_ || _); cbn; (split; [reflexivity|]); eexists;
      (split; [reflexivity|]); intros [H|[]]; discriminate H.
  - split; [reflexivity|]. exists []. rewrite app_nil_r.
    split; [reflexivity | intros []].
Qed.

Lemma checkin_finally (q : page) (btn : button) :
  checkin_btn q = Some btn ->
  checkin_btn (doCheckin_finally q)
  = Some {| disabled := false; innerHTML := innerHTML btn;
            completed := completed btn |}
  /\ log (doCheckin_finally q) = log q.
Proof.
  intros H. unfold doCheckin_finally. rewrite H.
  unfold updateCheckinButton, with_btn.
  cbn. rewrite H. cbn. split; reflexivity.
Qed.

Lemma checkin_try (o : answer checkin_data) (double_option : result unit)
    (q : page) :
  checkin_btn (doCheckin_try o double_option q) = checkin_btn q
  /\ exists new : list effect,
       log (doCheckin_try o double_option q) = app (log q) new
       /\ (In update_pts_ui new <->
           exists data : checkin_data,
             o = answered data /\ checkin_success data = true).
Proof.
  unfold doCheckin_try. cbv zeta. destruct o as [data|].
  - destruct (checkin_success data) eqn:Hs.
    + match goal with
      | |- context [hapticFeedback "success" ?x] =>
          destruct (hapticFeedback_frame "success" x)
            as (Hb & new & Hlog & Hnew)
      end.
      assert (Hyes : exists data0 : checkin_data,
                       answered data = answered data0
                       /\ checkin_success data0 = true)
        by (exists data; split; [reflexivity | exact Hs]).
      destruct (doubled data) as [[]|]; [| destruct double_option |];
        cbn [checkin_btn log emit]; rewrite Hb, Hlog;
        cbn [checkin_btn log emit]; (split; [reflexivity|]);
        rewrite <- !app_assoc; eexists; (split; [reflexivity|]);
        (split; [intros _; exact Hyes|]); intros _;
        rewrite !in_app_iff; cbn; tauto.
    + match goal with
      | |- context [hapticFeedback "error" ?x] =>
          destruct (hapticFeedback_frame "error" x)
            as (Hb & new & Hlog & Hnew)
      end.
      rewrite Hb, Hlog. cbn [checkin_btn log emit].
      split; [reflexivity|].
      rewrite <- !app_assoc. eexists. split; [reflexivity|]. split.
      * rewrite !in_app_iff. cbn.
        intros [[H|[]]|H]; [discriminate H | tauto].
      * intros (data0 & Hd & Hs0). injection Hd as <-. congruence.
  - cbn. split; [reflexivity|]. eexists. split; [reflexivity|]. split.
    + intros [H|[]]. discriminate H.
    + intros (data0 & Hd & _). discriminate Hd.
Qed.

Lemma updatePtsUI_frame (status : option (bool * option checkin_status))
    (p : page) :
  log (updatePtsUI status p) = log p
  /\ win (updatePtsUI status p) = win p
  /\ (renders status = false -> updatePtsUI status p = p)
  /\ (forall btn : button, checkin_btn p = Some btn ->
      exists btn' : button, checkin_btn (updatePtsUI status p) = Some btn'
        /\ (forall cs : checkin_status, status = Some (true, Some cs) ->
            btn' = {| disabled := done_today cs;
                      innerHTML := if done_today cs then checkin_done
                                   else checkin_available (base_reward cs);
                      completed := done_today cs |})).
Proof.
  unfold updatePtsUI, updateCheckinButton.
  destruct status as [[[] [cs|]]|]; cbn [renders];
    destruct (checkin_btn p) as [b|] eqn:Hb;
    try destruct (done_today cs) eqn:Hd; cbn;
    repeat split; try reflexivity; try discriminate;
    intros btn Hbtn; try discriminate Hbtn;
    rewrite ?Hb; eexists; (split; [reflexivity|]);
    intros cs' Hcs; try discriminate Hcs;
    injection Hcs as <-; rewrite Hd; reflexivity.
Qed.

Lemma refreshed_frame (between : list (option (bool * option checkin_status)))
    (p : page) :
  log (refreshed between p) = log p
  /\ win (refreshed between p) = win p
  /\ (existsb renders between = false -> refreshed between p = p)
  /\ (forall btn : button, checkin_btn p = Some btn ->
      exists btn' : button, checkin_btn (refreshed between p) = Some btn').
Proof.
  revert p. induction between as [|status between IH]; intros p.
  - cbn. repeat split. intros btn Hbtn. eauto.
  - cbn [refreshed fold_left existsb].
    change (fold_left _ between ?q) with (refreshed between q).
    destruct (IH (updatePtsUI status p)) as (Hl & Hw & Hq & Hb).
    destruct (updatePtsUI_frame status p) as (Hl1 & Hw1 & Hq1 & Hb1).
    split; [congruence|]. split; [congruence|]. split.
    + intros Hnone. apply orb_false_iff in Hnone as [H1 H2].
      rewrite (Hq1 H1). apply (IH p). exact H2.
    + intros btn Hbtn. destruct (Hb1 btn Hbtn) as (btn1 & Hbtn1 & _).
      apply (Hb btn1 Hbtn1).
Qed.

Lemma refreshed_last (before : list (option (bool * option checkin_status)))
    (cs : checkin_status) (p : page) (btn : button) :
  checkin_btn p = Some btn ->
  checkin_btn (refreshed (app before [Some (true, Some cs)]) p)
  = Some {| disabled := done_today cs;
            innerHTML := if done_today cs then checkin_done
                         else checkin_available (base_reward cs);
            completed := done_today cs |}.
Proof.
  intros Hbtn. unfold refreshed. rewrite fold_left_app. cbn [fold_left].
  change (fold_left _ before p) with (refreshed before p).
  destruct (refreshed_frame before p) as (_ & _ & _ & Hb).
  destruct (Hb btn Hbtn) as (btn1 & Hbtn1).
  destruct (updatePtsUI_frame (Some (true, Some cs)) (refreshed before p))
    as (_ & _ & _ & Hb1).
  destruct (Hb1 btn1 Hbtn1) as (btn2 & Hbtn2 & Hval).
  rewrite Hbtn2, (Hval cs eq_refl). reflexivity.
Qed.

(** X28: for an identified user and an existing check-in button,
    [doCheckin] always ends with the button enabled: its [finally] block
    resets [disabled] and calls [updateCheckinButton()] without a status,
    which renders nothing. The markup the button ends with is the one it
    had when the answer arrived: the processing markup set before the
    request when no status refresh wrote the button in the meantime, and
    otherwise what the last such refresh wrote, so that a refresh reporting
    the check-in as done leaves an enabled button with the done marker. The
    request is sent first; a refresh through [updatePtsUI] is scheduled
    exactly after a successful check-in. Without a user id the button is
    not touched and no request is sent. *)
Theorem checkin_button_ends_enabled
    (between : list (option (bool * option checkin_status)))
    (o : answer checkin_data) (double_option : result unit) (p : page) :
  (uid_truthy (OnClickA.getUserId (win p)) = false ->
   checkin_btn (doCheckin between o double_option p) = checkin_btn p
   /\ log (doCheckin between o double_option p)
      = app (log p) [toast "Error: Usuario no identificado" error])
  /\ (uid_truthy (OnClickA.getUserId (win p)) = true ->
      forall btn : button,
        checkin_btn p = Some btn ->
        let p' := doCheckin between o double_option p in
        (exists shown : button,
           checkin_btn (refreshed between (snd (doCheckin_start p)))
           = Some shown
           /\ checkin_btn p'
              = Some {| disabled := false; innerHTML := innerHTML shown;
                        completed := completed shown |})
        /\ (existsb renders between = false ->
            checkin_btn p'
            = Some {| disabled := false; innerHTML := processing;
                      completed := completed btn |})
        /\ (forall (before : list (option (bool * option checkin_status)))
                   (status : checkin_status),
              between = app before [Some (true, Some status)] ->
              checkin_btn p'
              = Some {| disabled := false;
                        innerHTML := if done_today status then checkin_done
                                     else checkin_available
                                            (base_reward status);
                        completed := done_today status |})
        /\ exists new : list effect,
             log p'
             = app (log p)
                   (post_checkin (uid_to_string (OnClickA.getUserId (win p)))
                    :: new)
             /\ (In update_pts_ui new <->
                 exists data : checkin_data,
                   o = answered data /\ checkin_success data = true)).
Proof.
  split.
  - intros Hu. unfold doCheckin, doCheckin_start. rewrite Hu. cbn.
    split; reflexivity.
  - intros Hu btn Hbtn. cbv zeta.
    assert (Hstart : doCheckin_start p
                     = (true,
                        emit [post_checkin
                                (uid_to_string (OnClickA.getUserId (win p)))]
                          (with_btn (fun btn =>
                             {| disabled := true; innerHTML := processing;
                                completed := completed btn |}) p)))
      by (unfold doCheckin_start; rewrite Hu; reflexivity).
    unfold doCheckin. rewrite Hstart. cbn [snd].
    set (p0 := emit _ (with_btn _ p)).
    assert (Hb0 : checkin_btn p0
                  = Some {| disabled := true; innerHTML := processing;
                            completed := completed btn |})
      by (subst p0; cbn; rewrite Hbtn; reflexivity).
    assert (Hl0 : log p0
                  = app (log p)
                      [post_checkin
                         (uid_to_string (OnClickA.getUserId (win p)))])
      by (subst p0; reflexivity).
    clearbody p0.
    destruct (refreshed_frame between p0) as (Hrl & _ & Hquiet & Hrb).
    destruct (Hrb _ Hb0) as (shown & Hshown).
    destruct (checkin_try o double_option (refreshed between p0))
      as (Hb & new & Hlog & Hnew).
    rewrite Hshown in Hb.
    destruct (checkin_finally _ _ Hb) as (Hfb & Hfl).
    split; [|split; [|split]].
    + exists shown. split; [exact Hshown | exact Hfb].
    + intros Hnone. rewrite Hfb.
      rewrite (Hquiet Hnone) in Hshown. rewrite Hb0 in Hshown.
      injection Hshown as <-. reflexivity.
    + intros before status ->. rewrite Hfb.
      rewrite (refreshed_last before status p0 _ Hb0) in Hshown.
      injection Hshown as <-. reflexivity.
    + rewrite Hfl, Hlog, Hrl, Hl0, <- app_assoc.
      exists new. split; [reflexivity | exact Hnew].
Qed.

Lemma checkin_button_ends_enabled_witness :
  checkin_btn (doCheckin [] failed (ok tt) Scenario.checkin_page)
  = Some {| disabled := false; innerHTML := processing; completed := false |}.
Proof.
  refine (proj1 (proj2 (proj2 (checkin_button_ends_enabled [] failed (ok tt)
                                 Scenario.checkin_page) _
                          {| disabled := false;
                             innerHTML := page_markup "Check-in";
                             completed := false |} _)) _).
  - reflexivity.
  - reflexivity.
  - reflexivity.
Defined.

(** A status refresh that reports the check-in as done while the request is
    pending leaves the done marker on an enabled button. *)
Example checkin_done_but_enabled :
  checkin_btn
    (doCheckin [Some (true, Some {| done_today := true; can_double := false;
                                    base_reward := 5 |})]
       failed (ok tt) Scenario.checkin_page)
  = Some {| disabled := false; innerHTML := checkin_done; completed := true |}.
Proof. reflexivity. Qed.

Lemma checkin_toasts_app (l1 l2 : list effect) :
  toasts (app l1 l2) = app (toasts l1) (toasts l2).
Proof. apply omap_app. Qed.

Lemma checkin_toasts_emit (e : list effect) (p : page) :
  toasts (log (emit e p)) = app (toasts (log p)) (toasts e).
Proof. apply checkin_toasts_app. Qed.

Lemma checkin_toasts_haptic (type : string) (p : page) :
  toasts (log (hapticFeedback type p)) = toasts (log p).
Proof.
  unfold hapticFeedback. destruct (haptic_feedback (win p)); [|reflexivity].
  destruct (_ || _); rewrite checkin_toasts_emit; apply app_nil_r.
Qed.

Lemma checkin_finally_log (q : page) :
  log (doCheckin_finally q) = log q.
Proof.
  unfold doCheckin_finally.
  destruct (checkin_btn q) as [btn|] eqn:Hq; [|reflexivity].
  unfold updateCheckinButton, with_btn. cbn. rewrite Hq. reflexivity.
Qed.

(** X29: a check-in of an identified user shows exactly one toast, with one
    exception: when the check-in succeeded, its status is not doubled and
    the call of [showDoubleOption] throws (the function is not defined in
    this file), the success toast is followed by the connection-error toast
    of the [catch] block. The status refreshes that resolve in the meantime
    show none. *)
Theorem checkin_shows_one_toast
    (between : list (option (bool * option checkin_status)))
    (o : answer checkin_data) (double_option : result unit) (p : page) :
  uid_truthy (OnClickA.getUserId (win p)) = true ->
  exists ts : list (string * toast_type),
    toasts (log (doCheckin between o double_option p))
    = app (toasts (log p)) ts
    /\ (length ts = 1%nat
        \/ exists (data : checkin_data) (e : thrown) (m : string),
             o = answered data /\ checkin_success data = true
             /\ doubled data = Some false /\ double_option = throw e
             /\ ts = [(m, success); ("Error de conexión", error)])
    /\ (forall (data : checkin_data) (e : thrown),
          o = answered data -> checkin_success data = true ->
          doubled data = Some false -> double_option = throw e ->
          length ts = 2%nat).
Proof.
  intros Hu. unfold doCheckin, doCheckin_start. rewrite Hu. cbn [negb].
  cbv zeta. rewrite checkin_finally_log.
  match goal with
  | |- context [refreshed between ?q] =>
      destruct (refreshed_frame between q) as (Hrl & _)
  end.
  unfold doCheckin_try.
  destruct o as [data|].
  - destruct (checkin_success data) eqn:Hs.
    + destruct (doubled data) as [[]|] eqn:Hd;
        [| destruct double_option as [u|e] |];
        rewrite ?checkin_toasts_emit, ?checkin_toasts_haptic,
          ?checkin_toasts_emit, ?Hrl, ?checkin_toasts_emit, <- ?app_assoc;
        eexists; (split; [reflexivity|]);
        (split; [first [left; reflexivity
                       | right; exists data, e; eexists;
                         repeat split; first [assumption | reflexivity]]
                | intros data0 e0 H0 Hs0 Hd0 He0;
                  first [reflexivity | congruence]]).
    + rewrite ?checkin_toasts_emit, ?checkin_toasts_haptic,
        ?checkin_toasts_emit, ?Hrl, ?checkin_toasts_emit, <- ?app_assoc.
      eexists. split; [reflexivity|].
      split; [left; reflexivity
             | intros data0 e0 H0 Hs0 Hd0 He0; congruence].
  - rewrite ?checkin_toasts_emit, ?Hrl, ?checkin_toasts_emit, <- ?app_assoc.
    eexists. split; [reflexivity|].
    split; [left; reflexivity
           | intros data0 e0 H0 Hs0 Hd0 He0; discriminate H0].
Qed.

Lemma checkin_shows_one_toast_witness :
  exists ts : list (string * toast_type),
    toasts (log (doCheckin []
                   (answered {| checkin_success := true;
                                checkin_message := Some "Check-in";
                                pts_earned := Some 5%Z;
                                doubled := Some false |})
                   (throw {| message := Some "showDoubleOption is not defined";
                             description := None |})
                   Scenario.checkin_page))
    = ts
    /\ length ts = 2%nat.
Proof.
  destruct (checkin_shows_one_toast []
              (answered {| checkin_success := true;
                           checkin_message := Some "Check-in";
                           pts_earned := Some 5%Z;
                           doubled := Some false |})
              (throw {| message := Some "showDoubleOption is not defined";
                        description := None |})
              Scenario.checkin_page eq_refl)
    as (ts & Hts & _ & Hlen).
  exists ts. split; [exact Hts|].
  apply (Hlen _ _ eq_refl eq_refl eq_refl eq_refl).
Defined.

End CheckinButton.
